(** * Monad-Trojan: a shallow embedding of the trading bot's decision logic

    The Python sources embedded here are [config.py], [blockchain.py],
    [portfolio.py], [notification_monitor.py], [security.py] and
    [database.py]; the passphrase service and the snapshot operations of the
    store follow the specification.  Strings are byte strings
    ([String.string]); Python
    dictionaries are insertion-ordered association lists; [Decimal] balances
    are rationals; binary64 floats are [spec_float] values at precision 53;
    exceptions are explicit results. *)

From Stdlib Require Import ZArith QArith Qabs Qround List String Ascii Bool Lia.
From Stdlib Require Import SpecFloat.
Import ListNotations.

Local Open Scope string_scope.
Local Open Scope Z_scope.

(* ================================================================== *)
(** * Definitions *)
(* ================================================================== *)

(** ** Python string primitives *)

Module PyStr.

(** [c.lower()] on one byte: the letters [A]..[Z] move to [a]..[z].  No
    character outside ASCII lower-cases to a digit or to one of the letters
    [a]..[f], [x], so on the hexadecimal keys of the allow-list the byte
    model and Python's Unicode [str.lower] agree. *)
Definition lower_ascii (c : ascii) : ascii :=
  let n := nat_of_ascii c in
  if (Nat.leb 65 n && Nat.leb n 90)%bool then ascii_of_nat (n + 32) else c.

(** [s.lower()] *)
Fixpoint lower (s : string) : string :=
  match s with
  | EmptyString => EmptyString
  | String c r => String (lower_ascii c) (lower r)
  end.

(** [s.startswith(p)] *)
Fixpoint startswith (s p : string) {struct p} : bool :=
  match p, s with
  | EmptyString, _ => true
  | String _ _, EmptyString => false
  | String a p', String b s' => Ascii.eqb a b && startswith s' p'
  end.

(** [s.endswith(p)]: the last [len(p)] characters of [s] are [p]. *)
Definition endswith (s p : string) : bool :=
  (Nat.leb (String.length p) (String.length s)
   && String.eqb
        (substring (String.length s - String.length p) (String.length p) s) p)%bool.

(** [x in xs] for a list of strings, or for the keys of a dict. *)
Definition str_in (x : string) (xs : list string) : bool :=
  existsb (String.eqb x) xs.

(** Truthiness of a string: [bool(s)], false on the empty string only. *)
Definition truthy (s : string) : bool :=
  match s with EmptyString => false | String _ _ => true end.

End PyStr.

(** ** config.py *)

Module Config.

(** [WETH_ADDRESS] *)
Definition WETH_ADDRESS : string := "0x760afe86e5de5fa0ee542fc7b7b713e1c5425701".

(** [CHAIN_ID] *)
Definition CHAIN_ID : Z := 10143.

(** [DEX_ROUTER_ADDRESS], at its default. *)
Definition DEX_ROUTER_ADDRESS : string := "0xfb8e1c3b833f9e67a71c859a132cf783b645e436".

(** [VERIFIED_TOKENS]: lower-cased contract address, then symbol. *)
Definition VERIFIED_TOKENS : list (string * string) := [
  ("0x760afe86e5de5fa0ee542fc7b7b713e1c5425701", "WMON");
  ("0xf817257fed379853cde0fa4f97ab987181b1e5ea", "USDC");
  ("0xb2f82d0f38dc453d596ad40a37799446cc89274a", "aprMON");
  ("0x88b8e2161dedc77ef4ab7585569d2415a1c1055d", "USDT");
  ("0xe0590015a873bf326bd645c3e1266d4db41c4e6b", "CHOG");
  ("0x0f0bdedbf0f83cd1ee3974779bcb7315f9808c714", "DAK");
  ("0xfe140e1dce99be9f4f15d657cd9b7bf622270c50", "YAKI");
  ("0xaeef2f6b429cb59c9b2d7bb2141ada993e8571c3", "gMON");
  ("0x3a98250f98dd388c211206983453837c8365bdc1", "shMON");
  ("0xb5a30b0fdc5ea94a52fdc42e3e9760cb8449fb37", "WETH");
  ("0xe1d2439b75fb9746e7bc6cb777ae10aa7f7ef9c5", "sMON");
  ("0x268e4e24e0051ec27b3d27a95977e71ce6875a05", "BEAN");
  ("0xc8527e96c3cb9522f6e35e95c0a28feab8144f15", "MAD");
  ("0x89e4a70de5f2ae468b18b6b6300b249387f9adf0", "fMON");
  ("0xcf5a6076cfa32686c0df13abada2b40dec133f1d", "WBTC");
  ("0xcc5b42f9d6144dfdfb6fb3987a2a916af902f5f8", "JAI");
  ("0x5d876d73f4441d5f2438b1a3e2a51771b337f27a", "USDC");
  ("0xb5481b57ff4e23ea7d2fda70f3137b16d0d99118", "CVE");
  ("0x6bb379a2056d1304e73012b99338f8f581ee2e18", "WBTC");
  ("0x0efed4d9fb7863ccc7bb392847c08dcd00fe9be2", "muBOND");
  ("0x5387c85a4965769f6b0df430638a1388493486f1", "WSOL");
  ("0x4aa50e8208095d9594d18e8e3008abb811125dce", "MOON");
  ("0x7fdf92a43c54171f9c278c67088ca43f2079d09b", "LUSD");
  ("0x5b54153100e40000f6821a7ea8101dc8f5186c2d", "SWETH");
  ("0x57c914e3240c837ebe87f096e0b4d9a06e3f489b", "monUSD");
  ("0x38a3321a419b8688f539a600e3c7898a0528737f", "BLZP");
  ("0xb38bb873cca844b20a9ee448a87af3626a6e1ef5", "MIST");
  ("0x04a9d9d4aea93f512a4c7b71993915004325ed38", "HEDGE");
  ("0x786f4aa162457ecdf8fa4657759fa3e86c9394ff", "MAD-LP");
  ("0xceb564775415b524640d9f688278490a7f3ef9cd", "iceMON");
  ("0x954a9b30f5aece2c1581e33b16d9ddfcd473a0f8", "KESO");
  ("0x0e1c9362cdea1d556e5ff89140107126baaf6b09", "aprMON");
  ("0x199c0da6f291a897302300aaae4f20d139162916", "stMON");
  ("0xbdd352f339e27e07089039ba80029f9135f6146f", "USDm");
  ("0xa2426cd97583939e79cfc12ac6e9121e37d0904d", "PINGU");
  ("0xfa47b094a9666422848f459b54dab88b0e8255e9", "MONKA");
  ("0x4c632c40c2dcd39c20ee7ecdd6f9743a3c7ffe6b", "TED");
  ("0x3b428df09c3508d884c30266ac1577f099313cf6", "mamaBTC");
  ("0xca9a4f46faf5628466583486fd5ace8ac33ce126", "OCTO");
  ("0x0c0c92fcf37ae2cbcc512e59714cd3a1a1cbc411", "MONDA");
  ("0x43e52cbc0073caa7c0cf6e64b576ce2d6fb14eb8", "NOM");
  ("0x8f3a8ae1f1859636e82ca4e30db9fb129b02d825", "suUSD");
  ("0xc85548e0191cd34be8092b0d42eb4e45eba0d581", "NSTR");
  ("0x8589a0dd9ecd77b7d70ff76147dce366bf31254e", "gigaETH");
  ("0x301f38161dd907b7602c91b8e6303ed6992c0d8e", "MONDA-V2");
  ("0x93e9cae50424c7a4e3c5eceb7855b6dab74bc803", "NAP");
  ("0x7b55354900d2a7c241785fe178e90a0f7685bf57", "HASH");
  ("0xcd6b9ff949bd7336f29cc9520ff9fdf200e8b8f6", "AUSD");
  ("0x2c7d4cc1f7377a2a2b581669b40e5b3383b9a949", "OWL");
  ("0x8a86d48c867b76ff74a36d3af4d2f1e707b143ed", "RBSD");
  ("0x11517333d9a65ca3331c3c60bb288fa98013a2ed", "CHOG");
  ("0xb5e5fa5837304fea6b9ce7e09623e63669ad95fb", "NFT");
  ("0x3247b7d8100556ce6fc1a4141c117104ef806850", "suETH");
  ("0xfe5bc01ff7631d495630331e02b4aeaa0bf9840d", "ANGLER");
  ("0x4961c832469fcbb468c0a794de32faaa30ccd2f6", "suBTC");
  ("0x8a056df4d7f23121a90aca1ca1364063d43ff3b8", "KEYS");
  ("0x6ce1890eeadae7db01026f4b294cb8ec5ecc6563", "HALLI");
  ("0x3552f8254263ea8880c7f7e25cb8dbbd79c0c4b1", "BMONAD");
  ("0x44369aafdd04cd9609a57ec0237884f45dd80818", "P1");
  ("0x24d2fd6c5b29eebd5169cc7d6e8014cd65decd73", "TFAT");
  ("0x92eac40c98b383ea0f0efda747bdac7ac891d300", "RED");
  ("0xd875ba8e2cad3c0f7e2973277c360c8d2f92b510", "USDX");
  ("0x4a5c952c446d5c4bba9f4517b473ec1718c5f27a", "BUN");
  ("0x7a1a3679a5fe97d1da3683c3807a179e26f532b1", "ZF");
  ("0x6200db750d4a6a2ed84181dbddc5e0029c238cba", "RTMD");
  ("0xd2707f681ee0c1b5f3a0eb2618628477f31edbce", "KOL");
  ("0xa998716fdc8da0bd024235dd208a70d257eca763", "APR");
  ("0x88aac8165144564ee8b8abdc9099992345fbb56a", "NEX");
  ("0x8d71ccf6bc1358e677e84ddcbe8386ccb36134ea", "$DASH");
  ("0x0569049e527bb151605eec7bf48cfd55bd2bf4c8", "DAKIMAKURA");
  ("0x739d4f237623583852db0d102b37996c35f400b5", "Doon");
  ("0x1b4cb47622705f0f67b6b18bbd1cb1a91fc77d37", "shMON");
  ("0xb91615806c743c03d7584d7c688dffd2e7077af4", "moonpig");
  ("0xfaaad2849f35282e96151a4944bd9e0082b60a08", "MNAD");
  ("0xf793fde80c3a92eb8a6074803ca6976c87b1a90a", "BERZAN");
  ("0x111f0d8c86c61cc73713720d7899e1b40d8297d5", "LONG");
  ("0x8a618e0266a87581c5d3d5135afe6ea16bcf5d52", "PN");
  ("0x1498fcb65fcf4237b57b75fafecdebbdef22e119", "MONFUN");
  ("0xafb0d64f308423d16ef8833b901dbdd750554438", "NOM");
  ("0x6c6a73cb3549c8480f08420ee2e5dfaf9d2d4cdb", "LINK")
].

(** [HIGH_VALUE_TOKENS] *)
Definition HIGH_VALUE_TOKENS : list string :=
  ["MON"; "MONAD"; "WMON"; "USDC"; "USDT"; "WETH"; "WBTC"].

(** One entry of [GAS_PRICE_MODES], in gwei. *)
Record GasParams := {
  maxFeePerGas : Z;
  maxPriorityFeePerGas : Z
}.

(** [GAS_PRICE_MODES] *)
Definition GAS_PRICE_MODES : list (string * GasParams) :=
  [ ("normal",    {| maxFeePerGas := 100; maxPriorityFeePerGas := 2 |});
    ("fast",      {| maxFeePerGas := 150; maxPriorityFeePerGas := 5 |});
    ("very_fast", {| maxFeePerGas := 200; maxPriorityFeePerGas := 10 |}) ].

End Config.

(** ** Python dictionaries with string keys

    A [dict] keeps its keys in insertion order; assigning to a key that is
    already present replaces the value where it stands. *)

Module PyDict.

Definition dict (V : Type) : Type := list (string * V).

Section Ops.
Context {V : Type}.

(** [d.get(k)] *)
Fixpoint get (k : string) (d : dict V) : option V :=
  match d with
  | [] => None
  | (k', v) :: r => if String.eqb k k' then Some v else get k r
  end.

(** [d[k] = v] *)
Fixpoint set (k : string) (v : V) (d : dict V) : dict V :=
  match d with
  | [] => [(k, v)]
  | (k', v') :: r =>
      if String.eqb k k' then (k, v) :: r else (k', v') :: set k v r
  end.

(** [k in d] *)
Definition mem (k : string) (d : dict V) : bool :=
  match get k d with Some _ => true | None => false end.

(** [d.keys()] and [d.items()] *)
Definition keys (d : dict V) : list string := map fst d.
Definition items (d : dict V) : list (string * V) := d.

(** [bool(d)]: a dict is truthy when it has an entry. *)
Definition truthy (d : dict V) : bool :=
  match d with [] => false | _ :: _ => true end.

(** [d.get(k, default)] *)
Definition get_default (k : string) (default : V) (d : dict V) : V :=
  match get k d with Some v => v | None => default end.

(** A run of assignments, some of them skipped. *)
Definition put (d : dict V) (e : option (string * V)) : dict V :=
  match e with Some (k, v) => set k v d | None => d end.

Definition put_all (es : list (option (string * V))) (d : dict V) : dict V :=
  fold_left put es d.
End Ops.

End PyDict.

(** ** Numbers read from JSON text *)

(** A balance arrives as a string.  [float(s)] and [Decimal(s)] accept a
    numeral and raise on anything else; the empty string is falsy. *)
Inductive num_str : Type :=
| NumStr (q : Q)
| EmptyStr
| BadStr.

Definition float_of_str (s : num_str) : option Q :=
  match s with NumStr q => Some q | _ => None end.

Definition num_str_truthy (s : num_str) : bool :=
  match s with EmptyStr => false | _ => true end.

(** [a > b] and [a == b] on numbers. *)
Definition Qgtb (a b : Q) : bool := negb (Qle_bool a b).
Definition Qeqb (a b : Q) : bool := Qeq_bool a b.

(** ** Python's [Decimal] arithmetic

    A finite [Decimal] is the rational it stands for.  The result of an
    arithmetic operation is the exact result rounded by the default
    context: 28 significant digits, ties to even, exponents from -999999 to
    999999; [Overflow] is trapped and raises, underflow is not. *)

Module PyDecimal.

Definition context_prec : Z := 28.
Definition Emax : Z := 999999.
Definition Emin : Z := -999999.
Definition Etiny : Z := Emin - (context_prec - 1).

(** The number of decimal digits of a positive integer. *)
Fixpoint digits_aux (fuel : nat) (n : Z) : Z :=
  match fuel with
  | O => 0
  | S f => if n <? 10 then 1 else 1 + digits_aux f (n / 10)
  end.

Definition digits (n : Z) : Z := digits_aux (S (Z.to_nat (Z.log2 n))) n.

(** The exponent of the leading digit of a number other than zero: the [k]
    with [10 ^ k <= |q| < 10 ^ (k + 1)]. *)
Definition adjusted (q : Q) : Z :=
  let n := Z.abs (Qnum q) in
  let d := Zpos (Qden q) in
  let k := digits n - digits d in
  if (if 0 <=? k then d * 10 ^ k <=? n else d <=? n * 10 ^ (- k))
  then k else k - 1.

(** The integer nearest to [n / d], ties to the even one; [0 <= n], [0 < d]. *)
Definition round_half_even (n d : Z) : Z :=
  let q := n / d in
  match 2 * (n mod d) ?= d with
  | Lt => q
  | Gt => q + 1
  | Eq => if Z.even q then q else q + 1
  end.

(** [q] rounded to a multiple of [10 ^ e], on its magnitude. *)
Definition quantize (e : Z) (q : Q) : Q :=
  let n := Z.abs (Qnum q) in
  let d := Zpos (Qden q) in
  let c :=
    if 0 <=? e then round_half_even n (d * 10 ^ e)
    else round_half_even (n * 10 ^ (- e)) d in
  let c := Z.sgn (Qnum q) * c in
  if 0 <=? e then inject_Z (c * 10 ^ e)
  else Qmake c (Z.to_pos (10 ^ (- e))).

(** The context's rounding of an exact result; [None] is [Overflow]. *)
Definition round (q : Q) : option Q :=
  if Qnum q =? 0 then Some q
  else
    let r := quantize (Z.max (adjusted q - (context_prec - 1)) Etiny) q in
    if Qnum r =? 0 then Some r
    else if Emax <? adjusted r then None
    else Some r.

(** [a * b] *)
Definition mul (a b : Q) : option Q := round (a * b).

End PyDecimal.

(** ** blockchain.py *)

Module Blockchain.
Import PyStr Config.

(** *** [BlockchainManager._is_token_verified] *)

Definition stablecoins : list string :=
  ["USDT"; "USDC"; "DAI"; "BUSD"; "FRAX"; "R2USD"].

Definition _is_token_verified (token_address symbol : string) : bool :=
  if str_in (lower token_address) (map fst VERIFIED_TOKENS) then true
  else if str_in symbol HIGH_VALUE_TOKENS then true
  else if (str_in symbol stablecoins || endswith symbol ".a")%bool then true
  else false.

(** The addresses the static allow-list knows, whatever their case. *)
Definition allow_listed (token_address : string) : Prop :=
  In (lower token_address) (map fst VERIFIED_TOKENS).

(** *** Holdings *)

(** One value of a holdings map.  The keys a tier leaves out, and the keys
    the notification monitor adds later, are optional. *)
Record TokenData := {
  symbol : string;
  name : string;
  balance : Q;
  decimals : option Z;
  address : string;
  verified : bool;
  imageURL : option string;
  balance_increase : option Q;
  tx_hash : option string
}.

Definition Holdings : Type := PyDict.dict TokenData.

Definition ZERO_ADDRESS : string := "0x0000000000000000000000000000000000000000".

(** The entry stored under ["MON"] by the tiers that read 18 decimals. *)
Definition native_entry (b : Q) : TokenData :=
  {| symbol := "MON"; name := "Monad"; balance := b; decimals := Some 18;
     address := ZERO_ADDRESS; verified := true; imageURL := None;
     balance_increase := None; tx_hash := None |}.

(** *** Primary tier: the Alchemy helper's JSON *)

Record AlchemyToken := {
  at_symbol : option string;
  at_name : option string;
  at_balance : option num_str;
  at_decimals : option Z;
  at_address : option string
}.

Record AlchemyData := {
  ad_native_balance : option num_str;
  ad_tokens : list AlchemyToken
}.

Definition or_default {A : Type} (o : option A) (d : A) : A :=
  match o with Some a => a | None => d end.

(** The body of [for token in data.get('tokens', [])]; [None] is an
    exception raised by [float]. *)
Definition alchemy_step (balances : Holdings) (token : AlchemyToken)
  : option Holdings :=
  let symbol := or_default (at_symbol token) "UNKNOWN" in
  let balance_str := or_default (at_balance token) (NumStr 0) in
  let token_address := or_default (at_address token) "" in
  match float_of_str balance_str with
  | None => None
  | Some b =>
      if Qgtb b 0 then
        let is_verified := _is_token_verified token_address symbol in
        Some (PyDict.set symbol
                {| symbol := symbol;
                   name := or_default (at_name token) symbol;
                   balance := b;
                   decimals := Some (or_default (at_decimals token) 18);
                   address := token_address;
                   verified := is_verified;
                   imageURL := None;
                   balance_increase := None; tx_hash := None |}
                balances)
      else Some balances
  end.

Fixpoint alchemy_loop (balances : Holdings) (tokens : list AlchemyToken)
  : option Holdings :=
  match tokens with
  | [] => Some balances
  | t :: r =>
      match alchemy_step balances t with
      | None => None
      | Some b' => alchemy_loop b' r
      end
  end.

(** The native balance of the primary tier; [None] is an exception. *)
Definition alchemy_native (data : AlchemyData) : option Holdings :=
  let native_balance_str := or_default (ad_native_balance data) (NumStr 0) in
  if num_str_truthy native_balance_str then
    match float_of_str native_balance_str with
    | None => None
    | Some b =>
        if Qgtb b 0 then Some (PyDict.set "MON" (native_entry b) [])
        else Some []
    end
  else Some [].

Definition alchemy_tier (data : AlchemyData) : option Holdings :=
  match alchemy_native data with
  | None => None
  | Some balances => alchemy_loop balances (ad_tokens data)
  end.

(** *** Secondary tier: the BlockVision helper's JSON *)

Record BlockVisionToken := {
  bv_symbol : option string;
  bv_balance : option num_str;
  bv_contractAddress : option string;
  bv_name : option string;
  bv_verified : option bool;
  bv_imageURL : option string
}.

Definition blockvision_step (balances : Holdings) (token : BlockVisionToken)
  : Holdings :=
  let symbol := or_default (bv_symbol token) "UNKNOWN" in
  let balance := or_default (bv_balance token) (NumStr 0) in
  let address := or_default (bv_contractAddress token) "" in
  let name := or_default (bv_name token) symbol in
  match float_of_str balance with
  | None => balances
  | Some b =>
      if Qeqb b 0 then balances
      else PyDict.set symbol
             {| symbol := symbol; name := name; balance := b;
                decimals := None; address := address;
                verified := or_default (bv_verified token) false;
                imageURL := Some (or_default (bv_imageURL token) "");
                balance_increase := None; tx_hash := None |}
             balances
  end.

Definition blockvision_tier (tokens_data : list BlockVisionToken) : Holdings :=
  fold_left blockvision_step tokens_data [].

(** *** Tertiary tier *)

Definition native_only (native_balance : Q) : Holdings :=
  if negb (Qeqb native_balance 0)
  then PyDict.set "MON" (native_entry native_balance) []
  else [].

(** *** [BlockchainManager.get_wallet_all_tokens]

    [alchemy] is the parsed output of the first helper when it exits with
    code 0 and reports [ok]; [blockvision] is the token list of the second
    helper when its key is configured, it exits with code 0 and reports code
    0; [native_balance] is what [get_native_balance] returns. *)
Definition get_wallet_all_tokens
    (alchemy : option AlchemyData)
    (blockvision : option (list BlockVisionToken))
    (native_balance : Q) : Holdings :=
  match match alchemy with Some d => alchemy_tier d | None => None end with
  | Some balances => balances
  | None =>
      match blockvision with
      | Some tokens_data => blockvision_tier tokens_data
      | None => native_only native_balance
      end
  end.

(** *** [BlockchainManager.get_tokens_from_history] *)

Record TokenInfo := {
  ti_name : string;
  ti_symbol : string;
  ti_decimals : Z
}.

(** The entry stored under ["MON"] here carries no [decimals]. *)
Definition native_entry_history (b : Q) : TokenData :=
  {| symbol := "MON"; name := "Monad"; balance := b; decimals := None;
     address := ZERO_ADDRESS; verified := true; imageURL := None;
     balance_increase := None; tx_hash := None |}.

Section History.
(** [get_token_info] ([None] when it fails) and the balance part of
    [get_token_balance] for the wallet at hand. *)
Variable get_token_info : string -> option TokenInfo.
Variable get_token_balance : string -> Q.

Definition history_step (balances : Holdings) (token_address : string)
  : Holdings :=
  match get_token_info token_address with
  | None => balances
  | Some info =>
      let balance := get_token_balance token_address in
      if Qgtb balance 0 then
        let symbol := ti_symbol info in
        PyDict.set symbol
          {| symbol := symbol; name := ti_name info; balance := balance;
             decimals := Some (ti_decimals info);
             address := token_address; verified := true;
             imageURL := None; balance_increase := None; tx_hash := None |}
          balances
      else balances
  end.

Definition get_tokens_from_history (native_balance : Q)
    (token_addresses : list string) : Holdings :=
  let balances :=
    if negb (Qeqb native_balance 0)
    then PyDict.set "MON" (native_entry_history native_balance) []
    else [] in
  fold_left history_step token_addresses balances.
End History.

(** *** What one enumerated token contributes

    The assignment a turn of each loop makes, if it makes one. *)

Definition alchemy_entry (token : AlchemyToken) : option (string * TokenData) :=
  let symbol := or_default (at_symbol token) "UNKNOWN" in
  let token_address := or_default (at_address token) "" in
  match float_of_str (or_default (at_balance token) (NumStr 0)) with
  | Some b =>
      if Qgtb b 0 then
        Some (symbol,
              {| symbol := symbol;
                 name := or_default (at_name token) symbol;
                 balance := b;
                 decimals := Some (or_default (at_decimals token) 18);
                 address := token_address;
                 verified := _is_token_verified token_address symbol;
                 imageURL := None;
                 balance_increase := None; tx_hash := None |})
      else None
  | None => None
  end.

Definition blockvision_entry (token : BlockVisionToken)
  : option (string * TokenData) :=
  let symbol := or_default (bv_symbol token) "UNKNOWN" in
  match float_of_str (or_default (bv_balance token) (NumStr 0)) with
  | Some b =>
      if Qeqb b 0 then None
      else Some (symbol,
                 {| symbol := symbol;
                    name := or_default (bv_name token) symbol;
                    balance := b;
                    decimals := None;
                    address := or_default (bv_contractAddress token) "";
                    verified := or_default (bv_verified token) false;
                    imageURL := Some (or_default (bv_imageURL token) "");
                    balance_increase := None; tx_hash := None |})
  | None => None
  end.

Definition history_entry (get_token_info : string -> option TokenInfo)
    (get_token_balance : string -> Q) (token_address : string)
  : option (string * TokenData) :=
  match get_token_info token_address with
  | Some info =>
      if Qgtb (get_token_balance token_address) 0 then
        Some (ti_symbol info,
              {| symbol := ti_symbol info; name := ti_name info;
                 balance := get_token_balance token_address;
                 decimals := Some (ti_decimals info);
                 address := token_address; verified := true;
                 imageURL := None; balance_increase := None;
                 tx_hash := None |})
      else None
  | None => None
  end.

(** Every value of a holdings map sits under its own symbol. *)
Definition keyed_by_symbol (h : Holdings) : Prop :=
  forall key token_data, In (key, token_data) h -> symbol token_data = key.

(** A holdings map has one entry per key, and its keys are the symbols. *)
Definition well_keyed (h : Holdings) : Prop :=
  NoDup (PyDict.keys h) /\ keyed_by_symbol h.

(** *** Python floats (binary64) *)

Definition prec : Z := 53.
Definition emax : Z := 1024.

(** [float(z)] for an integer: the nearest binary64, ties to even;
    [None] is [OverflowError]. *)
Definition float_of_int (z : Z) : option spec_float :=
  match binary_normalize prec emax z 0 false with
  | S754_infinity _ => None
  | f => Some f
  end.

(** [float(d)] for a finite [Decimal]: the nearest binary64, ties to even,
    an infinity past the range. *)
Definition float_of_decimal (q : Q) : spec_float :=
  match Qnum q with
  | Z0 => S754_zero false
  | Zpos n =>
      SFdiv prec emax (S754_finite false n 0) (S754_finite false (Qden q) 0)
  | Zneg n =>
      SFdiv prec emax (S754_finite true n 0) (S754_finite false (Qden q) 0)
  end.

(** The integer constants of [1 - slippage / 100], which convert exactly. *)
Definition float_1 : spec_float := binary_normalize prec emax 1 0 false.
Definition float_100 : spec_float := binary_normalize prec emax 100 0 false.

(** [int(f)]: the integer part, rounding toward zero; [None] is the
    error raised on an infinity or a NaN. *)
Definition int_of_float (f : spec_float) : option Z :=
  match f with
  | S754_zero _ => Some 0
  | S754_finite s m e =>
      Some (cond_Zopp s
              (if 0 <=? e then Zpos m * 2 ^ e else Z.quot (Zpos m) (2 ^ (- e))))
  | S754_infinity _ | S754_nan => None
  end.

(** [1 - slippage / 100] *)
Definition slippage_factor (slippage : spec_float) : spec_float :=
  SFsub prec emax float_1 (SFdiv prec emax slippage float_100).

(** [expected_output * (1 - slippage / 100)] *)
Definition slippage_product (expected_output : Z) (slippage : spec_float)
  : option spec_float :=
  match float_of_int expected_output with
  | None => None
  | Some x => Some (SFmul prec emax x (slippage_factor slippage))
  end.

(** [min_output = int(expected_output * (1 - slippage / 100))] *)
Definition min_output_of (expected_output : Z) (slippage : spec_float)
  : option Z :=
  match slippage_product expected_output slippage with
  | None => None
  | Some p => int_of_float p
  end.

(** The floor of the number a finite float stands for, and the minimum
    output it gives when taken of the binary64 product. *)
Definition floor_of_float (f : spec_float) : option Z :=
  match f with
  | S754_zero _ => Some 0
  | S754_finite s m e =>
      Some (if 0 <=? e then cond_Zopp s (Zpos m) * 2 ^ e
            else cond_Zopp s (Zpos m) / 2 ^ (- e))
  | S754_infinity _ | S754_nan => None
  end.

Definition floor_min_output (expected_output : Z) (slippage : spec_float)
  : option Z :=
  match slippage_product expected_output slippage with
  | None => None
  | Some p => floor_of_float p
  end.

(** The minimum output in exact arithmetic, for a tolerance given as a
    rational: the floor of [expected_output * (1 - slippage / 100)]. *)
Definition exact_min_output (expected_output : Z) (slippage : Q) : Z :=
  Qfloor (inject_Z expected_output * (1 - slippage / 100)).

(** A float that is zero or finite with the sign bit clear. *)
Definition nonneg_float (f : spec_float) : bool :=
  match f with
  | S754_zero _ => true
  | S754_finite s _ _ => negb s
  | S754_infinity _ | S754_nan => false
  end.

(** A float that, if it is a finite number, has the sign bit clear. *)
Definition no_sign (f : spec_float) : Prop :=
  match f with S754_finite s _ _ => s = false | _ => True end.

(** The float literals [0.5], [1.0], [5.0], [10.0] of [SLIPPAGE_OPTIONS];
    each is a binary64 value as written. *)
Definition slippage_0_5 : spec_float := binary_normalize prec emax 1 (-1) false.
Definition slippage_1_0 : spec_float := binary_normalize prec emax 1 0 false.
Definition slippage_5_0 : spec_float := binary_normalize prec emax 5 0 false.
Definition slippage_10_0 : spec_float := binary_normalize prec emax 10 0 false.

(** *** Transactions and the node *)

Inductive ContractCall : Type :=
| approve (spender : string) (amount : Z)
| swapExactETHForTokens (amountOutMin : Z) (path : list string)
    (to : string) (deadline : Z)
| swapExactTokensForETH (amountIn amountOutMin : Z) (path : list string)
    (to : string) (deadline : Z).

Record Transaction := {
  tx_contract : string;
  tx_call : ContractCall;
  tx_from : string;
  tx_value : option Z;
  tx_gas : option Z;
  tx_nonce : Z;
  tx_maxFeePerGas : Z;
  tx_maxPriorityFeePerGas : Z;
  tx_chainId : Z
}.

(** What [web3], [eth_account], the node and the clock answer during one
    call.  [None] is an exception. *)
Record Web3 := {
  to_checksum_address : string -> option string;
  from_key : string -> option string;
  to_wei : Q -> string -> Z;
  from_wei : Z -> string -> Q;
  call_allowance : string -> string -> string -> option Z;
  call_getAmountsOut : Z -> list string -> option (list Z);
  get_token_info : string -> option TokenInfo;
  get_transaction_count : string -> option Z;
  estimate_gas : Transaction -> option Z;
  sign_transaction : Transaction -> string -> option string;
  send_raw_transaction : string -> option string;
  time_time : Q
}.

(** [build_transaction] fills in the gas limit the node estimates. *)
Definition build_transaction (w : Web3) (t : Transaction) : option Transaction :=
  match estimate_gas w t with
  | None => None
  | Some g =>
      Some {| tx_contract := tx_contract t; tx_call := tx_call t;
              tx_from := tx_from t; tx_value := tx_value t;
              tx_gas := Some g; tx_nonce := tx_nonce t;
              tx_maxFeePerGas := tx_maxFeePerGas t;
              tx_maxPriorityFeePerGas := tx_maxPriorityFeePerGas t;
              tx_chainId := tx_chainId t |}
  end.

(** The transactions handed to the node so far, oldest first, each with
    the raw bytes that were sent. *)
Definition Submitted : Type := list (Transaction * string).

(** Computations that may raise and that append to the submitted list. *)
Definition M (A : Type) : Type := Submitted -> option A * Submitted.

Definition ret {A} (a : A) : M A := fun s => (Some a, s).
Definition bind {A B} (m : M A) (k : A -> M B) : M B :=
  fun s => match m s with
           | (Some a, s') => k a s'
           | (None, s') => (None, s')
           end.
Definition lift {A} (o : option A) : M A := fun s => (o, s).

(** [send_raw_transaction]: the node takes the transaction, or raises. *)
Definition send (w : Web3) (t : Transaction) (raw : string) : M string :=
  fun s => match send_raw_transaction w raw with
           | Some h => (Some h, (s ++ [(t, raw)])%list)
           | None => (None, s)
           end.

(** [try: ... except Exception: return None] *)
Definition try_or_None {A} (m : M A) : M (option A) :=
  fun s => match m s with
           | (Some a, s') => (Some (Some a), s')
           | (None, s') => (Some None, s')
           end.

Declare Scope m_scope.
Delimit Scope m_scope with M.
Notation "x <- m ;; k" := (bind m (fun x => k))
  (at level 61, m at next level, right associativity) : m_scope.

Definition gas_params_of (gas_mode : string) : GasParams :=
  PyDict.get_default gas_mode
    (PyDict.get_default "normal"
       {| maxFeePerGas := 100; maxPriorityFeePerGas := 2 |} GAS_PRICE_MODES)
    GAS_PRICE_MODES.

Definition ALREADY_APPROVED : string := "ALREADY_APPROVED".

(** *** [BlockchainManager.approve_token] *)

(** The argument of [build_transaction] for an approval. *)
Definition approve_request (w : Web3)
    (checksum_token checksum_spender account : string)
    (amount nonce : Z) (gas_mode : string) : Transaction :=
  let gas_params := gas_params_of gas_mode in
  {| tx_contract := checksum_token;
     tx_call := approve checksum_spender amount;
     tx_from := account;
     tx_value := None;
     tx_gas := None;
     tx_nonce := nonce;
     tx_maxFeePerGas := to_wei w (inject_Z (maxFeePerGas gas_params)) "gwei";
     tx_maxPriorityFeePerGas :=
       to_wei w (inject_Z (maxPriorityFeePerGas gas_params)) "gwei";
     tx_chainId := CHAIN_ID |}.

Definition approve_token (w : Web3)
    (token_address spender_address : string) (amount : Z)
    (private_key : string) (gas_mode : string) : M (option string) :=
  try_or_None (
    checksum_token <- lift (to_checksum_address w token_address) ;;
    checksum_spender <- lift (to_checksum_address w spender_address) ;;
    account <- lift (from_key w private_key) ;;
    current_allowance <-
      lift (call_allowance w checksum_token account checksum_spender) ;;
    if amount <=? current_allowance then ret ALREADY_APPROVED
    else
      nonce <- lift (get_transaction_count w account) ;;
      transaction <- lift (build_transaction w
        (approve_request w checksum_token checksum_spender account
           amount nonce gas_mode)) ;;
      signed_txn <- lift (sign_transaction w transaction private_key) ;;
      tx_hash <- send w transaction signed_txn ;;
      ret tx_hash)%M.

(** [xs[-1]]; [None] is [IndexError]. *)
Definition last_item {A} (xs : list A) : option A :=
  match rev xs with [] => None | x :: _ => Some x end.

(** [int(q)] for a [Decimal] or a float read off the clock. *)
Definition int_of_Q (q : Q) : Z := Z.quot (Qnum q) (Zpos (Qden q)).

(** [int(amount * (10 ** decimals))] for a [Decimal] amount: the product is
    rounded by the context before its integer part is taken.  With negative
    [decimals] the power is a float, and a [Decimal] times a float raises
    [TypeError].  [None] is an exception. *)
Definition base_units (amount : Q) (decimals : Z) : option Z :=
  if decimals <? 0 then None
  else option_map int_of_Q (PyDecimal.mul amount (inject_Z (10 ^ decimals))).

(** *** [BlockchainManager.buy_token] *)

Record BuyResult := {
  buy_tx_hash : string;
  buy_amount_in : Q;
  buy_expected_output : Z;
  buy_min_output : Z
}.

Definition buy_deadline (w : Web3) : Z := int_of_Q (time_time w) + 300.

Definition buy_token (w : Web3)
    (token_address : string) (amount_monad : Q) (wallet_address : string)
    (private_key : string) (slippage : spec_float) (gas_mode : string)
  : M (option BuyResult) :=
  try_or_None (
    checksum_token <- lift (to_checksum_address w token_address) ;;
    checksum_weth <- lift (to_checksum_address w WETH_ADDRESS) ;;
    checksum_wallet <- lift (to_checksum_address w wallet_address) ;;
    account <- lift (from_key w private_key) ;;
    let amount_in_wei := to_wei w amount_monad "ether" in
    let path := [checksum_weth; checksum_token] in
    amounts_out <- lift (call_getAmountsOut w amount_in_wei path) ;;
    expected_output <- lift (last_item amounts_out) ;;
    min_output <- lift (min_output_of expected_output slippage) ;;
    let deadline := buy_deadline w in
    nonce <- lift (get_transaction_count w account) ;;
    let gas_params := gas_params_of gas_mode in
    transaction <- lift (build_transaction w
      {| tx_contract := DEX_ROUTER_ADDRESS;
         tx_call := swapExactETHForTokens min_output path checksum_wallet deadline;
         tx_from := account;
         tx_value := Some amount_in_wei;
         tx_gas := None;
         tx_nonce := nonce;
         tx_maxFeePerGas :=
           to_wei w (inject_Z (maxFeePerGas gas_params)) "gwei";
         tx_maxPriorityFeePerGas :=
           to_wei w (inject_Z (maxPriorityFeePerGas gas_params)) "gwei";
         tx_chainId := CHAIN_ID |}) ;;
    signed_txn <- lift (sign_transaction w transaction private_key) ;;
    tx_hash <- send w transaction signed_txn ;;
    ret {| buy_tx_hash := tx_hash;
           buy_amount_in := amount_monad;
           buy_expected_output := expected_output;
           buy_min_output := min_output |})%M.

(** *** [BlockchainManager.sell_token]

    The pause of three seconds after a fresh approval shows only in the
    clock reading that follows it. *)

Record SellResult := {
  sell_tx_hash : string;
  sell_amount_in : Q;
  sell_expected_output : Q;
  sell_min_output : Q;
  sell_approve_hash : option string
}.

Definition sell_deadline (w : Web3) : Z := int_of_Q (time_time w) + 60 * 20.

Definition sell_token (w : Web3)
    (token_address : string) (amount_tokens : Q) (wallet_address : string)
    (private_key : string) (slippage : spec_float) (gas_mode : string)
  : M (option SellResult) :=
  try_or_None (
    checksum_token <- lift (to_checksum_address w token_address) ;;
    checksum_weth <- lift (to_checksum_address w WETH_ADDRESS) ;;
    checksum_wallet <- lift (to_checksum_address w wallet_address) ;;
    checksum_router <- lift (to_checksum_address w DEX_ROUTER_ADDRESS) ;;
    info <- lift (get_token_info w token_address) ;;
    amount_in_wei <- lift (base_units amount_tokens (ti_decimals info)) ;;
    approve_hash <- approve_token w token_address DEX_ROUTER_ADDRESS
                      (amount_in_wei * 2) private_key gas_mode ;;
    account <- lift (from_key w private_key) ;;
    let path := [checksum_token; checksum_weth] in
    amounts_out <- lift (call_getAmountsOut w amount_in_wei path) ;;
    expected_output <- lift (last_item amounts_out) ;;
    min_output <- lift (min_output_of expected_output slippage) ;;
    let deadline := sell_deadline w in
    nonce <- lift (get_transaction_count w account) ;;
    let gas_params := gas_params_of gas_mode in
    transaction <- lift (build_transaction w
      {| tx_contract := DEX_ROUTER_ADDRESS;
         tx_call := swapExactTokensForETH amount_in_wei min_output path
                      checksum_wallet deadline;
         tx_from := account;
         tx_value := None;
         tx_gas := None;
         tx_nonce := nonce;
         tx_maxFeePerGas :=
           to_wei w (inject_Z (maxFeePerGas gas_params)) "gwei";
         tx_maxPriorityFeePerGas :=
           to_wei w (inject_Z (maxPriorityFeePerGas gas_params)) "gwei";
         tx_chainId := CHAIN_ID |}) ;;
    signed_txn <- lift (sign_transaction w transaction private_key) ;;
    tx_hash <- send w transaction signed_txn ;;
    ret {| sell_tx_hash := tx_hash;
           sell_amount_in := amount_tokens;
           sell_expected_output := from_wei w expected_output "ether";
           sell_min_output := from_wei w min_output "ether";
           sell_approve_hash :=
             match approve_hash with
             | Some h => if String.eqb h ALREADY_APPROVED then None else Some h
             | None => None
             end |})%M.

End Blockchain.

(** ** Exceptions of the key-handling modules *)

Inductive error : Type :=
| EmptyPrivateKey        (* ValueError("Private key cannot be empty") *)
| EmptyEncryptedKey      (* ValueError("Encrypted key cannot be empty") *)
| DecryptionFailed       (* Exception("Decryption failed: ...") *)
| PassphraseRequired     (* ValueError("Passphrase required for this wallet") *)
| IncorrectPassphrase.   (* raised by [decrypt_with_passphrase] *)

Inductive result (A : Type) : Type :=
| Ok (a : A)
| Err (e : error).
Arguments Ok {A} a.
Arguments Err {A} e.

(** ** security.py *)

Module Security.
Import PyStr.

(** [cryptography.fernet.Fernet] bound to the master key.  [encrypt] draws
    a timestamp and an initialisation vector, passed here as [entropy];
    [decrypt] answers [None] for [InvalidToken]. *)
Record Fernet := {
  fernet_encrypt : string -> string -> string;
  fernet_decrypt : string -> option string
}.

(** What the library promises of a token it issued under the same key:
    it decrypts to the data, and it is never the empty string. *)
Record fernet_lawful (f : Fernet) : Prop := {
  decrypt_encrypt : forall entropy data,
    fernet_decrypt f (fernet_encrypt f entropy data) = Some data;
  fernet_token_nonempty : forall entropy data,
    fernet_encrypt f entropy data <> EmptyString
}.

(** [SecurityManager.encrypt_data] *)
Definition encrypt_data (f : Fernet) (entropy plaintext : string) : string :=
  fernet_encrypt f entropy plaintext.

(** [SecurityManager.decrypt_data] *)
Definition decrypt_data (f : Fernet) (ciphertext : string) : result string :=
  match fernet_decrypt f ciphertext with
  | Some decrypted => Ok decrypted
  | None => Err DecryptionFailed
  end.

(** The normalisation step of [encrypt_private_key]. *)
Definition normalize_key (private_key : string) : string :=
  if negb (startswith private_key "0x") then "0x" ++ private_key
  else private_key.

(** [encrypt_private_key] *)
Definition encrypt_private_key (f : Fernet) (entropy private_key : string)
  : result string :=
  if negb (truthy private_key) then Err EmptyPrivateKey
  else Ok (encrypt_data f entropy (normalize_key private_key)).

(** [decrypt_private_key] *)
Definition decrypt_private_key (f : Fernet) (encrypted_key : string)
  : result string :=
  if negb (truthy encrypted_key) then Err EmptyEncryptedKey
  else decrypt_data f encrypted_key.

(** [decrypt_private_key(encrypt_private_key(private_key))] *)
Definition roundtrip (f : Fernet) (entropy private_key : string)
  : result string :=
  match encrypt_private_key f entropy private_key with
  | Ok encrypted_key => decrypt_private_key f encrypted_key
  | Err e => Err e
  end.

End Security.

(** ** security_passphrase *)

Module SecurityPassphrase.

(** The primitives behind the passphrase service: a password-based key
    derivation and an authenticated cipher. *)
Record PassphraseCipher := {
  derive_key : string -> string -> string;
  auth_encrypt : string -> string -> string -> string;
  auth_decrypt : string -> string -> option string
}.

(** The idealised guarantees of those primitives: a token opens under the
    key that sealed it and under no other, distinct passphrases derive
    distinct keys from one salt, and a token is never empty. *)
Record cipher_lawful (c : PassphraseCipher) : Prop := {
  open_sealed : forall k iv m, auth_decrypt c k (auth_encrypt c k iv m) = Some m;
  reject_other : forall k k' iv m,
    k <> k' -> auth_decrypt c k' (auth_encrypt c k iv m) = None;
  derive_inj : forall p p' salt, derive_key c p salt = derive_key c p' salt -> p = p';
  token_nonempty : forall k iv m, auth_encrypt c k iv m <> EmptyString
}.

Record EncryptedData := {
  encrypted_key : string;
  salt : string
}.

(** Modelled from the spec: [encrypt_with_passphrase] of the module
    [security_passphrase], whose source is not at hand.  It
    generates a fresh random salt, derives a symmetric key from the
    passphrase and the salt, and authenticated-encrypts the plaintext under
    that key.  The salt and the initialisation vector drawn are arguments. *)
Definition encrypt_with_passphrase (c : PassphraseCipher)
    (fresh_salt iv plaintext passphrase : string) : EncryptedData :=
  {| encrypted_key := auth_encrypt c (derive_key c passphrase fresh_salt) iv plaintext;
     salt := fresh_salt |}.

(** Modelled from the spec: [decrypt_with_passphrase] of the module
    [security_passphrase], whose source is not at hand.  It
    re-derives the key and fails with IncorrectPassphrase if authentication
    fails. *)
Definition decrypt_with_passphrase (c : PassphraseCipher)
    (ciphertext salt passphrase : string) : result string :=
  match auth_decrypt c (derive_key c passphrase salt) ciphertext with
  | Some plaintext => Ok plaintext
  | None => Err IncorrectPassphrase
  end.

End SecurityPassphrase.

(** ** database.py *)

Module Database.
Import PyStr Security SecurityPassphrase.

(** A row of [users]. *)
Record User := {
  telegram_id : Z;
  wallet_address : string;
  encrypted_private_key : string;
  passphrase_salt : option string
}.

(** [bool(x)] for an optional string: [None] and [''] are falsy. *)
Definition opt_truthy (o : option string) : bool :=
  match o with Some s => truthy s | None => false end.

Definition opt_str (o : option string) : string :=
  match o with Some s => s | None => EmptyString end.

(** The store: the [users] table and, per user, the persisted snapshot. *)
Record Db := {
  users : list User;
  snapshots : list (Z * Blockchain.Holdings)
}.

(** [DatabaseManager.get_user]: the first row with that id. *)
Definition get_user (db : Db) (tid : Z) : option User :=
  find (fun u => telegram_id u =? tid) (users db).

(** The row that [create_user] and [update_user_wallet] write. *)
Definition make_user (f : Fernet) (c : PassphraseCipher)
    (entropy fresh_salt : string)
    (tid : Z) (wallet_address private_key : string)
    (passphrase : option string) : result User :=
  if opt_truthy passphrase then
    let encrypted_data :=
      encrypt_with_passphrase c fresh_salt entropy private_key
        (opt_str passphrase) in
    Ok {| telegram_id := tid; wallet_address := wallet_address;
          encrypted_private_key := encrypted_key encrypted_data;
          passphrase_salt := Some (salt encrypted_data) |}
  else
    match encrypt_private_key f entropy private_key with
    | Ok encrypted_key =>
        Ok {| telegram_id := tid; wallet_address := wallet_address;
              encrypted_private_key := encrypted_key;
              passphrase_salt := None |}
    | Err e => Err e
    end.

Definition lift_key (r : result string) : result (option string) :=
  match r with Ok k => Ok (Some k) | Err e => Err e end.

(** [DatabaseManager.get_decrypted_private_key] *)
Definition get_decrypted_private_key (f : Fernet) (c : PassphraseCipher)
    (db : Db) (tid : Z) (passphrase : option string)
  : result (option string) :=
  match get_user db tid with
  | None => Ok None
  | Some user =>
      if negb (truthy (encrypted_private_key user)) then Ok None
      else if opt_truthy (passphrase_salt user) then
        if negb (opt_truthy passphrase) then Err PassphraseRequired
        else lift_key (decrypt_with_passphrase c
                         (encrypted_private_key user)
                         (opt_str (passphrase_salt user))
                         (opt_str passphrase))
      else lift_key (decrypt_private_key f (encrypted_private_key user))
  end.

(** Modelled from the spec: [get_token_snapshot] of the persistence layer,
    absent from [database.py] as given.  It returns the last persisted
    holdings map of the user, or an empty map. *)
Definition get_token_snapshot (db : Db) (tid : Z) : Blockchain.Holdings :=
  match find (fun p => fst p =? tid) (snapshots db) with
  | Some p => snd p
  | None => []
  end.

(** Modelled from the spec: [update_token_snapshot] of the persistence
    layer, absent from [database.py] as given.  It overwrites the user's
    snapshot wholesale with the holdings map. *)
Definition update_token_snapshot (db : Db) (tid : Z)
    (holdings : Blockchain.Holdings) : Db :=
  {| users := users db;
     snapshots :=
       (tid, holdings) :: filter (fun p => negb (fst p =? tid)) (snapshots db) |}.

End Database.

(** ** portfolio.py *)

Module Portfolio.

(** One holding of [overview['tokens']]: the balance is a [Decimal], the
    price and the value are floats when they are there. *)
Record Token := {
  symbol : string;
  name : string;
  address : string;
  balance : Q;
  value_usd : option spec_float;
  price_usd : option spec_float;
  verified : bool
}.

(** [bool(t.get('value_usd'))]: false on a missing value and on zero. *)
Definition has_value (t : Token) : bool :=
  match value_usd t with
  | Some (S754_zero _) => false
  | Some _ => true
  | None => false
  end.

(** [t.get('value_usd', 0)] *)
Definition value_or_0 (t : Token) : spec_float :=
  match value_usd t with Some v => v | None => S754_zero false end.

(** [sum(...)] of floats, from the integer 0. *)
Definition float_sum (l : list spec_float) : spec_float :=
  fold_left (SFadd Blockchain.prec Blockchain.emax) l (S754_zero false).

(** [tokens[:max_tokens] if len(tokens) > max_tokens else tokens] *)
Definition tokens_to_display (tokens : list Token) (max_tokens : nat)
  : list Token :=
  if Nat.ltb max_tokens (List.length tokens) then firstn max_tokens tokens
  else tokens.

Definition tokens_with_price (displayed : list Token) : list Token :=
  filter has_value displayed.

Definition total_value_usd (displayed : list Token) : spec_float :=
  float_sum (map value_or_0 (tokens_with_price displayed)).

(** [len(tokens_with_price) >= 3 and total_value_usd > 0] *)
Definition use_price_allocation (displayed : list Token) : bool :=
  (Nat.leb 3 (List.length (tokens_with_price displayed))
   && SFltb (S754_zero false) (total_value_usd displayed))%bool.

(** [float(x['balance'])] *)
Definition float_balance (t : Token) : spec_float :=
  Blockchain.float_of_decimal (balance t).

(** [sorted(ts, key=lambda x: float(x['balance']), reverse=True)]: a
    stable sort, largest key first. *)
Fixpoint insert_desc (t : Token) (sorted : list Token) : list Token :=
  match sorted with
  | [] => [t]
  | u :: r =>
      if SFleb (float_balance t) (float_balance u) then u :: insert_desc t r
      else t :: u :: r
  end.

Definition sorted_desc (ts : list Token) : list Token :=
  fold_left (fun acc t => insert_desc t acc) ts [].

(** [float(sorted_tokens[3]['balance'])] *)
Definition reference_balance (displayed : list Token) : option spec_float :=
  option_map float_balance (nth_error (sorted_desc displayed) 3).

(** The float [10.0] that the integer 10 becomes in a product with a float. *)
Definition float_10 : spec_float :=
  binary_normalize Blockchain.prec Blockchain.emax 10 0 false.

(** [reference_balance * 10] *)
Definition outlier_threshold (displayed : list Token) : option spec_float :=
  option_map (fun r => SFmul Blockchain.prec Blockchain.emax r float_10)
    (reference_balance displayed).

(** [float(t['balance']) > outlier_threshold] *)
Definition above (threshold : spec_float) (t : Token) : bool :=
  SFltb threshold (float_balance t).

(** The sets an allocation works with. *)
Record Allocation := {
  tokens_for_calc : list Token;
  outlier_tokens : list Token;
  by_value : bool
}.

(** The quantity branch of [render_portfolio]. *)
Definition quantity_allocation (displayed : list Token) : Allocation :=
  match outlier_threshold displayed with
  | Some threshold =>
      let outliers := filter (above threshold) displayed in
      let filtered := filter (fun t => negb (above threshold t)) displayed in
      if Nat.ltb (List.length filtered) 3
      then {| tokens_for_calc := displayed; outlier_tokens := [];
              by_value := false |}
      else {| tokens_for_calc := filtered; outlier_tokens := outliers;
              by_value := false |}
  | None =>
      {| tokens_for_calc := displayed; outlier_tokens := [];
         by_value := false |}
  end.

(** The choice of basis in [render_portfolio]. *)
Definition allocation (displayed : list Token) : Allocation :=
  if use_price_allocation displayed
  then {| tokens_for_calc := tokens_with_price displayed;
          outlier_tokens := []; by_value := true |}
  else quantity_allocation displayed.

End Portfolio.

(** ** notification_monitor.py *)

Module NotificationMonitor.
Import PyStr Blockchain Database.

(** One element of the [transfers] array of [alchemy_getAssetTransfers]:
    the value as a number, the hash when present, and the lower-cased
    address of [rawContract]. *)
Record Transfer := {
  tr_value : Q;
  tr_hash : option string;
  tr_token : string
}.

(** The transfer history answered for a category while the entry stored
    under a symbol is examined; [None] covers a failed request, a bad
    status and a missing [result]. *)
Definition TransferApi : Type := string -> string -> option (list Transfer).

(** [abs(tx_value - balance_increase) < 0.001] *)
Definition amount_matches (tx_value balance_increase : Q) : bool :=
  negb (Qle_bool (1 # 1000) (Qabs (tx_value - balance_increase))).

(** The search for an incoming native transfer; the answer is the [hash]
    field of the first match. *)
Definition find_native_tx (api : TransferApi) (symbol : string)
    (balance_increase : Q) : option (option string) :=
  match api "external" symbol with
  | None => None
  | Some transfers =>
      option_map tr_hash
        (find (fun tx => amount_matches (tr_value tx) balance_increase)
           transfers)
  end.

(** The search for an incoming ERC-20 transfer of the token. *)
Definition find_erc20_tx (api : TransferApi) (symbol : string)
    (token_address : string) (balance_increase : Q) : option (option string) :=
  match api "erc20" symbol with
  | None => None
  | Some transfers =>
      option_map tr_hash
        (find (fun tx =>
                 (String.eqb (tr_token tx) token_address
                  && amount_matches (tr_value tx) balance_increase)%bool)
           transfers)
  end.

(** [token_data['balance_increase'] = ...] and, when a transfer matched,
    [token_data['tx_hash'] = tx.get('hash')], written into the entry itself. *)
Definition with_increase (token_data : TokenData) (inc : Q)
    (found : option (option string)) : TokenData :=
  {| symbol := symbol token_data; name := name token_data;
     balance := balance token_data; decimals := decimals token_data;
     address := address token_data; verified := verified token_data;
     imageURL := imageURL token_data;
     balance_increase := Some inc;
     tx_hash := match found with
                | Some h => h
                | None => tx_hash token_data
                end |}.

Definition is_native (symbol : string) : bool :=
  str_in symbol ["MON"; "MONAD"].

(** One turn of [for symbol, token_data in current_tokens.items()]: the
    entry as the turn leaves it, and whether it was appended to
    [new_tokens]. *)
Definition check_entry (api : TransferApi) (last_snapshot : Holdings)
    (symbol : string) (token_data : TokenData) : TokenData * bool :=
  let is_new := negb (PyDict.mem symbol last_snapshot) in
  if is_native symbol then
    match PyDict.get symbol last_snapshot with
    | Some old =>
        let old_balance := balance old in
        let new_balance := balance token_data in
        if Qgtb new_balance old_balance then
          let balance_increase := (new_balance - old_balance)%Q in
          (with_increase token_data balance_increase
             (find_native_tx api symbol balance_increase), true)
        else (token_data, false)
    | None => (token_data, false)
    end
  else if negb (verified token_data) then (token_data, false)
  else if is_new then
    if Qgtb (balance token_data) 0 then (token_data, true)
    else (token_data, false)
  else
    match PyDict.get symbol last_snapshot with
    | Some old =>
        let old_balance := balance old in
        let new_balance := balance token_data in
        if Qgtb new_balance old_balance then
          let balance_increase := (new_balance - old_balance)%Q in
          (with_increase token_data balance_increase
             (find_erc20_tx api symbol (lower (address token_data))
                balance_increase), true)
        else (token_data, false)
    | None => (token_data, false)
    end.

(** The whole loop: every entry after its turn, in order, with its flag. *)
Definition check_loop (api : TransferApi) (last_snapshot current_tokens : Holdings)
  : list (string * (TokenData * bool)) :=
  map (fun kv => (fst kv, check_entry api last_snapshot (fst kv) (snd kv)))
      (PyDict.items current_tokens).

Definition new_tokens_of (turns : list (string * (TokenData * bool)))
  : list TokenData :=
  map (fun t => fst (snd t)) (filter (fun t => snd (snd t)) turns).

Definition tokens_after (turns : list (string * (TokenData * bool)))
  : Holdings :=
  map (fun t => (fst t, fst (snd t))) turns.

(** The messages handed to the bot: the chat id and the holding. *)
Definition Outbox : Type := list (Z * TokenData).

(** [send_token_notification]: one message per holding. *)
Definition send_token_notification (outbox : Outbox) (user_id : Z)
    (new_tokens : list TokenData) : Outbox :=
  (outbox ++ map (fun t => (user_id, t)) new_tokens)%list.

(** [check_user_for_new_tokens], given what [get_wallet_all_tokens]
    returned for the wallet. *)
Definition check_user_for_new_tokens (api : TransferApi)
    (db : Db) (outbox : Outbox) (tid : Z) (current_tokens : Holdings)
  : Db * Outbox :=
  if negb (PyDict.truthy current_tokens) then (db, outbox)
  else
    let last_snapshot := get_token_snapshot db tid in
    if negb (PyDict.truthy last_snapshot) then
      (update_token_snapshot db tid current_tokens, outbox)
    else
      let turns := check_loop api last_snapshot current_tokens in
      let new_tokens := new_tokens_of turns in
      let outbox' :=
        match new_tokens with
        | [] => outbox
        | _ :: _ => send_token_notification outbox tid new_tokens
        end in
      (update_token_snapshot db tid (tokens_after turns), outbox').

End NotificationMonitor.


(* ================================================================== *)
(** * Further definitions

    The rest of [blockchain.py], [portfolio.py] and [database.py] that the
    theorems of the second part are about, with the gallery of
    [nft_handlers.py] and the amount step of [send_receive_handlers.py]. *)
(* ================================================================== *)

(** ** escape_markdown

    The same function stands in [portfolio.py], [notification_monitor.py],
    [send_receive_handlers.py] and [main.py]; the eighteen characters and
    their order are the same in each.  The characters are ASCII, so on the
    bytes of a UTF-8 text the replacements hit the same places as on its
    code points. *)

Module Markdown.

Definition backslash : ascii := ascii_of_nat 92.

(** The characters replaced, in the order of the loop. *)
Definition special_chars : list ascii :=
  [ "_"; "*"; "["; "]"; "("; ")"; "~"; "`"; ">"; "#"; "+"; "-"; "="; "|";
    "{"; "}"; "."; "!" ]%char.

(** [text.replace(char, '\\' + char)] for a one-character [char]. *)
Fixpoint replace_char (char : ascii) (text : string) : string :=
  match text with
  | EmptyString => EmptyString
  | String a r =>
      if Ascii.eqb a char
      then String backslash (String char (replace_char char r))
      else String a (replace_char char r)
  end.

(** [for char in special_chars: text = text.replace(char, '\\' + char)] *)
Definition escape_markdown (text : string) : string :=
  fold_left (fun t char => replace_char char t) special_chars text.

(** [c in cs] *)
Definition char_in (c : ascii) (cs : list ascii) : bool :=
  existsb (Ascii.eqb c) cs.

(** One pass that puts a backslash before each character of [cs]. *)
Fixpoint escape_with (cs : list ascii) (text : string) : string :=
  match text with
  | EmptyString => EmptyString
  | String a r =>
      if char_in a cs then String backslash (String a (escape_with cs r))
      else String a (escape_with cs r)
  end.

(** The reading of an escaped text: a backslash before a special character
    stands for that character. *)
Fixpoint unescape (text : string) : string :=
  match text with
  | EmptyString => EmptyString
  | String b r =>
      match r with
      | String a r' =>
          if (Ascii.eqb b backslash && char_in a special_chars)%bool
          then String a (unescape r')
          else String b (unescape r)
      | EmptyString => String b EmptyString
      end
  end.

(** How many special characters a text holds. *)
Fixpoint count_special (text : string) : nat :=
  match text with
  | EmptyString => 0
  | String a r => (if char_in a special_chars then 1 else 0) + count_special r
  end.

End Markdown.


(** ** nft_handlers.py: the gallery pages *)

Module Nft.

(** [lst[start:stop]] with Python's treatment of negative and oversized
    indices. *)
Definition clamp_index (n i : Z) : Z :=
  if i <? 0 then Z.max 0 (n + i) else Z.min i n.

Definition py_slice {A : Type} (l : list A) (start stop : Z) : list A :=
  let n := Z.of_nat (List.length l) in
  let a := clamp_index n start in
  let b := clamp_index n stop in
  firstn (Z.to_nat (b - a)) (skipn (Z.to_nat a) l).

Definition nfts_per_page : Z := 5.

(** [(total_nfts + nfts_per_page - 1) // nfts_per_page] *)
Definition total_pages (total_nfts : Z) : Z :=
  (total_nfts + nfts_per_page - 1) / nfts_per_page.

(** [nfts[start_idx:end_idx]] of [display_nft_gallery]. *)
Definition page_nfts {A : Type} (nfts : list A) (page : Z) : list A :=
  let total_nfts := Z.of_nat (List.length nfts) in
  let start_idx := page * nfts_per_page in
  let end_idx := Z.min (start_idx + nfts_per_page) total_nfts in
  py_slice nfts start_idx end_idx.

(** The page a pagination button leads to, when the button is shown. *)
Definition previous_button (total_nfts page : Z) : option Z :=
  if ((1 <? total_pages total_nfts) && (0 <? page))%bool
  then Some (page - 1) else None.

Definition next_button (total_nfts page : Z) : option Z :=
  if ((1 <? total_pages total_nfts) && (page <? total_pages total_nfts - 1))%bool
  then Some (page + 1) else None.

(** The pages of a gallery, first to last. *)
Definition page_numbers (total_nfts : Z) : list Z :=
  map Z.of_nat (seq 0 (Z.to_nat (total_pages total_nfts))).

End Nft.


(** ** blockchain.py: the remaining reads and the transfer *)

Module Chain.
Import PyStr Config Blockchain.

(** *** [BlockchainManager.validate_private_key] *)
Definition validate_private_key (w : Web3) (private_key : string)
  : option string :=
  let private_key :=
    if negb (startswith private_key "0x") then "0x" ++ private_key
    else private_key in
  from_key w private_key.

(** *** [BlockchainManager.get_all_tokens_balances] *)

Record TokenBalance := {
  tb_address : string;
  tb_name : string;
  tb_symbol : string;
  tb_decimals : Z;
  tb_balance : Q
}.

Section Balances.
(** [get_token_info] ([None] when it fails) and the balance part of
    [get_token_balance] for the wallet at hand. *)
Variable get_token_info : string -> option TokenInfo.
Variable get_token_balance : string -> Q.

Definition balances_step (balances : list TokenBalance) (token_address : string)
  : list TokenBalance :=
  match get_token_info token_address with
  | None => balances
  | Some info =>
      let balance := get_token_balance token_address in
      if Qgtb balance 0 then
        (balances ++ [ {| tb_address := token_address;
                          tb_name := ti_name info;
                          tb_symbol := ti_symbol info;
                          tb_decimals := ti_decimals info;
                          tb_balance := balance |} ])%list
      else balances
  end.

Definition get_all_tokens_balances (token_addresses : list string)
  : list TokenBalance :=
  fold_left balances_step token_addresses [].

(** The addresses that make it into the list. *)
Definition has_balance (token_address : string) : bool :=
  match get_token_info token_address with
  | None => false
  | Some _ => Qgtb (get_token_balance token_address) 0
  end.
End Balances.

(** *** [BlockchainManager.send_token] *)

(** The [transfer] transaction as handed to [build_transaction]; the gas
    limit is given, so none is estimated. *)
Record TransferTx := {
  tr_contract : string;
  tr_recipient : string;
  tr_amount : Z;
  tr_from : string;
  tr_nonce : Z;
  tr_maxFeePerGas : Z;
  tr_maxPriorityFeePerGas : Z;
  tr_gas : Z;
  tr_chainId : Z
}.

(** What the node and the signer answer for a transfer, beside [Web3].
    [decimals()] is decoded from a [uint8].  The key is whatever the caller
    hands over: a string, or [None] when a caller passes on what
    [get_decrypted_private_key] returned. *)
Record TransferNode (Key : Type) := {
  call_decimals : string -> option N;
  sign_transfer : TransferTx -> Key -> option string
}.
Arguments call_decimals {Key} _ _.
Arguments sign_transfer {Key} _ _ _.

(** The dictionary returned; [send_amount] is the [Decimal] whose text
    the code stores under ['amount']. *)
Record SendResult := {
  send_tx_hash : string;
  send_amount : Q;
  send_recipient : string
}.

(** The transfers handed to the node so far, each with the raw bytes sent. *)
Definition Transfers : Type := list (TransferTx * string).

(** [int(amount * Decimal(10 ** decimals))]: the product is rounded by the
    context before its integer part is taken; [None] is [Overflow]. *)
Definition transfer_units (amount : Q) (decimals : N) : option Z :=
  option_map int_of_Q
    (PyDecimal.mul amount (inject_Z (10 ^ Z.of_N decimals))).

Definition send_token {Key : Type} (w : Web3) (n : TransferNode Key)
    (token_address recipient_address : string) (amount : Q)
    (wallet_address : string) (private_key : Key) (sent : Transfers)
  : option SendResult * Transfers :=
  match to_checksum_address w token_address,
        to_checksum_address w recipient_address,
        to_checksum_address w wallet_address with
  | Some checksum_token, Some checksum_recipient, Some checksum_wallet =>
      match call_decimals n checksum_token with
      | None => (None, sent)
      | Some decimals =>
        match transfer_units amount decimals with
        | None => (None, sent)
        | Some amount_in_smallest_unit =>
          match get_transaction_count w checksum_wallet with
          | None => (None, sent)
          | Some nonce =>
              let gas_settings := gas_params_of "normal" in
              let transfer_txn :=
                {| tr_contract := checksum_token;
                   tr_recipient := checksum_recipient;
                   tr_amount := amount_in_smallest_unit;
                   tr_from := checksum_wallet;
                   tr_nonce := nonce;
                   tr_maxFeePerGas :=
                     to_wei w (inject_Z (maxFeePerGas gas_settings)) "gwei";
                   tr_maxPriorityFeePerGas :=
                     to_wei w (inject_Z (maxPriorityFeePerGas gas_settings)) "gwei";
                   tr_gas := 100000;
                   tr_chainId := CHAIN_ID |} in
              match sign_transfer n transfer_txn private_key with
              | None => (None, sent)
              | Some raw =>
                  match send_raw_transaction w raw with
                  | None => (None, sent)
                  | Some tx_hash =>
                      (Some {| send_tx_hash := tx_hash;
                               send_amount := amount;
                               send_recipient := recipient_address |},
                       (sent ++ [(transfer_txn, raw)])%list)
                  end
              end
          end
        end
      end
  | _, _, _ => (None, sent)
  end.

End Chain.

(** ** send_receive_handlers.py: the amount step of a transfer *)

Module SendFlow.
Import PyStr Config Blockchain Chain Database.

(** The conversation states a handler returns. *)
Inductive State : Type :=
| AWAITING_SEND_ADDRESS
| AWAITING_SEND_AMOUNT
| AWAITING_SEND_PASSPHRASE
| END.

(** [context.user_data['send_token']] as [handle_send_select_token] and
    [handle_send_address_input] leave it. *)
Record SendContext := {
  sc_symbol : string;
  sc_address : string;
  sc_balance : Q;
  sc_recipient : string
}.

(** The dictionary signed for a transfer of the native currency. *)
Record NativeTx := {
  nt_from : string;
  nt_nonce : Z;
  nt_to : string;
  nt_value : Z;
  nt_gas : Z;
  nt_maxFeePerGas : Z;
  nt_maxPriorityFeePerGas : Z;
  nt_chainId : Z
}.

(** [w3.eth.chain_id] and [w3.eth.account.sign_transaction] on that
    dictionary; the key is what [get_decrypted_private_key] returned. *)
Record NativeNode := {
  chain_id : option Z;
  sign_native : NativeTx -> option string -> option string
}.

(** What has been handed to the node: native transfers and token
    transfers, each oldest first. *)
Record Sent := {
  natives : list (NativeTx * string);
  tokens : Transfers
}.

(** The branch [if symbol in ['MON', 'MONAD']]; [None] is an exception. *)
Definition native_transfer (w : Web3) (nn : NativeNode)
    (wallet_address recipient : string) (amount : Q)
    (private_key : option string) (sent : Sent) : option string * Sent :=
  match to_checksum_address w wallet_address,
        to_checksum_address w recipient with
  | Some checksum_from, Some checksum_to =>
      match get_transaction_count w checksum_from with
      | None => (None, sent)
      | Some nonce =>
          let gas_settings := gas_params_of "normal" in
          let max_fee :=
            to_wei w (inject_Z (maxFeePerGas gas_settings)) "gwei" in
          let max_priority :=
            to_wei w (inject_Z (maxPriorityFeePerGas gas_settings)) "gwei" in
          match chain_id nn with
          | None => (None, sent)
          | Some chainId =>
              let tx :=
                {| nt_from := checksum_from;
                   nt_nonce := nonce;
                   nt_to := checksum_to;
                   nt_value := to_wei w amount "ether";
                   nt_gas := 21000;
                   nt_maxFeePerGas := max_fee;
                   nt_maxPriorityFeePerGas := max_priority;
                   nt_chainId := chainId |} in
              match sign_native nn tx private_key with
              | None => (None, sent)
              | Some raw =>
                  match send_raw_transaction w raw with
                  | None => (None, sent)
                  | Some tx_hash =>
                      (Some tx_hash,
                       {| natives := (natives sent ++ [(tx, raw)])%list;
                          tokens := tokens sent |})
                  end
              end
          end
      end
  | _, _ => (None, sent)
  end.

(** The [try] block of [handle_send_amount_input]: the hash shown on
    success, [None] when an [except] clause was taken. *)
Definition execute_send (f : Security.Fernet)
    (c : SecurityPassphrase.PassphraseCipher) (db : Db)
    (w : Web3) (nn : NativeNode) (n : TransferNode (option string))
    (user_id : Z) (token : SendContext) (amount : Q) (sent : Sent)
  : option string * Sent :=
  match get_decrypted_private_key f c db user_id None with
  | Err _ => (None, sent)
  | Ok private_key =>
      match get_user db user_id with
      | None => (None, sent)
      | Some user =>
          if str_in (sc_symbol token) ["MON"; "MONAD"] then
            native_transfer w nn (wallet_address user) (sc_recipient token)
              amount private_key sent
          else
            match send_token w n (sc_address token) (sc_recipient token)
                    amount (wallet_address user) private_key (tokens sent) with
            | (None, transfers) =>
                (None, {| natives := natives sent; tokens := transfers |})
            | (Some result, transfers) =>
                (Some (send_tx_hash result),
                 {| natives := natives sent; tokens := transfers |})
            end
      end
  end.

(** [handle_send_amount_input].  [amount] is [Decimal(text.strip())] when
    that is a finite number; it is [None] when [Decimal] raises and when the
    value is a NaN or an infinity: comparing a NaN raises in the first
    [try], minus infinity is not positive, and plus infinity exceeds every
    balance, so each of them is asked for again.  The replies written to
    the chat are left out. *)
Definition handle_send_amount_input (f : Security.Fernet)
    (c : SecurityPassphrase.PassphraseCipher) (db : Db)
    (w : Web3) (nn : NativeNode) (n : TransferNode (option string))
    (user_id : Z) (token : SendContext) (amount : option Q) (sent : Sent)
  : State * Sent :=
  match amount with
  | None => (AWAITING_SEND_AMOUNT, sent)
  | Some amount =>
      if Qle_bool amount 0 then (AWAITING_SEND_AMOUNT, sent)
      else if Qgtb amount (sc_balance token) then (AWAITING_SEND_AMOUNT, sent)
      else (END, snd (execute_send f c db w nn n user_id token amount sent))
  end.

End SendFlow.


(** ** database.py: the tables as they are written *)

Module Store.
Import PyStr Security SecurityPassphrase Database.

(** A row of [user_settings]. *)
Record UserSettings := {
  us_telegram_id : Z;
  us_slippage : spec_float;
  us_gas_price_mode : string;
  us_anti_mev : Z;
  us_notifications_enabled : Z
}.

(** A row of [token_history]. *)
Record TokenHistory := {
  th_telegram_id : Z;
  th_token_address : string;
  th_token_name : option string;
  th_token_symbol : option string;
  th_action : string;
  th_amount : string;
  th_tx_hash : option string
}.

(** The tables; [telegram_id] is the primary key of [users] and of
    [user_settings]. *)
Record Tables := {
  st_db : Db;
  st_settings : list UserSettings;
  st_history : list TokenHistory
}.

(** How a method ends: it returns, it raises what the encryption raised,
    or the commit of a second row under a primary key raises
    [IntegrityError]. *)
Inductive outcome (A : Type) : Type :=
| Returned (a : A)
| Raised (e : error)
| IntegrityError.
Arguments Returned {A} a.
Arguments Raised {A} e.
Arguments IntegrityError {A}.

Definition get_settings_row (t : Tables) (tid : Z) : option UserSettings :=
  find (fun s => us_telegram_id s =? tid) (st_settings t).

(** [UserSettings(telegram_id=telegram_id)] with the column defaults. *)
Definition default_settings (tid : Z) : UserSettings :=
  {| us_telegram_id := tid;
     us_slippage := Blockchain.slippage_1_0;
     us_gas_price_mode := "normal";
     us_anti_mev := 0;
     us_notifications_enabled := 1 |}.

(** [_create_default_settings]; [None] is [IntegrityError]. *)
Definition _create_default_settings (t : Tables) (tid : Z) : option Tables :=
  match get_settings_row t tid with
  | Some _ => None
  | None =>
      Some {| st_db := st_db t;
              st_settings := (st_settings t ++ [default_settings tid])%list;
              st_history := st_history t |}
  end.

Definition with_users (t : Tables) (us : list User) : Tables :=
  {| st_db := {| users := us; snapshots := snapshots (st_db t) |};
     st_settings := st_settings t;
     st_history := st_history t |}.

(** [create_user]: the row is committed before the settings are made. *)
Definition create_user (f : Fernet) (c : PassphraseCipher)
    (entropy fresh_salt : string) (t : Tables)
    (tid : Z) (wallet_address private_key : string)
    (passphrase : option string) : outcome User * Tables :=
  match make_user f c entropy fresh_salt tid wallet_address private_key
          passphrase with
  | Err e => (Raised e, t)
  | Ok user =>
      match get_user (st_db t) tid with
      | Some _ => (IntegrityError, t)
      | None =>
          let t1 := with_users t (users (st_db t) ++ [user])%list in
          match _create_default_settings t1 tid with
          | None => (IntegrityError, t1)
          | Some t2 => (Returned user, t2)
          end
      end
  end.

(** The assignment to the fields of the first row with that id. *)
Fixpoint replace_user (row : User) (us : list User) : list User :=
  match us with
  | [] => []
  | u :: r =>
      if telegram_id u =? telegram_id row then row :: r
      else u :: replace_user row r
  end.

(** [update_user_wallet] *)
Definition update_user_wallet (f : Fernet) (c : PassphraseCipher)
    (entropy fresh_salt : string) (t : Tables)
    (tid : Z) (wallet_address private_key : string)
    (passphrase : option string) : outcome User * Tables :=
  match get_user (st_db t) tid with
  | Some _ =>
      match make_user f c entropy fresh_salt tid wallet_address private_key
              passphrase with
      | Err e => (Raised e, t)
      | Ok row => (Returned row, with_users t (replace_user row (users (st_db t))))
      end
  | None =>
      create_user f c entropy fresh_salt t tid wallet_address private_key
        passphrase
  end.

(** [get_user_settings]: the row, made with the defaults when missing. *)
Definition get_user_settings (t : Tables) (tid : Z)
  : outcome (option UserSettings) * Tables :=
  match get_settings_row t tid with
  | Some settings => (Returned (Some settings), t)
  | None =>
      match _create_default_settings t tid with
      | None => (IntegrityError, t)
      | Some t' => (Returned (get_settings_row t' tid), t')
      end
  end.

(** [add_token_history] *)
Definition add_token_history (t : Tables) (tid : Z)
    (token_address action amount : string)
    (tx_hash token_name token_symbol : option string) : Tables :=
  {| st_db := st_db t;
     st_settings := st_settings t;
     st_history :=
       (st_history t ++
        [ {| th_telegram_id := tid;
             th_token_address := token_address;
             th_token_name := token_name;
             th_token_symbol := token_symbol;
             th_action := action;
             th_amount := amount;
             th_tx_hash := tx_hash |} ])%list |}.

(** [SELECT DISTINCT token_address ... WHERE telegram_id = ?]: each
    address once; the order of the rows is the database's. *)
Definition get_user_tokens (t : Tables) (tid : Z) : list string :=
  nodup string_dec
    (map th_token_address
       (filter (fun h => th_telegram_id h =? tid) (st_history t))).

End Store.


(** ** portfolio.py: the price cache *)

Module PriceCache.

(** [_price_cache] and [_cache_expiry]; a time is a number of seconds. *)
Record Cache := {
  _price_cache : PyDict.dict spec_float;
  _cache_expiry : PyDict.dict Q
}.

Definition CACHE_DURATION_SECONDS : Q := 300.

(** [get_cached_price] at the time [now]. *)
Definition get_cached_price (c : Cache) (now : Q) (token_address : string)
  : option spec_float :=
  match PyDict.get token_address (_price_cache c) with
  | Some price =>
      match PyDict.get token_address (_cache_expiry c) with
      | Some expiry => if Qgtb expiry now then Some price else None
      | None => None
      end
  | None => None
  end.

(** [cache_price] at the time [now]. *)
Definition cache_price (c : Cache) (now : Q) (token_address : string)
    (price : spec_float) : Cache :=
  {| _price_cache := PyDict.set token_address price (_price_cache c);
     _cache_expiry :=
       PyDict.set token_address (now + CACHE_DURATION_SECONDS)%Q
         (_cache_expiry c) |}.

End PriceCache.


(** ** Sample instances

    Small ciphers and inputs on which the statements below are exercised. *)

Module Samples.
Import Security SecurityPassphrase.
Local Open Scope Z_scope.

(** A cipher in the shape of Fernet that only tags the data. *)
Definition tag_fernet : Fernet :=
  {| fernet_encrypt := fun _ data => String "g" data;
     fernet_decrypt := fun token =>
       match token with
       | String c data => if Ascii.eqb c "g" then Some data else None
       | EmptyString => None
       end |}.

(** A key written so that no key's code is the start of another's: each
    character follows a ["1"], and a ["0"] closes the key. *)
Fixpoint seal_key (k : string) : string :=
  match k with
  | EmptyString => "0"
  | String c k' => String "1" (String c (seal_key k'))
  end.

Fixpoint open_key (k token : string) : option string :=
  match k, token with
  | EmptyString, String t rest =>
      if Ascii.eqb t "0" then Some rest else None
  | String c k', String t rest =>
      if Ascii.eqb t "1" then
        match rest with
        | String c' rest' => if Ascii.eqb c c' then open_key k' rest' else None
        | EmptyString => None
        end
      else None
  | _, EmptyString => None
  end.

(** A passphrase cipher that stores the key in front of the plaintext and
    compares it on the way back. *)
Definition prefix_cipher : PassphraseCipher :=
  {| derive_key := fun passphrase salt => salt ++ passphrase;
     auth_encrypt := fun k _ m => seal_key k ++ m;
     auth_decrypt := fun k token => open_key k token |}.

(** A holding without a price. *)
Definition holding (symbol : string) (balance : Q) : Portfolio.Token :=
  {| Portfolio.symbol := symbol; Portfolio.name := symbol;
     Portfolio.address := "0x" ++ symbol; Portfolio.balance := balance;
     Portfolio.value_usd := None; Portfolio.price_usd := None;
     Portfolio.verified := true |}.

(** Five displayed holdings with the balances 1000, 900, 800, 10 and 5. *)
Definition five_holdings : list Portfolio.Token :=
  [ holding "AAA" 1000; holding "BBB" 900; holding "CCC" 800;
    holding "DDD" 10; holding "EEE" 5 ].

(** Five displayed holdings of which one stands far above the rest. *)
Definition one_whale : list Portfolio.Token :=
  [ holding "AAA" 1000; holding "BBB" 9; holding "CCC" 8;
    holding "DDD" 7; holding "EEE" 5 ].

(** A store with one wallet under the passphrase ["hunter22"] and one
    wallet under the master key. *)
Definition two_wallets : Database.Db :=
  {| Database.users :=
       match Database.make_user tag_fernet prefix_cipher "iv" "c2FsdA" 7
               "0x1111111111111111111111111111111111111111" "0xabc"
               (Some "hunter22"),
             Database.make_user tag_fernet prefix_cipher "iv" "" 8
               "0x2222222222222222222222222222222222222222" "0xdef" None with
       | Ok a, Ok b => [a; b]
       | _, _ => []
       end;
     Database.snapshots := [] |}.

(** The row of the passphrase wallet in [two_wallets]. *)
Definition salted_row : Database.User :=
  {| Database.telegram_id := 7;
     Database.wallet_address := "0x1111111111111111111111111111111111111111";
     Database.encrypted_private_key := seal_key "c2FsdAhunter22" ++ "0xabc";
     Database.passphrase_salt := Some "c2FsdA" |}.

(** A node that answers every call: it reports the given allowance, quotes
    the given output for any swap, and takes every transaction. *)
Definition answering_node (allowance quote : Z) (clock : Q) : Blockchain.Web3 :=
  {| Blockchain.to_checksum_address := fun a => Some a;
     Blockchain.from_key := fun _ => Some "0x3333333333333333333333333333333333333333";
     Blockchain.to_wei := fun q unit =>
       if String.eqb unit "gwei" then Qfloor (q * inject_Z (10 ^ 9))
       else Qfloor (q * inject_Z (10 ^ 18));
     Blockchain.from_wei := fun z _ => (inject_Z z / inject_Z (10 ^ 18))%Q;
     Blockchain.call_allowance := fun _ _ _ => Some allowance;
     Blockchain.call_getAmountsOut := fun amount_in _ => Some [amount_in; quote];
     Blockchain.get_token_info := fun _ =>
       Some {| Blockchain.ti_name := "Token"; Blockchain.ti_symbol := "TKN";
               Blockchain.ti_decimals := 18 |};
     Blockchain.get_transaction_count := fun _ => Some 5;
     Blockchain.estimate_gas := fun _ => Some 60000;
     Blockchain.sign_transaction := fun _ _ => Some "0xf86b";
     Blockchain.send_raw_transaction := fun _ => Some "0x9f3c";
     Blockchain.time_time := clock |}.

Definition token_a : string := "0x4444444444444444444444444444444444444444".

(** A holding of a holdings map. *)
Definition entry (symbol address : string) (balance : Q) (verified : bool)
  : Blockchain.TokenData :=
  {| Blockchain.symbol := symbol; Blockchain.name := symbol;
     Blockchain.balance := balance; Blockchain.decimals := Some 18;
     Blockchain.address := address; Blockchain.verified := verified;
     Blockchain.imageURL := None; Blockchain.balance_increase := None;
     Blockchain.tx_hash := None |}.

(** Holdings with the native currency, a verified and an unverified token. *)
Definition three_holdings : Blockchain.Holdings :=
  [ ("MON", Blockchain.native_entry 2);
    ("USDC", entry "USDC" "0xf817257fed379853cde0fa4f97ab987181b1e5ea" 50 true);
    ("SCAM", entry "SCAM" "0x6666666666666666666666666666666666666666" 1000000 false) ].

(** A store in which user 7 has the snapshot [("MON", 1)]. *)
Definition with_snapshot : Database.Db :=
  {| Database.users := []; 
     Database.snapshots := [(7, [("MON", Blockchain.native_entry 1)])] |}.

(** A transfer history that never answers. *)
Definition silent_api : NotificationMonitor.TransferApi := fun _ _ => None.

(** Two contracts that both call themselves USDC, seen by the first
    helper with the balances 3 and 4. *)
Definition usdc_twice : Blockchain.AlchemyData :=
  {| Blockchain.ad_native_balance := Some (NumStr 2);
     Blockchain.ad_tokens :=
       [ {| Blockchain.at_symbol := Some "USDC"; Blockchain.at_name := Some "USD Coin";
            Blockchain.at_balance := Some (NumStr 3);
            Blockchain.at_decimals := Some 6;
            Blockchain.at_address := Some "0xf817257fed379853cde0fa4f97ab987181b1e5ea" |};
         {| Blockchain.at_symbol := Some "USDC"; Blockchain.at_name := Some "Fake";
            Blockchain.at_balance := Some (NumStr 4);
            Blockchain.at_decimals := Some 18;
            Blockchain.at_address := Some "0x7777777777777777777777777777777777777777" |} ] |}.

(** The same two contracts as the second helper lists them. *)
Definition usdc_twice_blockvision : list Blockchain.BlockVisionToken :=
  [ {| Blockchain.bv_symbol := Some "USDC";
       Blockchain.bv_balance := Some (NumStr 3);
       Blockchain.bv_contractAddress :=
         Some "0xf817257fed379853cde0fa4f97ab987181b1e5ea";
       Blockchain.bv_name := Some "USD Coin";
       Blockchain.bv_verified := Some true;
       Blockchain.bv_imageURL := None |};
    {| Blockchain.bv_symbol := Some "USDC";
       Blockchain.bv_balance := Some (NumStr 4);
       Blockchain.bv_contractAddress :=
         Some "0x7777777777777777777777777777777777777777";
       Blockchain.bv_name := Some "Fake";
       Blockchain.bv_verified := None;
       Blockchain.bv_imageURL := None |} ].

(** The same two contracts as the chain reports them for a history. *)
Definition usdc_info (a : string) : option Blockchain.TokenInfo :=
  if String.eqb a "0xf817257fed379853cde0fa4f97ab987181b1e5ea"
  then Some {| Blockchain.ti_name := "USD Coin"; Blockchain.ti_symbol := "USDC";
               Blockchain.ti_decimals := 6 |}
  else if String.eqb a "0x7777777777777777777777777777777777777777"
  then Some {| Blockchain.ti_name := "Fake"; Blockchain.ti_symbol := "USDC";
               Blockchain.ti_decimals := 18 |}
  else None.

Definition usdc_balance (a : string) : Q :=
  if String.eqb a "0xf817257fed379853cde0fa4f97ab987181b1e5ea" then 3 else 4.

End Samples.


(** ** Further sample instances *)

Module Samples2.
Import Samples.
Local Open Scope Z_scope.

(** A node that grants a fresh approval and then fails to quote. *)
Definition quoteless_node : Blockchain.Web3 :=
  {| Blockchain.to_checksum_address := fun a => Some a;
     Blockchain.from_key := fun _ => Some "0x3333333333333333333333333333333333333333";
     Blockchain.to_wei := fun q _ => Qfloor (q * inject_Z (10 ^ 9));
     Blockchain.from_wei := fun z _ => (inject_Z z / inject_Z (10 ^ 18))%Q;
     Blockchain.call_allowance := fun _ _ _ => Some 0;
     Blockchain.call_getAmountsOut := fun _ _ => None;
     Blockchain.get_token_info := fun _ =>
       Some {| Blockchain.ti_name := "Token"; Blockchain.ti_symbol := "TKN";
               Blockchain.ti_decimals := 18 |};
     Blockchain.get_transaction_count := fun _ => Some 5;
     Blockchain.estimate_gas := fun _ => Some 60000;
     Blockchain.sign_transaction := fun _ _ => Some "0xf86b";
     Blockchain.send_raw_transaction := fun _ => Some "0x9f3c";
     Blockchain.time_time := 0 |}.

(** A signer and token contract that answer a transfer. *)
Definition answering_transfer : Chain.TransferNode string :=
  {| Chain.call_decimals := fun _ => Some 6%N;
     Chain.sign_transfer := fun _ _ => Some "0xf8a9" |}.

(** A node and a signer for the send flow: they refuse a missing key and
    answer everything else. *)
Definition answering_native : SendFlow.NativeNode :=
  {| SendFlow.chain_id := Some 10143;
     SendFlow.sign_native := fun _ key =>
       match key with Some _ => Some "0xf86c" | None => None end |}.

Definition keyed_transfer : Chain.TransferNode (option string) :=
  {| Chain.call_decimals := fun _ => Some 6%N;
     Chain.sign_transfer := fun _ key =>
       match key with Some _ => Some "0xf8a9" | None => None end |}.

(** What the amount step finds in the context: 50 USDC, or 2 MON, to be
    sent to the same recipient. *)
Definition usdc_context : SendFlow.SendContext :=
  {| SendFlow.sc_symbol := "USDC";
     SendFlow.sc_address := "0xf817257fed379853cde0fa4f97ab987181b1e5ea";
     SendFlow.sc_balance := 50;
     SendFlow.sc_recipient := "0x8888888888888888888888888888888888888888" |}.

Definition mon_context : SendFlow.SendContext :=
  {| SendFlow.sc_symbol := "MON";
     SendFlow.sc_address := Blockchain.ZERO_ADDRESS;
     SendFlow.sc_balance := 2;
     SendFlow.sc_recipient := "0x8888888888888888888888888888888888888888" |}.

Definition nothing_sent : SendFlow.Sent :=
  {| SendFlow.natives := []; SendFlow.tokens := [] |}.

(** The tables with the two wallets and nothing else. *)
Definition two_wallet_tables : Store.Tables :=
  {| Store.st_db := two_wallets; Store.st_settings := [];
     Store.st_history := [] |}.

End Samples2.

(* ================================================================== *)
(** * Theorems *)
(* ================================================================== *)

(** ** Facts about the string primitives *)

Module PyStrFacts.
Import PyStr.

Lemma str_in_In (x : string) (xs : list string) :
  str_in x xs = true <-> In x xs.
Proof.
  unfold str_in. rewrite existsb_exists. split.
  - intros [y [Hy He]]. apply String.eqb_eq in He. now subst.
  - intros H. exists x. split; [assumption | apply String.eqb_refl].
Qed.

Lemma str_in_not_In (x : string) (xs : list string) :
  str_in x xs = false <-> ~ In x xs.
Proof.
  rewrite <- str_in_In. destruct (str_in x xs); split; congruence.
Qed.

Lemma length_app (a b : string) :
  String.length (a ++ b) = (String.length a + String.length b)%nat.
Proof. induction a as [|c a IH]; simpl; [reflexivity | now rewrite IH]. Qed.

Lemma substring_whole (p : string) : substring 0 (String.length p) p = p.
Proof. induction p as [|c p IH]; simpl; [reflexivity | now rewrite IH]. Qed.

Lemma substring_skip (q p : string) :
  substring (String.length q) (String.length p) (q ++ p) = p.
Proof.
  induction q as [|c q IH]; simpl; [apply substring_whole | exact IH].
Qed.

(** A string splits at any position inside it. *)
Lemma substring_split (s : string) :
  forall n, (n <= String.length s)%nat ->
    s = substring 0 n s ++ substring n (String.length s - n) s.
Proof.
  induction s as [|c s IH]; intros n Hn; simpl in *.
  - assert (n = 0%nat) by lia. subst. reflexivity.
  - destruct n as [|n]; simpl.
    + now rewrite substring_whole.
    + f_equal. apply IH. lia.
Qed.

Lemma endswith_suffix (s p : string) :
  endswith s p = true <-> exists q, s = q ++ p.
Proof.
  unfold endswith. rewrite andb_true_iff, Nat.leb_le, String.eqb_eq. split.
  - intros [Hlen Hsub].
    exists (substring 0 (String.length s - String.length p) s).
    assert (H := substring_split s (String.length s - String.length p)
                   ltac:(lia)).
    replace (String.length s - (String.length s - String.length p))%nat
      with (String.length p) in H by lia.
    now rewrite Hsub in H.
  - intros [q ->]. rewrite length_app. split; [lia|].
    replace (String.length q + String.length p - String.length p)%nat
      with (String.length q) by lia.
    apply substring_skip.
Qed.

Lemma startswith_prefix (s p : string) :
  startswith s p = true <-> exists r, s = p ++ r.
Proof.
  revert s. induction p as [|a p IH]; intros s; simpl.
  - split; [intros _; now exists s | reflexivity].
  - destruct s as [|b s]; simpl.
    + split; [discriminate | intros [r Hr]; discriminate].
    + rewrite andb_true_iff, Ascii.eqb_eq, IH. split.
      * intros [-> [r ->]]. now exists r.
      * intros [r Hr]. injection Hr as -> ->. split; [reflexivity | now exists r].
Qed.

End PyStrFacts.

(** ** The verified-token predicate *)

Module VerifiedFacts.
Import PyStr PyStrFacts Config Blockchain.

Lemma verified_iff (token_address symbol : string) :
  _is_token_verified token_address symbol = true <->
  allow_listed token_address
  \/ In symbol ["MON"; "MONAD"; "WMON"; "USDC"; "USDT"; "WETH"; "WBTC"]
  \/ In symbol ["USDT"; "USDC"; "DAI"; "BUSD"; "FRAX"; "R2USD"]
  \/ (exists stem, symbol = stem ++ ".a").
Proof.
  unfold _is_token_verified, allow_listed.
  rewrite <- !str_in_In, <- endswith_suffix.
  change (str_in symbol ["MON"; "MONAD"; "WMON"; "USDC"; "USDT"; "WETH"; "WBTC"])
    with (str_in symbol HIGH_VALUE_TOKENS).
  change (str_in symbol ["USDT"; "USDC"; "DAI"; "BUSD"; "FRAX"; "R2USD"])
    with (str_in symbol stablecoins).
  destruct (str_in (lower token_address) (map fst VERIFIED_TOKENS));
    [ tauto | ].
  destruct (str_in symbol HIGH_VALUE_TOKENS); [ tauto | ].
  destruct (str_in symbol stablecoins); [ tauto | ].
  destruct (endswith symbol ".a"); simpl; intuition congruence.
Qed.

(** C1.  [_is_token_verified] answers true exactly when the lower-cased
    address is in the allow-list, or the symbol is one of MON, MONAD, WMON,
    USDC, USDT, WETH, WBTC, or one of the stablecoin tickers USDT, USDC, DAI,
    BUSD, FRAX, R2USD, or ends with [.a].  So an allow-listed address is
    verified under any symbol, USDT and XYZ.a are verified at any address,
    and RANDOM at an unlisted address is not. *)
Theorem is_token_verified_spec :
  (forall token_address symbol,
      _is_token_verified token_address symbol = true <->
      allow_listed token_address
      \/ In symbol ["MON"; "MONAD"; "WMON"; "USDC"; "USDT"; "WETH"; "WBTC"]
      \/ In symbol ["USDT"; "USDC"; "DAI"; "BUSD"; "FRAX"; "R2USD"]
      \/ (exists stem, symbol = stem ++ ".a"))
  /\ (forall token_address symbol,
        allow_listed token_address ->
        _is_token_verified token_address symbol = true)
  /\ (forall token_address, _is_token_verified token_address "USDT" = true)
  /\ (forall token_address, _is_token_verified token_address "XYZ.a" = true)
  /\ (forall token_address,
        ~ allow_listed token_address ->
        _is_token_verified token_address "RANDOM" = false).
Proof.
  split; [exact verified_iff|].
  split; [intros a s H; apply verified_iff; now left|].
  split; [intros a; apply verified_iff; right; left; simpl; tauto|].
  split; [intros a; apply verified_iff; right; right; right; now exists "XYZ"|].
  intros a H.
  destruct (_is_token_verified a "RANDOM") eqn:E; [|reflexivity].
  apply verified_iff in E.
  destruct E as [E | [E | [E | [stem E]]]].
  - contradiction.
  - simpl in E. intuition discriminate.
  - simpl in E. intuition discriminate.
  - assert (F : endswith "RANDOM" ".a" = true)
      by (apply endswith_suffix; now exists stem).
    discriminate F.
Qed.

(** The wrapped-native contract, written in mixed case and held under a
    symbol no list knows, is verified; an address outside the list is not. *)
Lemma is_token_verified_witness :
  _is_token_verified "0x760AFE86E5DE5FA0EE542FC7B7B713E1C5425701" "RANDOM" = true
  /\ _is_token_verified "0x00000000000000000000000000000000000000aa" "RANDOM" = false.
Proof.
  split.
  - apply (proj1 (proj2 is_token_verified_spec)).
    unfold allow_listed. apply str_in_In. vm_compute. reflexivity.
  - apply (proj2 (proj2 (proj2 (proj2 is_token_verified_spec)))).
    unfold allow_listed. apply str_in_not_In. vm_compute. reflexivity.
Defined.

End VerifiedFacts.

(** ** The sample ciphers obey the laws *)

Module SamplesFacts.
Import Security SecurityPassphrase Samples.

Lemma tag_fernet_lawful : fernet_lawful tag_fernet.
Proof. split; intros; simpl; [reflexivity | discriminate]. Qed.

Lemma open_seal (k m : string) : open_key k (seal_key k ++ m) = Some m.
Proof. induction k as [|c k IH]; simpl; [reflexivity|]. now rewrite Ascii.eqb_refl. Qed.

Lemma open_other (k : string) :
  forall k' m, k <> k' -> open_key k' (seal_key k ++ m) = None.
Proof.
  induction k as [|c k IH]; intros [|d k'] m Hne; simpl; try reflexivity.
  - congruence.
  - destruct (Ascii.eqb d c) eqn:E; [|reflexivity].
    apply Ascii.eqb_eq in E. subst. apply IH. congruence.
Qed.

Lemma app_inv_head (s a b : string) : s ++ a = s ++ b -> a = b.
Proof. induction s as [|c s IH]; simpl; [auto | intros H; injection H; auto]. Qed.

Lemma prefix_cipher_lawful : cipher_lawful prefix_cipher.
Proof.
  split; simpl.
  - intros k _ m. apply open_seal.
  - intros k k' _ m H. now apply open_other.
  - intros p p' s. apply app_inv_head.
  - intros [|c k] _ m; discriminate.
Qed.

End SamplesFacts.

(** ** The master-key service *)

Module SecurityFacts.
Import PyStr PyStrFacts Security Samples SamplesFacts.

Lemma truthy_nonempty (s : string) : truthy s = true <-> s <> EmptyString.
Proof. destruct s; simpl; split; congruence. Qed.

Lemma roundtrip_normalizes (f : Fernet) (entropy private_key : string) :
  fernet_lawful f -> private_key <> EmptyString ->
  roundtrip f entropy private_key = Ok (normalize_key private_key).
Proof.
  intros [Hdec Hne] Hp. unfold roundtrip, encrypt_private_key.
  apply truthy_nonempty in Hp. rewrite Hp. simpl.
  unfold decrypt_private_key, encrypt_data, decrypt_data.
  specialize (Hne entropy (normalize_key private_key)).
  apply truthy_nonempty in Hne. rewrite Hne. simpl.
  now rewrite Hdec.
Qed.

Lemma prepend_differs (p : string) : "0x" ++ p <> p.
Proof.
  intros H. apply (f_equal String.length) in H. simpl in H. lia.
Qed.

(** C2, as the code has it.  Under the master key, decrypting what
    [encrypt_private_key] produced from a non-empty key gives the key in
    its normalised form: the key itself when it starts with [0x], and the
    key with [0x] put in front when it does not. *)
Theorem decrypt_encrypt_normalized (f : Fernet) (entropy private_key : string) :
  fernet_lawful f -> private_key <> EmptyString ->
  roundtrip f entropy private_key = Ok (normalize_key private_key)
  /\ (startswith private_key "0x" = true ->
      roundtrip f entropy private_key = Ok private_key)
  /\ (startswith private_key "0x" = false ->
      roundtrip f entropy private_key = Ok ("0x" ++ private_key)
      /\ roundtrip f entropy private_key <> Ok private_key).
Proof.
  intros Hf Hp. pose proof (roundtrip_normalizes f entropy private_key Hf Hp) as R.
  split; [exact R|]. unfold normalize_key in R. split; intros E; rewrite E in R.
  - exact R.
  - split; [exact R|]. rewrite R. intros H. injection H. apply prepend_differs.
Qed.

Lemma decrypt_encrypt_normalized_witness :
  roundtrip tag_fernet "iv" "0xabc" = Ok "0xabc"
  /\ roundtrip tag_fernet "iv" "abc" = Ok "0xabc".
Proof.
  split.
  - apply (proj1 (proj2 (decrypt_encrypt_normalized tag_fernet "iv" "0xabc"
                           tag_fernet_lawful ltac:(discriminate)))).
    reflexivity.
  - apply (proj2 (proj2 (decrypt_encrypt_normalized tag_fernet "iv" "abc"
                           tag_fernet_lawful ltac:(discriminate)))).
    reflexivity.
Defined.

(** C2, as the specification words it, fails: a non-empty key without
    the prefix does not come back unchanged. *)
Lemma roundtrip_identity_fails :
  ~ (forall (f : Fernet) (entropy private_key : string),
        fernet_lawful f -> private_key <> EmptyString ->
        roundtrip f entropy private_key = Ok private_key).
Proof.
  intros H.
  specialize (H tag_fernet "iv" "abc" tag_fernet_lawful ltac:(discriminate)).
  vm_compute in H. discriminate H.
Qed.

End SecurityFacts.

(** ** Outlier suppression in the portfolio rendering *)

Module PortfolioFacts.
Import Portfolio Samples.

(** When the quantity basis does set outliers aside, at least three
    holdings remain in the base. *)
Lemma outliers_leave_three (displayed : list Token) :
  outlier_tokens (quantity_allocation displayed) <> [] ->
  (3 <= List.length (tokens_for_calc (quantity_allocation displayed)))%nat.
Proof.
  unfold quantity_allocation.
  destruct (outlier_threshold displayed) as [threshold|]; simpl; [|congruence].
  destruct (Nat.ltb _ 3) eqn:E; simpl; [congruence|].
  intros _. apply Nat.ltb_ge in E. exact E.
Qed.

(** The guard of the quantity basis: when fewer than three holdings would
    remain, nothing is set aside and every displayed holding is in the
    base. *)
Lemma suppression_guard (displayed : list Token) (threshold : spec_float) :
  outlier_threshold displayed = Some threshold ->
  (List.length (filter (fun t => negb (above threshold t)) displayed) < 3)%nat ->
  outlier_tokens (quantity_allocation displayed) = []
  /\ tokens_for_calc (quantity_allocation displayed) = displayed.
Proof.
  intros Ht Hl. unfold quantity_allocation. rewrite Ht.
  apply Nat.ltb_lt in Hl. rewrite Hl. split; reflexivity.
Qed.

(** The suppression at work: with 1000, 9, 8, 7 and 5 the reference is 7,
    the bound 70, and the one holding above it leaves the base. *)
Example one_whale_suppressed :
  outlier_tokens (allocation one_whale) = [holding "AAA" 1000]
  /\ tokens_for_calc (allocation one_whale)
     = [holding "BBB" 9; holding "CCC" 8; holding "DDD" 7; holding "EEE" 5].
Proof. vm_compute. repeat split. Qed.

(** C3, as the code has it.  With the five balances 1000, 900, 800, 10 and
    5 on the quantity basis, the fourth-largest balance is 10 and the bound
    is 100; the holdings 1000, 900 and 800 exceed it, but setting them aside
    would leave two holdings, fewer than three, so the suppression is
    abandoned: no holding is an outlier and all five form the base. *)
Theorem five_holdings_suppression_abandoned :
  use_price_allocation five_holdings = false
  /\ reference_balance five_holdings
     = Some (binary_normalize Blockchain.prec Blockchain.emax 10 0 false)
  /\ outlier_threshold five_holdings
     = Some (binary_normalize Blockchain.prec Blockchain.emax 100 0 false)
  /\ filter (above (binary_normalize Blockchain.prec Blockchain.emax 100 0 false))
       five_holdings
     = [holding "AAA" 1000; holding "BBB" 900; holding "CCC" 800]
  /\ filter (fun t =>
               negb (above (binary_normalize Blockchain.prec Blockchain.emax
                              100 0 false) t))
       five_holdings
     = [holding "DDD" 10; holding "EEE" 5]
  /\ outlier_tokens (allocation five_holdings) = []
  /\ tokens_for_calc (allocation five_holdings) = five_holdings
  /\ by_value (allocation five_holdings) = false.
Proof. vm_compute. repeat split. Qed.

(** C3, as the specification words it, fails: the three large holdings are
    not set aside, and the base is not the two small holdings. *)
Lemma five_holdings_not_excluded :
  ~ (outlier_tokens (allocation five_holdings)
       = [holding "AAA" 1000; holding "BBB" 900; holding "CCC" 800]
     /\ tokens_for_calc (allocation five_holdings)
       = [holding "DDD" 10; holding "EEE" 5]).
Proof. vm_compute. intros [H _]. discriminate H. Qed.

End PortfolioFacts.

(** ** Retrieving the signing key *)

Module DatabaseFacts.
Import PyStr Security SecurityPassphrase Database Samples SamplesFacts.
Import SecurityFacts.

Lemma opt_truthy_Some (o : option string) :
  opt_truthy o = true -> exists s, o = Some s /\ s <> EmptyString.
Proof.
  destruct o as [s|]; simpl; [|discriminate].
  intros H. exists s. split; [reflexivity | now apply truthy_nonempty].
Qed.

(** A salted record with no passphrase given. *)
Lemma salted_needs_passphrase f c db tid user passphrase :
  get_user db tid = Some user ->
  encrypted_private_key user <> EmptyString ->
  opt_truthy (passphrase_salt user) = true ->
  opt_truthy passphrase = false ->
  get_decrypted_private_key f c db tid passphrase = Err PassphraseRequired.
Proof.
  intros Hu Hk Hs Hp. unfold get_decrypted_private_key. rewrite Hu.
  apply truthy_nonempty in Hk. now rewrite Hk, Hs, Hp.
Qed.

(** A salted record and a passphrase under which the token does not
    authenticate. *)
Lemma salted_rejects_failed_check f c db tid user p :
  get_user db tid = Some user ->
  encrypted_private_key user <> EmptyString ->
  opt_truthy (passphrase_salt user) = true ->
  p <> EmptyString ->
  auth_decrypt c (derive_key c p (opt_str (passphrase_salt user)))
    (encrypted_private_key user) = None ->
  get_decrypted_private_key f c db tid (Some p) = Err IncorrectPassphrase.
Proof.
  intros Hu Hk Hs Hp Hfail. unfold get_decrypted_private_key. rewrite Hu.
  apply truthy_nonempty in Hk. apply truthy_nonempty in Hp.
  rewrite Hk, Hs. simpl. rewrite Hp. simpl.
  unfold decrypt_with_passphrase. now rewrite Hfail.
Qed.

(** The row written for a passphrase wallet. *)
Lemma make_user_salted f c entropy fresh_salt tid wallet private_key p user :
  p <> EmptyString ->
  make_user f c entropy fresh_salt tid wallet private_key (Some p) = Ok user ->
  encrypted_private_key user
    = auth_encrypt c (derive_key c p fresh_salt) entropy private_key
  /\ passphrase_salt user = Some fresh_salt.
Proof.
  intros Hp. apply truthy_nonempty in Hp. unfold make_user. simpl.
  rewrite Hp. intros H. injection H as <-. simpl. split; reflexivity.
Qed.

(** C4.  For a stored record that holds a key: with a salt and no
    passphrase (none given, or an empty one) the call fails with
    PassphraseRequired; with a salt and a
    passphrase under which the token does not authenticate it fails with
    IncorrectPassphrase, which under a lawful cipher is the case for every
    passphrase other than the one the record was written with; and the salt
    alone selects the path, the master key without it whatever passphrase is
    given, the passphrase cipher with it. *)
Theorem get_decrypted_private_key_dispatch
    (f : Fernet) (c : PassphraseCipher) (db : Db) (tid : Z) (user : User) :
  get_user db tid = Some user ->
  encrypted_private_key user <> EmptyString ->
  (forall passphrase,
      opt_truthy (passphrase_salt user) = true ->
      opt_truthy passphrase = false ->
      get_decrypted_private_key f c db tid passphrase = Err PassphraseRequired)
  /\ (forall p,
        opt_truthy (passphrase_salt user) = true ->
        p <> EmptyString ->
        auth_decrypt c (derive_key c p (opt_str (passphrase_salt user)))
          (encrypted_private_key user) = None ->
        get_decrypted_private_key f c db tid (Some p) = Err IncorrectPassphrase)
  /\ (forall entropy fresh_salt wallet private_key p p',
        cipher_lawful c ->
        fresh_salt <> EmptyString -> p <> EmptyString ->
        make_user f c entropy fresh_salt tid wallet private_key (Some p) = Ok user ->
        p' <> EmptyString -> p' <> p ->
        get_decrypted_private_key f c db tid (Some p') = Err IncorrectPassphrase)
  /\ (forall passphrase,
        opt_truthy (passphrase_salt user) = false ->
        get_decrypted_private_key f c db tid passphrase
        = lift_key (decrypt_private_key f (encrypted_private_key user)))
  /\ (forall p,
        opt_truthy (passphrase_salt user) = true ->
        p <> EmptyString ->
        get_decrypted_private_key f c db tid (Some p)
        = lift_key (decrypt_with_passphrase c (encrypted_private_key user)
                      (opt_str (passphrase_salt user)) p)).
Proof.
  intros Hu Hk. repeat split.
  - intros passphrase Hs Hp. now apply salted_needs_passphrase with (user := user).
  - intros p Hs Hp Hfail. now apply salted_rejects_failed_check with (user := user).
  - intros entropy fresh_salt wallet private_key p p' Hc Hsalt Hp Hmk Hp' Hne.
    destruct (make_user_salted _ _ _ _ _ _ _ _ _ Hp Hmk) as [Ek Es].
    apply salted_rejects_failed_check with (user := user); try assumption.
    + rewrite Es. simpl. now apply truthy_nonempty.
    + rewrite Es, Ek. simpl. apply (reject_other c Hc).
      intros E. apply (derive_inj c Hc) in E. congruence.
  - intros passphrase Hs. unfold get_decrypted_private_key. rewrite Hu.
    apply truthy_nonempty in Hk. now rewrite Hk, Hs.
  - intros p Hs Hp. unfold get_decrypted_private_key. rewrite Hu.
    apply truthy_nonempty in Hk. apply truthy_nonempty in Hp.
    rewrite Hk, Hs. simpl. now rewrite Hp.
Qed.

Lemma get_decrypted_private_key_dispatch_witness :
  get_decrypted_private_key tag_fernet prefix_cipher two_wallets 7 None
    = Err PassphraseRequired
  /\ get_decrypted_private_key tag_fernet prefix_cipher two_wallets 7 (Some "hunter23")
    = Err IncorrectPassphrase
  /\ get_decrypted_private_key tag_fernet prefix_cipher two_wallets 7 (Some "hunter22")
    = Ok (Some "0xabc")
  /\ get_decrypted_private_key tag_fernet prefix_cipher two_wallets 8 (Some "hunter22")
    = Ok (Some "0xdef").
Proof.
  assert (Hu : get_user two_wallets 7 = Some salted_row) by reflexivity.
  assert (Hk : encrypted_private_key salted_row <> EmptyString) by discriminate.
  destruct (get_decrypted_private_key_dispatch tag_fernet prefix_cipher
              two_wallets 7 salted_row Hu Hk) as (H1 & _ & H3 & _ & H5).
  split; [apply H1; reflexivity|].
  split.
  - apply (H3 "iv" "c2FsdA" "0x1111111111111111111111111111111111111111"
              "0xabc" "hunter22" "hunter23" prefix_cipher_lawful);
      try discriminate; reflexivity.
  - split.
    + rewrite (H5 "hunter22"); [reflexivity | reflexivity | discriminate].
    + reflexivity.
Defined.

End DatabaseFacts.

(** ** Token approval *)

Module ApproveFacts.
Import Config Blockchain Samples.

Lemma build_keeps_call (w : Web3) (request built : Transaction) :
  build_transaction w request = Some built ->
  tx_call built = tx_call request
  /\ tx_contract built = tx_contract request
  /\ tx_from built = tx_from request
  /\ tx_value built = tx_value request
  /\ tx_chainId built = tx_chainId request.
Proof.
  unfold build_transaction. destruct (estimate_gas w request); [|discriminate].
  intros H. injection H as <-. simpl. repeat split.
Qed.

(** Whatever the node answers, one call hands it at most one
    transaction, and none when it returns the sentinel. *)
Lemma approve_token_at_most_one (w : Web3) token spender amount key gas_mode s :
  let out := approve_token w token spender amount key gas_mode s in
  (snd out = s \/ exists t, snd out = (s ++ [t])%list)
  /\ (fst out = Some (Some ALREADY_APPROVED) -> snd out = s
      \/ exists tx raw, snd out = (s ++ [(tx, raw)])%list
                        /\ send_raw_transaction w raw = Some ALREADY_APPROVED).
Proof.
  unfold approve_token, try_or_None, bind, lift, ret, send. simpl.
  destruct (to_checksum_address w token) as [ct|]; simpl; [|tauto].
  destruct (to_checksum_address w spender) as [cs|]; simpl; [|tauto].
  destruct (from_key w key) as [account|]; simpl; [|tauto].
  destruct (call_allowance w ct account cs) as [a|]; simpl; [|tauto].
  destruct (amount <=? a); simpl; [tauto|].
  destruct (get_transaction_count w account) as [nonce|]; simpl; [|tauto].
  destruct (build_transaction w _) as [tx|]; simpl; [|tauto].
  destruct (sign_transaction w tx key) as [raw|]; simpl; [|tauto].
  destruct (send_raw_transaction w raw) as [h|] eqn:E; simpl; [|tauto].
  split; [right; now eexists|].
  intros H. right. exists tx, raw. split; [reflexivity|]. congruence.
Qed.

(** C5.  Once the addresses, the key and the allowance have been read:
    when the allowance covers the amount, [approve_token] returns the
    sentinel and hands nothing to the node; otherwise, when the node answers
    the nonce, the gas estimate, the signature and the submission, it hands
    over exactly one transaction, an [approve] of the amount to the spender
    from the key's account on the configured chain, and returns its hash.
    The only other outcome of the second case is an exception in one of
    those calls, caught: nothing is handed over and [None] is returned. *)
Theorem approve_token_allowance_gate
    (w : Web3) (token spender : string) (amount : Z) (key gas_mode : string)
    (s : Submitted) (ct cs account : string) (allowance : Z) :
  to_checksum_address w token = Some ct ->
  to_checksum_address w spender = Some cs ->
  from_key w key = Some account ->
  call_allowance w ct account cs = Some allowance ->
  (amount <= allowance ->
     approve_token w token spender amount key gas_mode s
     = (Some (Some ALREADY_APPROVED), s))
  /\ (allowance < amount ->
      forall nonce tx raw h,
        get_transaction_count w account = Some nonce ->
        build_transaction w
          (approve_request w ct cs account amount nonce gas_mode) = Some tx ->
        sign_transaction w tx key = Some raw ->
        send_raw_transaction w raw = Some h ->
        approve_token w token spender amount key gas_mode s
        = (Some (Some h), (s ++ [(tx, raw)])%list)
        /\ tx_call tx = approve cs amount
        /\ tx_contract tx = ct
        /\ tx_from tx = account
        /\ tx_chainId tx = CHAIN_ID)
  /\ (allowance < amount ->
      approve_token w token spender amount key gas_mode s = (Some None, s)
      \/ exists tx raw h,
           approve_token w token spender amount key gas_mode s
           = (Some (Some h), (s ++ [(tx, raw)])%list)
           /\ tx_call tx = approve cs amount).
Proof.
  intros Ht Hs Hk Ha. split; [|split].
  - intros Hle. unfold approve_token, try_or_None, bind, lift, ret.
    rewrite Ht, Hs, Hk, Ha. apply Z.leb_le in Hle. now rewrite Hle.
  - intros Hlt nonce tx raw h Hn Hb Hsig Hsend. split.
    + unfold approve_token, try_or_None, bind, lift, ret, send.
      rewrite Ht, Hs, Hk, Ha. apply Z.leb_gt in Hlt. rewrite Hlt.
      now rewrite Hn, Hb, Hsig, Hsend.
    + destruct (build_keeps_call _ _ _ Hb) as (A & B & C & _ & E).
      now rewrite A, B, C, E.
  - intros Hlt. unfold approve_token, try_or_None, bind, lift, ret, send.
    rewrite Ht, Hs, Hk, Ha. apply Z.leb_gt in Hlt. rewrite Hlt. simpl.
    destruct (get_transaction_count w account) as [nonce|]; simpl; [|now left].
    destruct (build_transaction w _) as [tx|] eqn:Hb; simpl; [|now left].
    destruct (sign_transaction w tx key) as [raw|]; simpl; [|now left].
    destruct (send_raw_transaction w raw) as [h|]; simpl; [|now left].
    right. exists tx, raw, h. split; [reflexivity|].
    now destruct (build_keeps_call _ _ _ Hb) as (A & _).
Qed.

Lemma approve_token_allowance_gate_witness :
  approve_token (answering_node 500 1000 0) token_a DEX_ROUTER_ADDRESS 400
    "0xkey" "normal" []
    = (Some (Some "ALREADY_APPROVED"), [])
  /\ exists tx,
      approve_token (answering_node 100 1000 0) token_a DEX_ROUTER_ADDRESS 400
        "0xkey" "normal" []
      = (Some (Some "0x9f3c"), [(tx, "0xf86b")])
      /\ tx_call tx = approve DEX_ROUTER_ADDRESS 400.
Proof.
  split.
  - apply (proj1 (approve_token_allowance_gate (answering_node 500 1000 0)
                    token_a DEX_ROUTER_ADDRESS 400 "0xkey" "normal" []
                    token_a DEX_ROUTER_ADDRESS
                    "0x3333333333333333333333333333333333333333" 500
                    eq_refl eq_refl eq_refl eq_refl)).
    lia.
  - eexists.
    assert (H := proj1 (proj2 (approve_token_allowance_gate (answering_node 100 1000 0)
                    token_a DEX_ROUTER_ADDRESS 400 "0xkey" "normal" []
                    token_a DEX_ROUTER_ADDRESS
                    "0x3333333333333333333333333333333333333333" 100
                    eq_refl eq_refl eq_refl eq_refl))
                ltac:(lia) 5 _ "0xf86b" "0x9f3c" eq_refl eq_refl eq_refl eq_refl).
    destruct H as (H1 & H2 & _). split; [exact H1 | exact H2].
Defined.

End ApproveFacts.

(** ** Swaps: what a successful call has done *)

Module SwapFacts.
Import Config Blockchain.

(** A purchase that returns a result has quoted the router along
    [wrapped-native, token], derived the minimum from the last amount of the
    quote, and handed the node one [swapExactETHForTokens] that carries this
    minimum and the deadline. *)
Lemma buy_token_done (w : Web3) token amount wallet key slippage gas_mode
    (s s' : Submitted) (r : BuyResult) :
  buy_token w token amount wallet key slippage gas_mode s = (Some (Some r), s') ->
  exists ct cw cwal amounts tx raw,
    to_checksum_address w token = Some ct
    /\ to_checksum_address w WETH_ADDRESS = Some cw
    /\ to_checksum_address w wallet = Some cwal
    /\ call_getAmountsOut w (to_wei w amount "ether") [cw; ct] = Some amounts
    /\ last_item amounts = Some (buy_expected_output r)
    /\ min_output_of (buy_expected_output r) slippage = Some (buy_min_output r)
    /\ s' = (s ++ [(tx, raw)])%list
    /\ tx_call tx
       = swapExactETHForTokens (buy_min_output r) [cw; ct] cwal (buy_deadline w).
Proof.
  unfold buy_token, try_or_None, bind, lift, ret, send. intros H.
  destruct (to_checksum_address w token) as [ct|]; simpl in H; [|discriminate].
  destruct (to_checksum_address w WETH_ADDRESS) as [cw|]; simpl in H; [|discriminate].
  destruct (to_checksum_address w wallet) as [cwal|]; simpl in H; [|discriminate].
  destruct (from_key w key) as [account|]; simpl in H; [|discriminate].
  destruct (call_getAmountsOut w _ _) as [amounts|] eqn:Eq; simpl in H; [|discriminate].
  destruct (last_item amounts) as [expected|] eqn:El; simpl in H; [|discriminate].
  destruct (min_output_of expected slippage) as [m|] eqn:Em; simpl in H; [|discriminate].
  destruct (get_transaction_count w account) as [nonce|]; simpl in H; [|discriminate].
  destruct (build_transaction w _) as [tx|] eqn:Eb; simpl in H; [|discriminate].
  destruct (sign_transaction w tx key) as [raw|]; simpl in H; [|discriminate].
  destruct (send_raw_transaction w raw) as [h|]; simpl in H; [|discriminate].
  injection H as <- <-. simpl.
  unfold build_transaction in Eb.
  destruct (estimate_gas w _); [|discriminate]. injection Eb as <-.
  exists ct, cw, cwal, amounts. eexists. exists raw.
  repeat split; try assumption; reflexivity.
Qed.

(** The same for a sale, along [token, wrapped-native], after the approval
    step, which may itself have handed one transaction to the node. *)
Lemma sell_token_done (w : Web3) token amount wallet key slippage gas_mode
    (s s' : Submitted) (r : SellResult) :
  sell_token w token amount wallet key slippage gas_mode s = (Some (Some r), s') ->
  exists ct cw cwal info a amounts expected m approve_hash tx raw,
    to_checksum_address w token = Some ct
    /\ to_checksum_address w WETH_ADDRESS = Some cw
    /\ to_checksum_address w wallet = Some cwal
    /\ get_token_info w token = Some info
    /\ base_units amount (ti_decimals info) = Some a
    /\ call_getAmountsOut w a [ct; cw] = Some amounts
    /\ last_item amounts = Some expected
    /\ min_output_of expected slippage = Some m
    /\ s' = (snd (approve_token w token DEX_ROUTER_ADDRESS (a * 2)
                    key gas_mode s) ++ [(tx, raw)])%list
    /\ fst (approve_token w token DEX_ROUTER_ADDRESS (a * 2) key gas_mode s)
       = Some approve_hash
    /\ tx_call tx = swapExactTokensForETH a m [ct; cw] cwal (sell_deadline w)
    /\ send_raw_transaction w raw = Some (sell_tx_hash r)
    /\ sell_approve_hash r
       = match approve_hash with
         | Some h => if String.eqb h ALREADY_APPROVED then None else Some h
         | None => None
         end.
Proof.
  unfold sell_token, try_or_None, bind, lift, ret, send. intros H.
  destruct (to_checksum_address w token) as [ct|]; simpl in H; [|discriminate].
  destruct (to_checksum_address w WETH_ADDRESS) as [cw|]; simpl in H; [|discriminate].
  destruct (to_checksum_address w wallet) as [cwal|]; simpl in H; [|discriminate].
  destruct (to_checksum_address w DEX_ROUTER_ADDRESS) as [cr|]; simpl in H; [|discriminate].
  destruct (get_token_info w token) as [info|]; simpl in H; [|discriminate].
  destruct (base_units amount (ti_decimals info)) as [a|] eqn:Eu; simpl in H;
    [|discriminate].
  destruct (approve_token w token DEX_ROUTER_ADDRESS _ key gas_mode s)
    as [[approve_hash|] s1] eqn:Ea; simpl in H; [|discriminate].
  destruct (from_key w key) as [account|]; simpl in H; [|discriminate].
  destruct (call_getAmountsOut w _ _) as [amounts|] eqn:Eq; simpl in H; [|discriminate].
  destruct (last_item amounts) as [expected|] eqn:El; simpl in H; [|discriminate].
  destruct (min_output_of expected slippage) as [m|] eqn:Em; simpl in H; [|discriminate].
  destruct (get_transaction_count w account) as [nonce|]; simpl in H; [|discriminate].
  destruct (build_transaction w _) as [tx|] eqn:Eb; simpl in H; [|discriminate].
  destruct (sign_transaction w tx key) as [raw|]; simpl in H; [|discriminate].
  destruct (send_raw_transaction w raw) as [h|] eqn:Es; simpl in H; [|discriminate].
  injection H as <- <-.
  unfold build_transaction in Eb.
  destruct (estimate_gas w _); [|discriminate]. injection Eb as <-.
  exists ct, cw, cwal, info, a, amounts, expected, m, approve_hash.
  eexists. exists raw. rewrite Ea. simpl.
  repeat split; try assumption; reflexivity.
Qed.

(** An approval always returns, with a hash, the marker or nothing. *)
Lemma approve_token_returns (w : Web3) token spender amount key gas_mode s :
  exists approve_hash s1,
    approve_token w token spender amount key gas_mode s = (Some approve_hash, s1).
Proof.
  unfold approve_token, try_or_None.
  match goal with
  | |- context [match ?m s with _ => _ end] => destruct (m s) as [[x|] s1]
  end; eexists; eexists; reflexivity.
Qed.

(** A purchase against a node that answers: it returns a result, and the one
    transaction it has handed over is the swap with the minimum and the
    deadline. *)
Lemma buy_token_answers (w : Web3) token amount wallet key slippage gas_mode
    (s : Submitted) ct cw cwal account amounts expected m nonce :
  to_checksum_address w token = Some ct ->
  to_checksum_address w WETH_ADDRESS = Some cw ->
  to_checksum_address w wallet = Some cwal ->
  from_key w key = Some account ->
  call_getAmountsOut w (to_wei w amount "ether") [cw; ct] = Some amounts ->
  last_item amounts = Some expected ->
  min_output_of expected slippage = Some m ->
  get_transaction_count w account = Some nonce ->
  (forall t, estimate_gas w t <> None) ->
  (forall t, sign_transaction w t key <> None) ->
  (forall raw, send_raw_transaction w raw <> None) ->
  exists r tx raw,
    buy_token w token amount wallet key slippage gas_mode s
    = (Some (Some r), (s ++ [(tx, raw)])%list)
    /\ tx_call tx = swapExactETHForTokens m [cw; ct] cwal (buy_deadline w).
Proof.
  intros Ht Hw Hwal Hk Hq Hl Hm Hn Hg Hs Hr.
  unfold buy_token, try_or_None, bind, lift, ret, send.
  rewrite Ht. cbn iota beta. rewrite Hw. cbn iota beta.
  rewrite Hwal. cbn iota beta. rewrite Hk. cbn iota beta zeta.
  rewrite Hq. cbn iota beta. rewrite Hl. cbn iota beta.
  rewrite Hm. cbn iota beta zeta. rewrite Hn. cbn iota beta zeta.
  unfold build_transaction.
  match goal with
  | |- context [estimate_gas w ?t] =>
      destruct (estimate_gas w t) as [g|] eqn:Eg; [|exfalso; exact (Hg _ Eg)]
  end.
  cbn iota beta.
  match goal with
  | |- context [sign_transaction w ?t key] =>
      destruct (sign_transaction w t key) as [raw|] eqn:Es;
        [|exfalso; exact (Hs _ Es)]
  end.
  cbn iota beta.
  destruct (send_raw_transaction w raw) as [h|] eqn:Er;
    [|exfalso; exact (Hr _ Er)].
  cbn iota beta.
  eexists. eexists. exists raw. split; reflexivity.
Qed.

(** The same for a sale, whatever the approval step has done. *)
Lemma sell_token_answers (w : Web3) token amount wallet key slippage gas_mode
    (s : Submitted) ct cw cwal cr info a account amounts expected m nonce :
  to_checksum_address w token = Some ct ->
  to_checksum_address w WETH_ADDRESS = Some cw ->
  to_checksum_address w wallet = Some cwal ->
  to_checksum_address w DEX_ROUTER_ADDRESS = Some cr ->
  get_token_info w token = Some info ->
  base_units amount (ti_decimals info) = Some a ->
  from_key w key = Some account ->
  call_getAmountsOut w a [ct; cw] = Some amounts ->
  last_item amounts = Some expected ->
  min_output_of expected slippage = Some m ->
  get_transaction_count w account = Some nonce ->
  (forall t, estimate_gas w t <> None) ->
  (forall t, sign_transaction w t key <> None) ->
  (forall raw, send_raw_transaction w raw <> None) ->
  exists r s1 tx raw,
    sell_token w token amount wallet key slippage gas_mode s
    = (Some (Some r), (s1 ++ [(tx, raw)])%list)
    /\ s1 = snd (approve_token w token DEX_ROUTER_ADDRESS (a * 2) key gas_mode s)
    /\ tx_call tx = swapExactTokensForETH a m [ct; cw] cwal (sell_deadline w).
Proof.
  intros Ht Hw Hwal Hcr Hi Ha Hk Hq Hl Hm Hn Hg Hs Hr.
  destruct (approve_token_returns w token DEX_ROUTER_ADDRESS (a * 2) key
              gas_mode s) as (ah & s1 & Eap).
  unfold sell_token, try_or_None, bind, lift, ret, send.
  rewrite Ht. cbn iota beta. rewrite Hw. cbn iota beta.
  rewrite Hwal. cbn iota beta. rewrite Hcr. cbn iota beta.
  rewrite Hi. cbn iota beta. rewrite Ha. cbn iota beta.
  rewrite Eap. cbn iota beta. rewrite Hk. cbn iota beta zeta.
  rewrite Hq. cbn iota beta. rewrite Hl. cbn iota beta.
  rewrite Hm. cbn iota beta zeta. rewrite Hn. cbn iota beta zeta.
  unfold build_transaction.
  match goal with
  | |- context [estimate_gas w ?t] =>
      destruct (estimate_gas w t) as [g|] eqn:Eg; [|exfalso; exact (Hg _ Eg)]
  end.
  cbn iota beta.
  match goal with
  | |- context [sign_transaction w ?t key] =>
      destruct (sign_transaction w t key) as [raw|] eqn:Es;
        [|exfalso; exact (Hs _ Es)]
  end.
  cbn iota beta.
  destruct (send_raw_transaction w raw) as [h|] eqn:Er;
    [|exfalso; exact (Hr _ Er)].
  cbn iota beta.
  eexists. exists s1. eexists. exists raw.
  split; [reflexivity|]. split; reflexivity.
Qed.

End SwapFacts.

(** ** The minimum output of a swap *)

Module SlippageFacts.
Import Config Blockchain SwapFacts Samples.

(** Rounding keeps the sign it is given. *)
Lemma binary_round_aux_sign (sx : bool) (mx ex : Z) (lx : location) :
  match binary_round_aux prec emax sx mx ex lx with
  | S754_zero s | S754_infinity s | S754_finite s _ _ => s = sx
  | S754_nan => True
  end.
Proof.
  unfold binary_round_aux.
  destruct (shr_fexp prec emax mx ex lx) as [mrs' e'].
  destruct (shr_fexp prec emax _ e' loc_Exact) as [mrs'' e''].
  destruct (shr_m mrs''); [reflexivity | | exact I].
  destruct (Z.leb e'' (Z.sub emax prec)); reflexivity.
Qed.

Lemma nonneg_no_sign (f : spec_float) : nonneg_float f = true -> no_sign f.
Proof.
  destruct f as [s|s| |s m e]; simpl; auto.
  intros H. now apply negb_true_iff in H.
Qed.

Lemma float_of_int_no_sign (x : Z) (f : spec_float) :
  0 <= x -> float_of_int x = Some f -> no_sign f.
Proof.
  intros Hx. unfold float_of_int, binary_normalize.
  destruct x as [|p|p]; [| |lia].
  - intros H. injection H as <-. exact I.
  - unfold binary_round.
    destruct (shl_align p 0 _) as [mz ez].
    pose proof (binary_round_aux_sign false (Zpos mz) ez loc_Exact) as S.
    destruct (binary_round_aux prec emax false (Zpos mz) ez loc_Exact);
      intros H; try discriminate H; injection H as <-; simpl; auto.
Qed.

(** The product of two floats without sign has no sign. *)
Lemma SFmul_no_sign (x y : spec_float) :
  no_sign x -> no_sign y -> no_sign (SFmul prec emax x y).
Proof.
  destruct x as [sx|sx| |sx mx ex]; destruct y as [sy|sy| |sy my ey];
    simpl; try (intros; exact I).
  intros -> ->.
  pose proof (binary_round_aux_sign false (Zpos (mx * my)) (ex + ey) loc_Exact) as S.
  simpl in *.
  destruct (binary_round_aux prec emax false (Zpos (mx * my)) (ex + ey) loc_Exact);
    simpl; auto.
Qed.

(** On a float without sign, [int] is the floor. *)
Lemma int_is_floor (f : spec_float) :
  no_sign f -> int_of_float f = floor_of_float f.
Proof.
  destruct f as [s|s| |s m e]; simpl; try reflexivity.
  intros ->. simpl. destruct (0 <=? e) eqn:E; [reflexivity|].
  f_equal. apply Z.quot_div_nonneg; [lia|].
  apply Z.pow_pos_nonneg; [lia|]. apply Z.leb_gt in E. lia.
Qed.

Lemma min_output_floor (expected_output : Z) (slippage : spec_float) :
  0 <= expected_output ->
  nonneg_float (slippage_factor slippage) = true ->
  min_output_of expected_output slippage
  = floor_min_output expected_output slippage.
Proof.
  intros Hx Hf. unfold min_output_of, floor_min_output, slippage_product.
  destruct (float_of_int expected_output) as [x|] eqn:E; [|reflexivity].
  apply int_is_floor, SFmul_no_sign.
  - exact (float_of_int_no_sign _ _ Hx E).
  - now apply nonneg_no_sign.
Qed.

(** The factor is without sign at each preset tolerance. *)
Example preset_factors_nonneg :
  map (fun s => nonneg_float (slippage_factor s))
    [slippage_0_5; slippage_1_0; slippage_5_0; slippage_10_0]
  = [true; true; true; true].
Proof. vm_compute. reflexivity. Qed.

(** C6, as the code has it.  [buy_token] takes the last amount of the
    router's quote along [wrapped-native, token] as the expected output and
    computes the minimum output in binary64 arithmetic: it is the integer
    part of the rounded product of the expected output and
    [1 - slippage / 100], which is the floor of that product for a tolerance
    whose factor is not negative; with the tolerance 5.0 and an expected
    output of 1000 the minimum is 950, the floor of 1000 times 0.95. *)
Theorem buy_min_output_floor :
  (forall expected_output slippage,
      0 <= expected_output ->
      nonneg_float (slippage_factor slippage) = true ->
      min_output_of expected_output slippage
      = floor_min_output expected_output slippage)
  /\ (forall w token amount wallet key slippage gas_mode s s' r,
        buy_token w token amount wallet key slippage gas_mode s
        = (Some (Some r), s') ->
        exists ct cw amounts,
          to_checksum_address w token = Some ct
          /\ to_checksum_address w WETH_ADDRESS = Some cw
          /\ call_getAmountsOut w (to_wei w amount "ether") [cw; ct] = Some amounts
          /\ last_item amounts = Some (buy_expected_output r)
          /\ min_output_of (buy_expected_output r) slippage
             = Some (buy_min_output r))
  /\ min_output_of 1000 slippage_5_0 = Some 950
  /\ floor_min_output 1000 slippage_5_0 = Some 950
  /\ exact_min_output 1000 5 = 950.
Proof.
  split; [exact min_output_floor|]. split.
  - intros w token amount wallet key slippage gas_mode s s' r H.
    destruct (buy_token_done _ _ _ _ _ _ _ _ _ _ H)
      as (ct & cw & cwal & amounts & tx & raw & A & B & C & D & E & F & _).
    exists ct, cw, amounts. repeat split; assumption.
  - vm_compute. repeat split.
Qed.

Lemma buy_min_output_floor_witness :
  min_output_of 1000 slippage_5_0 = floor_min_output 1000 slippage_5_0
  /\ exists r s',
      buy_token (answering_node 0 1000 (3401 # 2)) token_a 1
        "0x5555555555555555555555555555555555555555" "0xkey" slippage_5_0
        "normal" [] = (Some (Some r), s')
      /\ buy_expected_output r = 1000 /\ buy_min_output r = 950.
Proof.
  split.
  - apply (proj1 buy_min_output_floor); [lia | reflexivity].
  - eexists. eexists. split; [vm_compute; reflexivity|].
    split; reflexivity.
Defined.

(** C6, as the specification words it, fails: at the tolerance 5.0 and an
    expected output of 10^18 + 100 base units the code's minimum is
    950000000000000128, while the floor of the exact product is
    950000000000000095. *)
Lemma min_output_not_exact_floor :
  min_output_of (10 ^ 18 + 100) slippage_5_0 = Some 950000000000000128
  /\ exact_min_output (10 ^ 18 + 100) 5 = 950000000000000095
  /\ min_output_of (10 ^ 18 + 100) slippage_5_0
     <> Some (exact_min_output (10 ^ 18 + 100) 5).
Proof.
  assert (A : min_output_of (10 ^ 18 + 100) slippage_5_0 = Some 950000000000000128)
    by (vm_compute; reflexivity).
  assert (B : exact_min_output (10 ^ 18 + 100) 5 = 950000000000000095)
    by (vm_compute; reflexivity).
  split; [exact A|]. split; [exact B|]. rewrite A, B. discriminate.
Qed.

End SlippageFacts.

(** ** Swap deadlines *)

Module DeadlineFacts.
Import Config Blockchain SwapFacts Samples.

(** The integer part of a clock reading is more than the reading less one
    second. *)
Lemma int_of_Q_above (q : Q) : (q < inject_Z (int_of_Q q + 1))%Q.
Proof.
  destruct q as [n d]. unfold Qlt, int_of_Q, inject_Z. simpl.
  pose proof (Z.quot_rem' n (Zpos d)) as E.
  pose proof (Z.rem_bound_abs n (Zpos d) ltac:(lia)) as B.
  nia.
Qed.

(** From the epoch on, it is at most the reading. *)
Lemma int_of_Q_below (q : Q) :
  (0 <= q)%Q -> (inject_Z (int_of_Q q) <= q)%Q.
Proof.
  destruct q as [n d]. unfold Qle, int_of_Q, inject_Z. simpl. intros Hn.
  pose proof (Z.quot_rem' n (Zpos d)) as E.
  pose proof (Z.rem_bound_pos n (Zpos d) ltac:(lia) ltac:(lia)) as B.
  nia.
Qed.

Lemma after_reading (q : Q) (k : Z) :
  1 <= k -> (q < inject_Z (int_of_Q q + k))%Q.
Proof.
  intros Hk. eapply Qlt_le_trans; [apply int_of_Q_above|].
  rewrite <- Zle_Qle. lia.
Qed.

(** C7.  The swap that [buy_token] hands to the node carries the deadline
    of the whole second of the clock reading plus 300, the swap that
    [sell_token] hands over the whole second plus 1200; either deadline lies
    strictly after the reading, hence after any earlier instant such as the
    entry into the call, and at most 300 or 1200 seconds after it.  Against
    a node that answers, each call does hand over that swap as its last
    transaction and returns a result. *)
Theorem swap_deadlines (w : Web3) :
  buy_deadline w = int_of_Q (time_time w) + 300
  /\ sell_deadline w = int_of_Q (time_time w) + 1200
  /\ (forall t_call : Q,
        (t_call <= time_time w)%Q ->
        (t_call < inject_Z (buy_deadline w))%Q
        /\ (t_call < inject_Z (sell_deadline w))%Q)
  /\ ((0 <= time_time w)%Q ->
      (inject_Z (buy_deadline w) <= time_time w + 300)%Q
      /\ (inject_Z (sell_deadline w) <= time_time w + 1200)%Q)
  /\ (forall token amount wallet key slippage gas_mode s s' r,
        buy_token w token amount wallet key slippage gas_mode s
        = (Some (Some r), s') ->
        exists tx raw m path to,
          s' = (s ++ [(tx, raw)])%list
          /\ tx_call tx
             = swapExactETHForTokens m path to (int_of_Q (time_time w) + 300)
          /\ (time_time w < inject_Z (int_of_Q (time_time w) + 300))%Q)
  /\ (forall token amount wallet key slippage gas_mode s s' r,
        sell_token w token amount wallet key slippage gas_mode s
        = (Some (Some r), s') ->
        exists s1 tx raw a m path to,
          s' = (s1 ++ [(tx, raw)])%list
          /\ tx_call tx
             = swapExactTokensForETH a m path to
                 (int_of_Q (time_time w) + 1200)
          /\ (time_time w < inject_Z (int_of_Q (time_time w) + 1200))%Q)
  /\ (forall token amount wallet key slippage gas_mode s
             ct cw cwal account amounts expected m nonce,
        to_checksum_address w token = Some ct ->
        to_checksum_address w WETH_ADDRESS = Some cw ->
        to_checksum_address w wallet = Some cwal ->
        from_key w key = Some account ->
        call_getAmountsOut w (to_wei w amount "ether") [cw; ct] = Some amounts ->
        last_item amounts = Some expected ->
        min_output_of expected slippage = Some m ->
        get_transaction_count w account = Some nonce ->
        (forall t, estimate_gas w t <> None) ->
        (forall t, sign_transaction w t key <> None) ->
        (forall raw, send_raw_transaction w raw <> None) ->
        exists r tx raw,
          buy_token w token amount wallet key slippage gas_mode s
          = (Some (Some r), (s ++ [(tx, raw)])%list)
          /\ tx_call tx
             = swapExactETHForTokens m [cw; ct] cwal
                 (int_of_Q (time_time w) + 300))
  /\ (forall token amount wallet key slippage gas_mode s
             ct cw cwal cr info a account amounts expected m nonce,
        to_checksum_address w token = Some ct ->
        to_checksum_address w WETH_ADDRESS = Some cw ->
        to_checksum_address w wallet = Some cwal ->
        to_checksum_address w DEX_ROUTER_ADDRESS = Some cr ->
        get_token_info w token = Some info ->
        base_units amount (ti_decimals info) = Some a ->
        from_key w key = Some account ->
        call_getAmountsOut w a [ct; cw] = Some amounts ->
        last_item amounts = Some expected ->
        min_output_of expected slippage = Some m ->
        get_transaction_count w account = Some nonce ->
        (forall t, estimate_gas w t <> None) ->
        (forall t, sign_transaction w t key <> None) ->
        (forall raw, send_raw_transaction w raw <> None) ->
        exists r s1 tx raw,
          sell_token w token amount wallet key slippage gas_mode s
          = (Some (Some r), (s1 ++ [(tx, raw)])%list)
          /\ tx_call tx
             = swapExactTokensForETH a m [ct; cw] cwal
                 (int_of_Q (time_time w) + 1200)).
Proof.
  split; [reflexivity|]. split; [reflexivity|].
  split; [|split; [|split; [|split; [|split]]]].
  - intros t Ht. split; (eapply Qle_lt_trans; [exact Ht|]).
    + apply after_reading. lia.
    + unfold sell_deadline. apply after_reading. lia.
  - intros H0. pose proof (int_of_Q_below _ H0) as B.
    unfold buy_deadline, sell_deadline.
    rewrite !inject_Z_plus. split; apply Qplus_le_compat; try exact B.
    + apply Qle_refl.
    + apply Qle_refl.
  - intros token amount wallet key slippage gas_mode s s' r H.
    destruct (buy_token_done _ _ _ _ _ _ _ _ _ _ H)
      as (ct & cw & cwal & amounts & tx & raw & _ & _ & _ & _ & _ & _ & E & F).
    exists tx, raw, (buy_min_output r), [cw; ct], cwal.
    split; [exact E|]. split; [exact F|]. apply after_reading. lia.
  - intros token amount wallet key slippage gas_mode s s' r H.
    destruct (sell_token_done _ _ _ _ _ _ _ _ _ _ H)
      as (ct & cw & cwal & info & a & amounts & expected & m & ah & tx & raw
          & _ & _ & _ & _ & _ & _ & _ & _ & E & _ & F & _).
    eexists. exists tx, raw, a, m, [ct; cw], cwal.
    split; [exact E|]. split; [exact F|]. apply after_reading. lia.
  - intros token amount wallet key slippage gas_mode s
      ct cw cwal account amounts expected m nonce
      Ht Hw Hwal Hk Hq Hl Hm Hn Hg Hs Hr.
    destruct (buy_token_answers w token amount wallet key slippage gas_mode s
                ct cw cwal account amounts expected m nonce
                Ht Hw Hwal Hk Hq Hl Hm Hn Hg Hs Hr) as (r & tx & raw & E & F).
    now exists r, tx, raw.
  - intros token amount wallet key slippage gas_mode s
      ct cw cwal cr info a account amounts expected m nonce
      Ht Hw Hwal Hcr Hi Ha Hk Hq Hl Hm Hn Hg Hs Hr.
    destruct (sell_token_answers w token amount wallet key slippage gas_mode s
                ct cw cwal cr info a account amounts expected m nonce
                Ht Hw Hwal Hcr Hi Ha Hk Hq Hl Hm Hn Hg Hs Hr)
      as (r & s1 & tx & raw & E & _ & F).
    now exists r, s1, tx, raw.
Qed.

(** At the clock reading 1700.5 a purchase and a sale against a node that
    answers hand over swaps with the deadlines 2000 and 2900. *)
Lemma swap_deadlines_witness :
  (exists r tx raw,
      buy_token (answering_node 0 1000 (3401 # 2)) token_a 1
        "0x5555555555555555555555555555555555555555" "0xkey" slippage_5_0
        "normal" []
      = (Some (Some r), [(tx, raw)])
      /\ tx_call tx
         = swapExactETHForTokens 950 [WETH_ADDRESS; token_a]
             "0x5555555555555555555555555555555555555555" 2000)
  /\ (exists r s1 tx raw,
        sell_token (answering_node 0 1000 (3401 # 2)) token_a 1
          "0x5555555555555555555555555555555555555555" "0xkey" slippage_5_0
          "normal" []
        = (Some (Some r), (s1 ++ [(tx, raw)])%list)
        /\ tx_call tx
           = swapExactTokensForETH (10 ^ 18) 950 [token_a; WETH_ADDRESS]
               "0x5555555555555555555555555555555555555555" 2900)
  /\ (1700 < inject_Z (buy_deadline (answering_node 0 1000 (3401 # 2))))%Q.
Proof.
  pose proof (swap_deadlines (answering_node 0 1000 (3401 # 2)))
    as (_ & _ & Hafter & _ & _ & _ & Hbuy & Hsell).
  split; [|split].
  - apply (Hbuy token_a 1%Q "0x5555555555555555555555555555555555555555"%string
             "0xkey"%string slippage_5_0 "normal"%string []
             token_a WETH_ADDRESS
             "0x5555555555555555555555555555555555555555"%string
             "0x3333333333333333333333333333333333333333"%string
             [10 ^ 18; 1000] 1000 950 5);
      try reflexivity; intros; discriminate.
  - apply (Hsell token_a 1%Q "0x5555555555555555555555555555555555555555"%string
             "0xkey"%string slippage_5_0 "normal"%string []
             token_a WETH_ADDRESS
             "0x5555555555555555555555555555555555555555"%string
             DEX_ROUTER_ADDRESS
             {| ti_name := "Token"; ti_symbol := "TKN"; ti_decimals := 18 |}
             (10 ^ 18)
             "0x3333333333333333333333333333333333333333"%string
             [10 ^ 18; 1000] 1000 950 5);
      try reflexivity; intros; discriminate.
  - apply (proj1 (Hafter 1700%Q ltac:(unfold Qle; simpl; lia))).
Defined.

End DeadlineFacts.

(** ** The notification monitor *)

Module MonitorFacts.
Import PyStr Blockchain Database NotificationMonitor Samples.

(** What was written is what is read back. *)
Lemma get_update_snapshot (db : Db) (tid : Z) (holdings : Holdings) :
  get_token_snapshot (update_token_snapshot db tid holdings) tid = holdings.
Proof.
  unfold get_token_snapshot, update_token_snapshot. simpl.
  now rewrite Z.eqb_refl.
Qed.

(** Another user's snapshot is untouched. *)
Lemma get_update_snapshot_other (db : Db) (tid tid' : Z) (holdings : Holdings) :
  tid' <> tid ->
  get_token_snapshot (update_token_snapshot db tid holdings) tid'
  = get_token_snapshot db tid'.
Proof.
  intros Hne. unfold get_token_snapshot, update_token_snapshot. simpl.
  destruct (Z.eqb_spec tid tid'); [congruence|].
  induction (snapshots db) as [|[k v] l IH]; simpl; [reflexivity|].
  destruct (Z.eqb_spec k tid); simpl.
  - destruct (Z.eqb_spec k tid'); [congruence | exact IH].
  - destruct (Z.eqb_spec k tid'); [reflexivity | exact IH].
Qed.

Lemma dict_falsy_empty {V} (d : PyDict.dict V) :
  PyDict.truthy d = false <-> d = [].
Proof. destruct d; simpl; split; congruence. Qed.

(** C8.  When the store holds no snapshot for the user, a check sends no
    message, whatever the current holdings are, and afterwards the snapshot
    read back for the user is the current holdings. *)
Theorem first_run_is_silent
    (api : TransferApi) (db : Db) (outbox : Outbox) (tid : Z)
    (current_tokens : Holdings) :
  get_token_snapshot db tid = [] ->
  snd (check_user_for_new_tokens api db outbox tid current_tokens) = outbox
  /\ get_token_snapshot
       (fst (check_user_for_new_tokens api db outbox tid current_tokens)) tid
     = current_tokens.
Proof.
  intros Hnone. unfold check_user_for_new_tokens.
  destruct (PyDict.truthy current_tokens) eqn:Ec; simpl.
  - rewrite Hnone. simpl. split; [reflexivity | apply get_update_snapshot].
  - apply dict_falsy_empty in Ec. subst. split; [reflexivity | exact Hnone].
Qed.

Lemma first_run_is_silent_witness :
  snd (check_user_for_new_tokens silent_api two_wallets [] 7 three_holdings) = []
  /\ get_token_snapshot
       (fst (check_user_for_new_tokens silent_api two_wallets [] 7 three_holdings)) 7
     = three_holdings.
Proof.
  apply (first_run_is_silent silent_api two_wallets [] 7 three_holdings).
  reflexivity.
Defined.

(** A holding that is neither native nor verified is passed over. *)
Lemma unverified_entry_skipped (api : TransferApi) (last_snapshot : Holdings)
    (symbol : string) (token_data : TokenData) :
  is_native symbol = false -> verified token_data = false ->
  check_entry api last_snapshot symbol token_data = (token_data, false).
Proof. intros Hn Hv. unfold check_entry. now rewrite Hn, Hv. Qed.

(** A turn never changes the verified flag nor the symbol of its entry. *)
Lemma check_entry_keeps (api : TransferApi) (last_snapshot : Holdings)
    (symbol : string) (token_data : TokenData) :
  verified (fst (check_entry api last_snapshot symbol token_data))
    = verified token_data
  /\ Blockchain.symbol (fst (check_entry api last_snapshot symbol token_data))
    = Blockchain.symbol token_data.
Proof.
  unfold check_entry.
  destruct (is_native symbol);
    [| destruct (verified token_data) eqn:V; simpl;
       [destruct (negb (PyDict.mem symbol last_snapshot));
        [destruct (Qgtb (balance token_data) 0); simpl; auto|] | auto]];
    destruct (PyDict.get symbol last_snapshot) as [old|]; simpl; auto;
    destruct (Qgtb (balance token_data) (balance old)); simpl; auto.
Qed.

(** Every holding queued in a cycle comes from an entry that is native or
    verified. *)
Lemma queued_are_native_or_verified (api : TransferApi)
    (last_snapshot current_tokens : Holdings) (n : TokenData) :
  In n (new_tokens_of (check_loop api last_snapshot current_tokens)) ->
  exists key token_data,
    In (key, token_data) current_tokens
    /\ n = fst (check_entry api last_snapshot key token_data)
    /\ (is_native key = true \/ verified token_data = true).
Proof.
  unfold new_tokens_of, check_loop, PyDict.items.
  rewrite in_map_iff. intros [[k [td b]] [<- Hin]].
  apply filter_In in Hin. destruct Hin as [Hin Hb]. simpl in Hb. subst b.
  apply in_map_iff in Hin. destruct Hin as [[key token_data] [E Hin]].
  simpl in E. injection E as <- E.
  exists key, token_data. split; [exact Hin|]. simpl. rewrite E. split; [reflexivity|].
  destruct (is_native key) eqn:Hn; [now left|].
  destruct (verified token_data) eqn:Hv; [now right|].
  rewrite (unverified_entry_skipped _ _ _ _ Hn Hv) in E. discriminate E.
Qed.

(** The messages of one check are the old ones followed by one message to
    the user per queued holding. *)
Lemma outbox_after_check (api : TransferApi) (db : Db) (outbox : Outbox)
    (tid : Z) (current_tokens : Holdings) :
  exists new_tokens,
    snd (check_user_for_new_tokens api db outbox tid current_tokens)
    = (outbox ++ map (fun t => (tid, t)) new_tokens)%list
    /\ forall n, In n new_tokens ->
         In n (new_tokens_of
                 (check_loop api (get_token_snapshot db tid) current_tokens)).
Proof.
  unfold check_user_for_new_tokens.
  destruct (PyDict.truthy current_tokens); simpl.
  - destruct (PyDict.truthy (get_token_snapshot db tid)); simpl.
    + destruct (new_tokens_of _) as [|n l] eqn:E.
      * exists []. simpl. rewrite app_nil_r. split; [reflexivity | intros ? []].
      * exists (n :: l). split; [reflexivity | auto].
    + exists []. simpl. rewrite app_nil_r. split; [reflexivity | intros ? []].
  - exists []. simpl. rewrite app_nil_r. split; [reflexivity | intros ? []].
Qed.

(** C9.  In a check, a holding stored under a symbol other than MON and
    MONAD whose verified flag is false is passed over, be it new or known,
    whatever its balance; and every message the check sends is for a holding
    that is native or whose verified flag is true. *)
Theorem unverified_never_notified
    (api : TransferApi) (db : Db) (outbox : Outbox) (tid : Z)
    (current_tokens : Holdings) :
  (forall last_snapshot symbol token_data,
      is_native symbol = false -> verified token_data = false ->
      check_entry api last_snapshot symbol token_data = (token_data, false))
  /\ exists new_tokens,
      snd (check_user_for_new_tokens api db outbox tid current_tokens)
      = (outbox ++ map (fun t => (tid, t)) new_tokens)%list
      /\ forall n, In n new_tokens ->
           exists key token_data,
             In (key, token_data) current_tokens
             /\ Blockchain.symbol n = Blockchain.symbol token_data
             /\ verified n = verified token_data
             /\ (is_native key = true \/ verified token_data = true).
Proof.
  split; [intros; now apply unverified_entry_skipped|].
  destruct (outbox_after_check api db outbox tid current_tokens)
    as (new_tokens & E & Hall).
  exists new_tokens. split; [exact E|]. intros n Hn.
  destruct (queued_are_native_or_verified _ _ _ _ (Hall n Hn))
    as (key & token_data & Hin & -> & Hor).
  exists key, token_data.
  destruct (check_entry_keeps api (get_token_snapshot db tid) key token_data)
    as [Hv Hs].
  repeat split; assumption.
Qed.

Lemma unverified_never_notified_witness :
  check_entry silent_api [("MON", native_entry 1)] "SCAM"
    (entry "SCAM" "0x6666666666666666666666666666666666666666" 1000000 false)
  = (entry "SCAM" "0x6666666666666666666666666666666666666666" 1000000 false, false)
  /\ snd (check_user_for_new_tokens silent_api with_snapshot [] 7 three_holdings)
     = [(7, with_increase (native_entry 2) (2 - 1) None);
        (7, entry "USDC" "0xf817257fed379853cde0fa4f97ab987181b1e5ea" 50 true)].
Proof.
  split.
  - apply (proj1 (unverified_never_notified silent_api with_snapshot [] 7
                    three_holdings)); reflexivity.
  - reflexivity.
Defined.

End MonitorFacts.

(** ** Dictionaries *)

Module PyDictFacts.
Import PyDict.

Section Facts.
Context {V : Type}.
Implicit Types (d : dict V) (k : string) (v : V).

Lemma get_set_same k v d : get k (set k v d) = Some v.
Proof.
  induction d as [|[k' v'] d IH]; simpl.
  - now rewrite String.eqb_refl.
  - destruct (String.eqb k k') eqn:E; simpl; rewrite ?String.eqb_refl, ?E; auto.
Qed.

Lemma get_set_other k k' v d : k' <> k -> get k' (set k v d) = get k' d.
Proof.
  intros Hne. induction d as [|[k0 v0] d IH]; simpl.
  - apply String.eqb_neq in Hne. now rewrite Hne.
  - destruct (String.eqb k k0) eqn:E; simpl.
    + apply String.eqb_eq in E. subst k0.
      apply String.eqb_neq in Hne. now rewrite Hne.
    + now rewrite IH.
Qed.

Lemma in_keys_set k k' v d :
  In k' (keys (set k v d)) -> k' = k \/ In k' (keys d).
Proof.
  induction d as [|[k0 v0] d IH]; simpl.
  - intros [<-|[]]. now left.
  - destruct (String.eqb k k0) eqn:E; simpl.
    + apply String.eqb_eq in E. subst k0. tauto.
    + intros [<-|H]; [tauto|]. apply IH in H. tauto.
Qed.

(** An assignment leaves every key at most once. *)
Lemma NoDup_set k v d : NoDup (keys d) -> NoDup (keys (set k v d)).
Proof.
  induction d as [|[k0 v0] d IH]; simpl; intros H.
  - constructor; [intros [] | constructor].
  - inversion H as [|? ? Hnotin Hnd]; subst.
    destruct (String.eqb k k0) eqn:E; simpl.
    + apply String.eqb_eq in E. subst k0. now constructor.
    + constructor; [|now apply IH].
      intros Hin. apply in_keys_set in Hin. destruct Hin as [->|Hin].
      * now rewrite String.eqb_refl in E.
      * contradiction.
Qed.

Lemma in_set k v k' v' d :
  In (k', v') (set k v d) -> (k' = k /\ v' = v) \/ In (k', v') d.
Proof.
  induction d as [|[k0 v0] d IH]; simpl.
  - intros [E|[]]. injection E as <- <-. now left.
  - destruct (String.eqb k k0) eqn:E; simpl.
    + intros [H|H]; [injection H as <- <-; now left | tauto].
    + intros [H|H]; [tauto|]. apply IH in H. tauto.
Qed.

(** Where no key repeats, the entries are what [get] finds. *)
Lemma in_get k v d : NoDup (keys d) -> In (k, v) d -> get k d = Some v.
Proof.
  induction d as [|[k0 v0] d IH]; simpl; intros Hnd [].
  - injection H as -> ->. now rewrite String.eqb_refl.
  - inversion Hnd as [|? ? Hnotin Hnd']; subst.
    destruct (String.eqb k k0) eqn:E.
    + apply String.eqb_eq in E. subst k0. exfalso. apply Hnotin.
      change k with (fst (k, v)). now apply in_map.
    + now apply IH.
Qed.

Lemma NoDup_put_all (es : list (option (string * V))) d :
  NoDup (keys d) -> NoDup (keys (put_all es d)).
Proof.
  revert d. induction es as [|[[k v]|] es IH]; intros d H; simpl; auto.
  apply IH. now apply NoDup_set.
Qed.

(** A property of the assignments made is a property of the entries. *)
Lemma put_all_entries (P : string -> V -> Prop)
    (es : list (option (string * V))) d :
  (forall k v, In (Some (k, v)) es -> P k v) ->
  (forall k v, In (k, v) d -> P k v) ->
  forall k v, In (k, v) (put_all es d) -> P k v.
Proof.
  revert d. induction es as [|e es IH]; intros d Hes Hd; simpl; [exact Hd|].
  apply IH.
  - intros k v H. apply Hes. now right.
  - destruct e as [[k0 v0]|]; simpl; [|exact Hd].
    intros k v H. apply in_set in H. destruct H as [[-> ->]|H].
    + apply Hes. now left.
    + now apply Hd.
Qed.

Lemma get_put_all_skip k (es : list (option (string * V))) d :
  (forall v, ~ In (Some (k, v)) es) ->
  get k (put_all es d) = get k d.
Proof.
  revert d. induction es as [|e es IH]; intros d Hes; simpl; [reflexivity|].
  rewrite IH by (intros v H; apply (Hes v); now right).
  destruct e as [[k0 v0]|]; simpl; [|reflexivity].
  apply get_set_other. intros ->. apply (Hes v0). now left.
Qed.

(** The last assignment to a key is the one that stays. *)
Lemma get_put_all_last k v (before after : list (option (string * V))) d :
  (forall v', ~ In (Some (k, v')) after) ->
  get k (put_all (before ++ Some (k, v) :: after) d) = Some v.
Proof.
  intros Hafter. unfold put_all. rewrite fold_left_app. simpl.
  fold (put_all after (set k v (fold_left put before d))).
  rewrite get_put_all_skip by exact Hafter. apply get_set_same.
Qed.
End Facts.

End PyDictFacts.

(** ** Holdings maps are keyed by symbol *)

Module HoldingsFacts.
Import PyDict PyDictFacts Blockchain Samples.

Lemma fold_left_put {X V} (step : dict V -> X -> dict V)
    (entry_of : X -> option (string * V)) (xs : list X) :
  (forall d x, step d x = put d (entry_of x)) ->
  forall d, fold_left step xs d = put_all (map entry_of xs) d.
Proof.
  intros H. induction xs as [|x xs IH]; intros d; simpl; [reflexivity|].
  now rewrite IH, H.
Qed.

Lemma alchemy_step_put (balances : Holdings) (token : AlchemyToken) (r : Holdings) :
  alchemy_step balances token = Some r ->
  r = put balances (alchemy_entry token).
Proof.
  unfold alchemy_step, alchemy_entry.
  destruct (float_of_str _) as [b|]; [|discriminate].
  destruct (Qgtb b 0); intros H; injection H as <-; reflexivity.
Qed.

Lemma alchemy_loop_put_all (tokens : list AlchemyToken) :
  forall balances r,
    alchemy_loop balances tokens = Some r ->
    r = put_all (map alchemy_entry tokens) balances.
Proof.
  induction tokens as [|t ts IH]; intros balances r; simpl.
  - intros H. now injection H.
  - destruct (alchemy_step balances t) as [b'|] eqn:E; [|discriminate].
    intros H. apply IH in H. apply alchemy_step_put in E. now subst.
Qed.

Lemma blockvision_step_put (balances : Holdings) (token : BlockVisionToken) :
  blockvision_step balances token = put balances (blockvision_entry token).
Proof.
  unfold blockvision_step, blockvision_entry.
  destruct (float_of_str _) as [b|]; [|reflexivity].
  destruct (Qeqb b 0); reflexivity.
Qed.

Lemma history_step_put info bal (balances : Holdings) (a : string) :
  history_step info bal balances a = put balances (history_entry info bal a).
Proof.
  unfold history_step, history_entry.
  destruct (info a) as [i|]; [|reflexivity].
  destruct (Qgtb (bal a) 0); reflexivity.
Qed.

(** Each loop stores a token under the token's symbol. *)
Lemma alchemy_entry_keyed t k v : alchemy_entry t = Some (k, v) -> symbol v = k.
Proof.
  unfold alchemy_entry. destruct (float_of_str _) as [b|]; [|discriminate].
  destruct (Qgtb b 0); [|discriminate]. intros H. injection H as <- <-. reflexivity.
Qed.

Lemma blockvision_entry_keyed t k v :
  blockvision_entry t = Some (k, v) -> symbol v = k.
Proof.
  unfold blockvision_entry. destruct (float_of_str _) as [b|]; [|discriminate].
  destruct (Qeqb b 0); [discriminate|]. intros H. injection H as <- <-. reflexivity.
Qed.

Lemma history_entry_keyed info bal a k v :
  history_entry info bal a = Some (k, v) -> symbol v = k /\ address v = a.
Proof.
  unfold history_entry. destruct (info a) as [i|]; [|discriminate].
  destruct (Qgtb (bal a) 0); [|discriminate].
  intros H. injection H as <- <-. split; reflexivity.
Qed.

Lemma well_keyed_nil : well_keyed [].
Proof. split; [constructor | intros ? ? []]. Qed.

Lemma well_keyed_native (td : TokenData) :
  symbol td = "MON"%string -> well_keyed (set "MON" td []).
Proof.
  intros H. split; simpl.
  - constructor; [intros [] | constructor].
  - intros k v [E|[]]. injection E as <- <-. exact H.
Qed.

Lemma well_keyed_put_all {X} (entry_of : X -> option (string * TokenData))
    (xs : list X) (h : Holdings) :
  (forall x k v, entry_of x = Some (k, v) -> symbol v = k) ->
  well_keyed h -> well_keyed (put_all (map entry_of xs) h).
Proof.
  intros Hk [Hnd Hs]. split; [now apply NoDup_put_all|].
  intros k v. apply (put_all_entries (fun k v => symbol v = k)); [|exact Hs].
  intros k' v' Hin. apply in_map_iff in Hin. destruct Hin as [x [E _]].
  now apply (Hk x).
Qed.

Lemma alchemy_tier_put_all (data : AlchemyData) (h : Holdings) :
  alchemy_tier data = Some h ->
  exists init, well_keyed init
               /\ h = put_all (map alchemy_entry (ad_tokens data)) init.
Proof.
  unfold alchemy_tier, alchemy_native.
  destruct (num_str_truthy _).
  - destruct (float_of_str _) as [b|]; [|discriminate].
    destruct (Qgtb b 0); intros H; apply alchemy_loop_put_all in H.
    + exists (set "MON" (native_entry b) []).
      split; [now apply well_keyed_native | exact H].
    + exists []. split; [apply well_keyed_nil | exact H].
  - intros H. apply alchemy_loop_put_all in H.
    exists []. split; [apply well_keyed_nil | exact H].
Qed.

Lemma native_only_keyed (native_balance : Q) : well_keyed (native_only native_balance).
Proof.
  unfold native_only. destruct (negb _);
    [now apply well_keyed_native | apply well_keyed_nil].
Qed.

Lemma wallet_tokens_keyed alchemy blockvision native_balance :
  well_keyed (get_wallet_all_tokens alchemy blockvision native_balance).
Proof.
  unfold get_wallet_all_tokens.
  destruct (match alchemy with Some d => alchemy_tier d | None => None end)
    as [h|] eqn:E.
  - destruct alchemy as [data|]; [|discriminate].
    destruct (alchemy_tier_put_all _ _ E) as (init & Hi & ->).
    apply well_keyed_put_all; [exact alchemy_entry_keyed | exact Hi].
  - destruct blockvision as [tokens_data|]; [|apply native_only_keyed].
    unfold blockvision_tier.
    rewrite (fold_left_put _ blockvision_entry _ blockvision_step_put).
    apply well_keyed_put_all; [exact blockvision_entry_keyed | apply well_keyed_nil].
Qed.

Lemma history_put_all info bal native_balance token_addresses :
  exists init,
    well_keyed init
    /\ get_tokens_from_history info bal native_balance token_addresses
       = put_all (map (history_entry info bal) token_addresses) init.
Proof.
  unfold get_tokens_from_history.
  rewrite (fold_left_put _ (history_entry info bal) _ (history_step_put info bal)).
  destruct (negb _); eexists; (split; [|reflexivity]);
    [now apply well_keyed_native | apply well_keyed_nil].
Qed.

Lemma history_tokens_keyed info bal native_balance token_addresses :
  well_keyed (get_tokens_from_history info bal native_balance token_addresses).
Proof.
  destruct (history_put_all info bal native_balance token_addresses)
    as (init & Hi & ->).
  apply well_keyed_put_all; [|exact Hi].
  intros x k v H. now apply history_entry_keyed in H.
Qed.

(** In a run of assignments the later of two to one key is the one found,
    and it is the only entry under the key. *)
Lemma later_wins {X} (entry_of : X -> option (string * TokenData))
    (before : list X) (x1 : X) (between : list X) (x2 : X) (after : list X)
    (init : Holdings) (k : string) (v2 : TokenData) :
  well_keyed init ->
  entry_of x2 = Some (k, v2) ->
  (forall x v, In x after -> entry_of x <> Some (k, v)) ->
  let h := put_all (map entry_of (before ++ x1 :: between ++ x2 :: after)) init in
  get k h = Some v2 /\ forall v, In (k, v) h -> v = v2.
Proof.
  intros [Hnd _] E2 Hafter h.
  assert (G : get k h = Some v2).
  { unfold h.
    replace (before ++ x1 :: between ++ x2 :: after)%list
      with ((before ++ x1 :: between) ++ x2 :: after)%list
      by (rewrite <- app_assoc; reflexivity).
    rewrite map_app. simpl. rewrite E2. apply get_put_all_last.
    intros v' Hin. apply in_map_iff in Hin. destruct Hin as [x [Ex Hx]].
    exact (Hafter x v' Hx Ex). }
  split; [exact G|].
  intros v Hin. apply in_get in Hin; [congruence|].
  now apply NoDup_put_all.
Qed.

End HoldingsFacts.

Module KeyedFacts.
Import PyDict PyDictFacts Blockchain HoldingsFacts Samples.

(** C10.  A holdings map returned by [get_wallet_all_tokens] or by
    [get_tokens_from_history] has at most one entry per key, and each entry
    sits under its own symbol.  In each enumeration, the first helper's, the
    second helper's and the history's, when two enumerated tokens that are
    stored carry one symbol and no later token does, the entry under that
    symbol is the later token's and it is the only one: the earlier token
    does not appear. *)
Theorem holdings_one_entry_per_symbol :
  (forall alchemy blockvision native_balance,
      well_keyed (get_wallet_all_tokens alchemy blockvision native_balance))
  /\ (forall info bal native_balance token_addresses,
        well_keyed (get_tokens_from_history info bal native_balance token_addresses))
  /\ (forall data blockvision native_balance h before t1 between t2 after s v1 v2,
        alchemy_tier data = Some h ->
        ad_tokens data = (before ++ t1 :: between ++ t2 :: after)%list ->
        alchemy_entry t1 = Some (s, v1) ->
        alchemy_entry t2 = Some (s, v2) ->
        address v1 <> address v2 ->
        (forall t v, In t after -> alchemy_entry t <> Some (s, v)) ->
        get_wallet_all_tokens (Some data) blockvision native_balance = h
        /\ get s h = Some v2
        /\ (forall v, In (s, v) h -> v = v2)
        /\ ~ In (s, v1) h)
  /\ (forall info bal native_balance before a1 between a2 after i1 i2,
        info a1 = Some i1 -> info a2 = Some i2 ->
        ti_symbol i1 = ti_symbol i2 -> a1 <> a2 ->
        Qgtb (bal a1) 0 = true -> Qgtb (bal a2) 0 = true ->
        (forall a v, In a after ->
           history_entry info bal a <> Some (ti_symbol i2, v)) ->
        let h := get_tokens_from_history info bal native_balance
                   (before ++ a1 :: between ++ a2 :: after) in
        exists v2,
          get (ti_symbol i2) h = Some v2
          /\ address v2 = a2
          /\ (forall v, In (ti_symbol i2, v) h -> address v = a2))
  /\ (forall alchemy native_balance before t1 between t2 after s v1 v2,
        match alchemy with Some d => alchemy_tier d | None => None end = None ->
        blockvision_entry t1 = Some (s, v1) ->
        blockvision_entry t2 = Some (s, v2) ->
        address v1 <> address v2 ->
        (forall t v, In t after -> blockvision_entry t <> Some (s, v)) ->
        let h := get_wallet_all_tokens alchemy
                   (Some (before ++ t1 :: between ++ t2 :: after)%list)
                   native_balance in
        get s h = Some v2
        /\ (forall v, In (s, v) h -> v = v2)
        /\ ~ In (s, v1) h).
Proof.
  split; [exact wallet_tokens_keyed|]. split; [exact history_tokens_keyed|].
  split; [|split].
  - intros data blockvision native_balance h before t1 between t2 after s v1 v2
      Ht Hl E1 E2 Hne Hafter.
    split; [unfold get_wallet_all_tokens; now rewrite Ht|].
    destruct (alchemy_tier_put_all _ _ Ht) as (init & Hi & ->).
    rewrite Hl.
    destruct (later_wins alchemy_entry before t1 between t2 after init s v2
                Hi E2 Hafter) as [G U].
    split; [exact G|]. split; [exact U|].
    intros Hin. apply U in Hin. congruence.
  - intros info bal native_balance before a1 between a2 after i1 i2
      H1 H2 Hs Hne B1 B2 Hafter h.
    destruct (history_put_all info bal native_balance
                (before ++ a1 :: between ++ a2 :: after)) as (init & Hi & E).
    assert (E2 : history_entry info bal a2
                 = Some (ti_symbol i2,
                         {| symbol := ti_symbol i2; name := ti_name i2;
                            balance := bal a2; decimals := Some (ti_decimals i2);
                            address := a2; verified := true; imageURL := None;
                            balance_increase := None; tx_hash := None |})).
    { unfold history_entry. now rewrite H2, B2. }
    destruct (later_wins (history_entry info bal) before a1 between a2 after init
                _ _ Hi E2 Hafter) as [G U].
    unfold h. rewrite E. eexists. split; [exact G|]. split; [reflexivity|].
    intros v Hin. apply U in Hin. now subst.
  - intros alchemy native_balance before t1 between t2 after s v1 v2
      Ha E1 E2 Hne Hafter h.
    unfold h, get_wallet_all_tokens. rewrite Ha. unfold blockvision_tier.
    rewrite (fold_left_put _ blockvision_entry _ blockvision_step_put).
    destruct (later_wins blockvision_entry before t1 between t2 after [] s v2
                well_keyed_nil E2 Hafter) as [G U].
    split; [exact G|]. split; [exact U|].
    intros Hin. apply U in Hin. congruence.
Qed.

(** Two contracts that both call themselves USDC, through each of the three
    enumerations: the entry under the symbol is the later contract's. *)
Lemma holdings_one_entry_per_symbol_witness :
  (exists v2,
      get "USDC" (get_wallet_all_tokens (Some usdc_twice) None 0) = Some v2
      /\ address v2 = "0x7777777777777777777777777777777777777777"%string)
  /\ (exists v2,
        get "USDC"
          (get_tokens_from_history usdc_info usdc_balance 2
             ["0xf817257fed379853cde0fa4f97ab987181b1e5ea";
              "0x7777777777777777777777777777777777777777"]%string) = Some v2
        /\ address v2 = "0x7777777777777777777777777777777777777777"%string)
  /\ (exists v2,
        get "USDC" (get_wallet_all_tokens None (Some usdc_twice_blockvision) 0)
        = Some v2
        /\ address v2 = "0x7777777777777777777777777777777777777777"%string).
Proof.
  split; [|split].
  - destruct (proj1 (proj2 (proj2 holdings_one_entry_per_symbol))
                usdc_twice None 0%Q _ []
                {| at_symbol := Some "USDC"; at_name := Some "USD Coin";
                   at_balance := Some (NumStr 3); at_decimals := Some 6;
                   at_address :=
                     Some "0xf817257fed379853cde0fa4f97ab987181b1e5ea" |}
                []
                {| at_symbol := Some "USDC"; at_name := Some "Fake";
                   at_balance := Some (NumStr 4); at_decimals := Some 18;
                   at_address :=
                     Some "0x7777777777777777777777777777777777777777" |}
                [] "USDC"%string _ _
                eq_refl eq_refl eq_refl eq_refl ltac:(discriminate)
                ltac:(intros ? ? [])) as (E & G & _).
    eexists. rewrite E. split; [exact G | reflexivity].
  - destruct (proj1 (proj2 (proj2 (proj2 holdings_one_entry_per_symbol)))
                usdc_info usdc_balance 2%Q []
                "0xf817257fed379853cde0fa4f97ab987181b1e5ea"%string []
                "0x7777777777777777777777777777777777777777"%string []
                {| ti_name := "USD Coin"; ti_symbol := "USDC"; ti_decimals := 6 |}
                {| ti_name := "Fake"; ti_symbol := "USDC"; ti_decimals := 18 |}
                eq_refl eq_refl eq_refl ltac:(discriminate) eq_refl eq_refl
                ltac:(intros ? ? [])) as (v2 & G & A & _).
    exists v2. split; [exact G | exact A].
  - destruct (proj2 (proj2 (proj2 (proj2 holdings_one_entry_per_symbol)))
                None 0%Q []
                {| bv_symbol := Some "USDC"; bv_balance := Some (NumStr 3);
                   bv_contractAddress :=
                     Some "0xf817257fed379853cde0fa4f97ab987181b1e5ea";
                   bv_name := Some "USD Coin"; bv_verified := Some true;
                   bv_imageURL := None |}
                []
                {| bv_symbol := Some "USDC"; bv_balance := Some (NumStr 4);
                   bv_contractAddress :=
                     Some "0x7777777777777777777777777777777777777777";
                   bv_name := Some "Fake"; bv_verified := None;
                   bv_imageURL := None |}
                [] "USDC"%string _ _
                eq_refl eq_refl eq_refl ltac:(discriminate)
                ltac:(intros ? ? [])) as (G & _).
    eexists. split; [exact G | reflexivity].
Defined.

End KeyedFacts.


(* ================================================================== *)
(** * Further theorems *)
(* ================================================================== *)

(** ** Escaping for the message markup *)

Module MarkdownFacts.
Import Markdown.

Lemma char_in_In (c : ascii) (cs : list ascii) : char_in c cs = true <-> In c cs.
Proof.
  unfold char_in. rewrite existsb_exists. split.
  - intros [d [Hd E]]. apply Ascii.eqb_eq in E. now subst.
  - intros H. exists c. split; [exact H | apply Ascii.eqb_refl].
Qed.

Lemma char_in_cons (c d : ascii) (cs : list ascii) :
  char_in c (d :: cs) = (Ascii.eqb c d || char_in c cs)%bool.
Proof. reflexivity. Qed.

(** One more replacement extends a pass by one character. *)
Lemma replace_after_pass (c : ascii) (cs : list ascii) (text : string) :
  c <> backslash -> char_in c cs = false ->
  replace_char c (escape_with cs text) = escape_with (c :: cs) text.
Proof.
  intros Hb Hc. induction text as [|a r IH]; [reflexivity|].
  cbn [escape_with]. rewrite char_in_cons.
  destruct (char_in a cs) eqn:Ha.
  - rewrite orb_true_r. cbn [replace_char].
    destruct (Ascii.eqb_spec backslash c) as [E|_]; [congruence|].
    destruct (Ascii.eqb_spec a c) as [E|_]; [congruence|].
    now rewrite IH.
  - rewrite orb_false_r. cbn [replace_char].
    destruct (Ascii.eqb_spec a c) as [->|_]; now rewrite IH.
Qed.

Lemma escape_with_nil (text : string) : escape_with [] text = text.
Proof. induction text as [|a r IH]; simpl; [reflexivity | now rewrite IH]. Qed.

Lemma escape_with_ext (cs ds : list ascii) (text : string) :
  (forall c, char_in c cs = char_in c ds) ->
  escape_with cs text = escape_with ds text.
Proof.
  intros H. induction text as [|a r IH]; simpl; [reflexivity|].
  now rewrite H, IH.
Qed.

Lemma fold_replace (todo done : list ascii) (text : string) :
  NoDup (todo ++ done) -> ~ In backslash todo ->
  fold_left (fun t c => replace_char c t) todo (escape_with done text)
  = escape_with (rev todo ++ done) text.
Proof.
  revert done. induction todo as [|c todo IH]; intros done Hnd Hb; simpl.
  - reflexivity.
  - inversion Hnd as [|? ? Hnotin Hnd']; subst.
    rewrite replace_after_pass.
    + rewrite IH.
      * now rewrite <- app_assoc.
      * apply (NoDup_Add (Add_app c todo done)). now split.
      * intros H. apply Hb. now right.
    + intros ->. apply Hb. now left.
    + destruct (char_in c done) eqn:E; [|reflexivity].
      apply char_in_In in E. exfalso. apply Hnotin. apply in_or_app. now right.
Qed.

(** The eighteen replacements amount to one pass over the text. *)
Lemma escape_one_pass (text : string) :
  escape_markdown text = escape_with special_chars text.
Proof.
  unfold escape_markdown.
  rewrite <- (escape_with_nil text) at 1.
  rewrite fold_replace.
  - apply escape_with_ext. intros c. rewrite app_nil_r.
    destruct (char_in c special_chars) eqn:E.
    + apply char_in_In. rewrite <- in_rev. now apply char_in_In.
    + destruct (char_in c (rev special_chars)) eqn:F; [|reflexivity].
      apply char_in_In in F. rewrite <- in_rev in F.
      apply char_in_In in F. congruence.
  - rewrite app_nil_r. unfold special_chars.
    repeat (constructor; [simpl; intuition discriminate|]). constructor.
  - simpl. unfold backslash. intuition discriminate.
Qed.

Lemma escape_with_app (cs : list ascii) (a b : string) :
  escape_with cs (a ++ b) = (escape_with cs a ++ escape_with cs b)%string.
Proof.
  induction a as [|c a IH]; simpl; [reflexivity|].
  destruct (char_in c cs); simpl; now rewrite IH.
Qed.

Lemma escape_with_length (text : string) :
  String.length (escape_with special_chars text)
  = (String.length text + count_special text)%nat.
Proof.
  induction text as [|a r IH]; [reflexivity|].
  cbn [escape_with count_special].
  destruct (char_in a special_chars); cbn [String.length]; rewrite IH; lia.
Qed.

(** X1.  [escape_markdown] works character by character: the escaped form
    of a text put together from two parts is the two escaped forms put
    together, and the escaped text is longer than the text by the number of
    special characters in it. *)
Theorem escape_markdown_splits (a b : string) :
  escape_markdown (a ++ b) = (escape_markdown a ++ escape_markdown b)%string
  /\ String.length (escape_markdown a)
     = (String.length a + count_special a)%nat.
Proof.
  rewrite !escape_one_pass. split.
  - apply escape_with_app.
  - apply escape_with_length.
Qed.

Lemma escaped_head (text : string) :
  match escape_with special_chars text with
  | EmptyString => True
  | String a _ => char_in a special_chars = false
  end.
Proof.
  destruct text as [|a r]; [exact I|]. cbn [escape_with].
  destruct (char_in a special_chars) eqn:E; [reflexivity | exact E].
Qed.

Lemma unescape_escape_with (text : string) :
  unescape (escape_with special_chars text) = text.
Proof.
  induction text as [|a r IH]; [reflexivity|].
  cbn [escape_with]. destruct (char_in a special_chars) eqn:E.
  - cbn [unescape]. rewrite Ascii.eqb_refl, E. cbn [andb]. now rewrite IH.
  - pose proof (escaped_head r) as H.
    destruct (escape_with special_chars r) as [|b r'] eqn:Er.
    + cbn [unescape]. destruct r as [|d r]; [reflexivity|].
      cbn [escape_with] in Er. destruct (char_in d special_chars); discriminate.
    + change (unescape (String a (String b r')))
        with (if (Ascii.eqb a backslash && char_in b special_chars)%bool
              then String b (unescape r')
              else String a (unescape (String b r'))).
      rewrite H, andb_false_r. now rewrite IH.
Qed.

(** X2.  Nothing is lost in escaping: reading each backslash before a
    special character as that character gives the text back, so two
    different texts never have the same escaped form. *)
Theorem escape_markdown_lossless :
  (forall text, unescape (escape_markdown text) = text)
  /\ (forall a b, escape_markdown a = escape_markdown b -> a = b).
Proof.
  assert (R : forall text, unescape (escape_markdown text) = text)
    by (intros; rewrite escape_one_pass; apply unescape_escape_with).
  split; [exact R|].
  intros a b H. rewrite <- (R a), <- (R b). now rewrite H.
Qed.

Lemma escape_markdown_lossless_witness :
  unescape (escape_markdown "1.5 (a_b)") = "1.5 (a_b)"%string.
Proof. apply (proj1 escape_markdown_lossless). Defined.

End MarkdownFacts.


(** ** The pages of the gallery *)

Module NftFacts.
Import Nft.

Lemma chunks_concat {A : Type} (k : nat) :
  forall l : list A,
    (List.length l <= 5 * k)%nat ->
    List.concat (map (fun i => firstn 5 (skipn (5 * i) l)) (seq 0 k)) = l.
Proof.
  induction k as [|k IH]; intros l Hl.
  - destruct l; [reflexivity | simpl in Hl; lia].
  - change (seq 0 (S k)) with (0 :: seq 1 k)%nat. rewrite <- seq_shift.
    cbn [map]. rewrite map_map. cbn [List.concat].
    replace (map (fun i => firstn 5 (skipn (5 * S i) l)) (seq 0 k))
      with (map (fun i => firstn 5 (skipn (5 * i) (skipn 5 l))) (seq 0 k)).
    + rewrite IH.
      * change (5 * 0)%nat with 0%nat. simpl skipn at 1. apply firstn_skipn.
      * rewrite length_skipn. lia.
    + apply map_ext. intros i. rewrite skipn_skipn. f_equal. f_equal. lia.
Qed.

(** A page in range is the next five items, or what is left of them. *)
Lemma page_is_chunk {A : Type} (nfts : list A) (page : Z) :
  0 <= page ->
  page_nfts nfts page = firstn 5 (skipn (5 * Z.to_nat page) nfts).
Proof.
  intros Hp. unfold page_nfts, py_slice, clamp_index, nfts_per_page.
  set (n := Z.of_nat (List.length nfts)).
  assert (Hn : 0 <= n) by (unfold n; lia).
  destruct (Z.ltb_spec (page * 5) 0); [lia|].
  destruct (Z.ltb_spec (Z.min (page * 5 + 5) n) 0); [lia|].
  destruct (Z_le_gt_dec n (page * 5)) as [Hbig|Hsmall].
  - rewrite (Z.min_r (page * 5) n) by lia.
    rewrite (skipn_all2 nfts) by (unfold n in *; lia).
    rewrite (skipn_all2 nfts) by (unfold n in *; lia).
    now rewrite !firstn_nil.
  - rewrite (Z.min_l (page * 5) n) by lia.
    replace (Z.to_nat (page * 5)) with (5 * Z.to_nat page)%nat by lia.
    set (rest := skipn (5 * Z.to_nat page) nfts).
    assert (Hr : List.length rest = (List.length nfts - 5 * Z.to_nat page)%nat)
      by (unfold rest; apply length_skipn).
    destruct (Z_le_gt_dec (page * 5 + 5) n) as [Hfull|Hlast].
    + rewrite (Z.min_l (page * 5 + 5) n) by lia.
      rewrite (Z.min_l (page * 5 + 5) n) by lia.
      f_equal. lia.
    + rewrite (Z.min_r (page * 5 + 5) n) by lia.
      rewrite (Z.min_r n n) by lia.
      rewrite !firstn_all2; [reflexivity | | ]; unfold n in *; lia.
Qed.

Lemma total_pages_bounds (total_nfts : Z) :
  0 <= total_nfts ->
  total_nfts <= 5 * total_pages total_nfts < total_nfts + 5.
Proof.
  intros H. unfold total_pages, nfts_per_page.
  pose proof (Z.div_mod (total_nfts + 5 - 1) 5 ltac:(lia)) as E.
  pose proof (Z.mod_pos_bound (total_nfts + 5 - 1) 5 ltac:(lia)) as B.
  lia.
Qed.

(** X3.  The pages of the gallery, taken in order, are the collection:
    each page in range holds between one and five items, the pages put end
    to end give every item once and in order, and a page past the last one
    is empty. *)
Theorem gallery_pages_cover {A : Type} (nfts : list A) :
  let total_nfts := Z.of_nat (List.length nfts) in
  List.concat (map (page_nfts nfts) (page_numbers total_nfts)) = nfts
  /\ (forall page,
        0 <= page < total_pages total_nfts ->
        (1 <= List.length (page_nfts nfts page) <= 5)%nat)
  /\ (forall page,
        total_pages total_nfts <= page -> page_nfts nfts page = []).
Proof.
  intros total_nfts. subst total_nfts.
  pose proof (total_pages_bounds (Z.of_nat (List.length nfts)) ltac:(lia)) as B.
  split; [|split].
  - unfold page_numbers. rewrite map_map.
    rewrite (map_ext _ (fun i => firstn 5 (skipn (5 * i) nfts))).
    + apply chunks_concat. lia.
    + intros i. rewrite page_is_chunk by lia. now rewrite Nat2Z.id.
  - intros page Hp. rewrite page_is_chunk by lia.
    rewrite length_firstn, length_skipn. lia.
  - intros page Hp.
    assert (0 <= page) by lia.
    rewrite page_is_chunk by lia.
    rewrite skipn_all2; [apply firstn_nil | lia].
Qed.

Lemma gallery_pages_cover_witness :
  (1 <= List.length (page_nfts [1; 2; 3; 4; 5; 6; 7]%Z 1%Z) <= 5)%nat.
Proof.
  apply (proj1 (proj2 (gallery_pages_cover [1; 2; 3; 4; 5; 6; 7]))).
  vm_compute. split; [discriminate | reflexivity].
Defined.

(** X4.  A pagination button always leads to a page of the gallery: from a
    page in range, "previous" is offered exactly when there is an earlier
    page and "next" exactly when there is a later one, and each leads to a
    page in range; a gallery of one page, or of none, shows neither,
    whatever page is asked for. *)
Theorem gallery_buttons_stay_in_range (total_nfts page : Z) :
  (0 <= page < total_pages total_nfts ->
   (previous_button total_nfts page = Some (page - 1) <-> 0 < page)
   /\ (previous_button total_nfts page = None <-> page = 0)
   /\ (next_button total_nfts page = Some (page + 1)
       <-> page < total_pages total_nfts - 1)
   /\ (next_button total_nfts page = None <-> page = total_pages total_nfts - 1)
   /\ (forall target,
         previous_button total_nfts page = Some target
         \/ next_button total_nfts page = Some target ->
         0 <= target < total_pages total_nfts))
  /\ (total_pages total_nfts <= 1 ->
      previous_button total_nfts page = None
      /\ next_button total_nfts page = None).
Proof.
  split.
  - intros Hp. unfold previous_button, next_button.
    destruct (Z.ltb_spec 1 (total_pages total_nfts));
      destruct (Z.ltb_spec 0 page);
      destruct (Z.ltb_spec page (total_pages total_nfts - 1)); simpl;
      repeat split; intros; try lia; try discriminate; try reflexivity;
      try (match goal with
           | H : _ \/ _ |- _ => destruct H as [H|H]; try discriminate H;
                                injection H as <-; lia
           end).
  - intros Hone. unfold previous_button, next_button.
    destruct (Z.ltb_spec 1 (total_pages total_nfts)); [lia|].
    split; reflexivity.
Qed.

Lemma gallery_buttons_stay_in_range_witness :
  (previous_button 7 1 = Some (1 - 1) /\ next_button 7 1 = None)
  /\ (previous_button 0 0 = None /\ next_button 0 0 = None).
Proof.
  split.
  - destruct (proj1 (gallery_buttons_stay_in_range 7 1)
                ltac:(vm_compute; split; [discriminate | reflexivity]))
      as (P & _ & _ & N & _).
    split; [apply P; lia | apply N; reflexivity].
  - apply (proj2 (gallery_buttons_stay_in_range 0 0)).
    vm_compute. discriminate.
Defined.

End NftFacts.


(** ** Balance enumeration *)

Module EnumerationFacts.
Import PyStr PyDict PyDictFacts Blockchain HoldingsFacts Chain Samples.

Lemma Qgtb_lt (a b : Q) : Qgtb a b = true <-> (b < a)%Q.
Proof.
  unfold Qgtb. rewrite negb_true_iff. split.
  - intros H. apply Qnot_le_lt. intros L. apply Qle_bool_iff in L. congruence.
  - intros H. destruct (Qle_bool a b) eqn:E; [|reflexivity].
    apply Qle_bool_iff in E. exfalso. exact (Qlt_not_le _ _ H E).
Qed.

Lemma Qeqb_false_neq (a b : Q) : Qeqb a b = false <-> ~ (a == b)%Q.
Proof.
  unfold Qeqb. split.
  - intros H E. apply Qeq_bool_iff in E. congruence.
  - intros H. destruct (Qeq_bool a b) eqn:E; [|reflexivity].
    apply Qeq_bool_iff in E. contradiction.
Qed.

(** Every entry of the first tier has a positive balance and carries the
    verdict of [_is_token_verified] on its own address and symbol. *)
Lemma alchemy_tier_entries (data : AlchemyData) (h : Holdings) :
  alchemy_tier data = Some h ->
  forall key token_data,
    In (key, token_data) h ->
    (0 < balance token_data)%Q
    /\ verified token_data
       = _is_token_verified (address token_data) (symbol token_data).
Proof.
  intros Ht.
  assert (Hentry : forall t k v, alchemy_entry t = Some (k, v) ->
            (0 < balance v)%Q
            /\ verified v = _is_token_verified (address v) (symbol v)).
  { intros t k v. unfold alchemy_entry.
    destruct (float_of_str _) as [b|]; [|discriminate].
    destruct (Qgtb b 0) eqn:E; [|discriminate].
    intros H. injection H as <- <-. simpl. split; [now apply Qgtb_lt | reflexivity]. }
  unfold alchemy_tier, alchemy_native in Ht.
  assert (Hloop : forall init,
            (forall k v, In (k, v) init ->
               (0 < balance v)%Q
               /\ verified v = _is_token_verified (address v) (symbol v)) ->
            alchemy_loop init (ad_tokens data) = Some h ->
            forall k v, In (k, v) h ->
              (0 < balance v)%Q
              /\ verified v = _is_token_verified (address v) (symbol v)).
  { intros init Hinit Hl. apply alchemy_loop_put_all in Hl. subst h.
    apply (put_all_entries
             (fun k v => (0 < balance v)%Q
                /\ verified v = _is_token_verified (address v) (symbol v)));
      [|exact Hinit].
    intros k v Hin. apply in_map_iff in Hin. destruct Hin as [t [E _]].
    exact (Hentry t k v E). }
  destruct (num_str_truthy _).
  - destruct (float_of_str _) as [b|]; [|discriminate].
    destruct (Qgtb b 0) eqn:E.
    + eapply Hloop; [|exact Ht].
      intros k v [H|[]]. injection H as <- <-. simpl.
      split; [now apply Qgtb_lt | reflexivity].
    + eapply Hloop; [|exact Ht]. intros ? ? [].
  - eapply Hloop; [|exact Ht]. intros ? ? [].
Qed.

(** X5.  When the first helper answers, the map returned is its tier's,
    whatever the other two would have given; every entry of it has a
    positive balance, and its verified flag is the verdict of
    [_is_token_verified] on its own address and symbol, the native entry
    included. *)
Theorem primary_tier_flags
    (data : AlchemyData) (h : Holdings)
    (blockvision : option (list BlockVisionToken)) (native_balance : Q) :
  alchemy_tier data = Some h ->
  get_wallet_all_tokens (Some data) blockvision native_balance = h
  /\ forall key token_data,
       In (key, token_data) h ->
       (0 < balance token_data)%Q
       /\ verified token_data
          = _is_token_verified (address token_data) (symbol token_data).
Proof.
  intros Ht. split; [unfold get_wallet_all_tokens; now rewrite Ht|].
  exact (alchemy_tier_entries data h Ht).
Qed.

Lemma primary_tier_flags_witness :
  get_wallet_all_tokens (Some usdc_twice) None 0
  = [ ("MON", native_entry 2);
      ("USDC", {| symbol := "USDC"; name := "Fake"; balance := 4;
                  decimals := Some 18;
                  address := "0x7777777777777777777777777777777777777777";
                  verified := true; imageURL := None;
                  balance_increase := None; tx_hash := None |}) ].
Proof.
  apply (proj1 (primary_tier_flags usdc_twice _ None 0 eq_refl)).
Defined.

(** X6.  No tier stores a holding with a zero balance, and when both
    helpers fail the map holds the native entry alone, or nothing when the
    native balance is zero. *)
Theorem no_zero_balance_entries
    (alchemy : option AlchemyData)
    (blockvision : option (list BlockVisionToken)) (native_balance : Q) :
  (forall key token_data,
      In (key, token_data)
         (get_wallet_all_tokens alchemy blockvision native_balance) ->
      ~ (balance token_data == 0)%Q)
  /\ ((match alchemy with Some d => alchemy_tier d | None => None end) = None ->
      blockvision = None ->
      get_wallet_all_tokens alchemy blockvision native_balance
      = if Qeqb native_balance 0 then []
        else [("MON"%string, native_entry native_balance)]).
Proof.
  split.
  - intros key token_data. unfold get_wallet_all_tokens.
    destruct (match alchemy with Some d => alchemy_tier d | None => None end)
      as [h|] eqn:Ea.
    + destruct alchemy as [data|]; [|discriminate].
      intros Hin.
      destruct (alchemy_tier_entries data h Ea _ _ Hin) as [Hpos _].
      intros E. rewrite E in Hpos. exact (Qlt_irrefl _ Hpos).
    + destruct blockvision as [tokens_data|].
      * unfold blockvision_tier.
        rewrite (fold_left_put _ blockvision_entry _ blockvision_step_put).
        apply (put_all_entries (fun k v => ~ (balance v == 0)%Q));
          [|intros ? ? []].
        intros k v Hin. apply in_map_iff in Hin. destruct Hin as [t [E _]].
        unfold blockvision_entry in E.
        destruct (float_of_str _) as [b|]; [|discriminate].
        destruct (Qeqb b 0) eqn:Eb; [discriminate|].
        injection E as <- <-. simpl. now apply Qeqb_false_neq.
      * unfold native_only.
        destruct (Qeqb native_balance 0) eqn:Eb; simpl; [intros []|].
        intros [H|[]]. injection H as <- <-. simpl. now apply Qeqb_false_neq.
  - intros Ea ->. unfold get_wallet_all_tokens. rewrite Ea.
    unfold native_only. now destruct (Qeqb native_balance 0).
Qed.

Lemma no_zero_balance_entries_witness :
  get_wallet_all_tokens None None 0 = []
  /\ get_wallet_all_tokens None None 3 = [("MON"%string, native_entry 3)].
Proof.
  split.
  - apply (proj2 (no_zero_balance_entries None None 0) eq_refl eq_refl).
  - apply (proj2 (no_zero_balance_entries None None 3) eq_refl eq_refl).
Defined.

Lemma mem_set_mono {V} (k k' : string) (v : V) (d : dict V) :
  mem k' d = true -> mem k' (set k v d) = true.
Proof.
  unfold mem. destruct (String.eqb_spec k' k) as [->|Hne].
  - now rewrite get_set_same.
  - now rewrite get_set_other.
Qed.

(** A key once stored stays a key. *)
Lemma mem_put_all_mono {V} (k : string) (es : list (option (string * V)))
    (d : dict V) :
  mem k d = true -> mem k (fold_left put es d) = true.
Proof.
  revert d. induction es as [|e es IH]; intros d H; simpl; [exact H|].
  apply IH. destruct e as [[k0 v0]|]; simpl; [now apply mem_set_mono | exact H].
Qed.

Lemma balances_fold info bal (addrs : list string) :
  forall acc,
    fold_left (balances_step info bal) addrs acc
    = (acc ++ fold_left (balances_step info bal) addrs [])%list.
Proof.
  induction addrs as [|a addrs IH]; intros acc; simpl.
  - now rewrite app_nil_r.
  - rewrite IH. rewrite (IH (balances_step info bal [] a)).
    rewrite app_assoc. f_equal.
    unfold balances_step. destruct (info a); [|now rewrite app_nil_r].
    destruct (Qgtb (bal a) 0); [reflexivity | now rewrite app_nil_r].
Qed.

(** The list holds, in the order given, the addresses with a positive
    balance whose contract answers. *)
Lemma balances_addresses info bal (addrs : list string) :
  map tb_address (get_all_tokens_balances info bal addrs)
  = filter (has_balance info bal) addrs.
Proof.
  unfold get_all_tokens_balances.
  induction addrs as [|a addrs IH]; simpl; [reflexivity|].
  rewrite balances_fold, map_app, IH. unfold balances_step, has_balance.
  destruct (info a); [|reflexivity]. destruct (Qgtb (bal a) 0); reflexivity.
Qed.

Lemma balances_members info bal (addrs : list string) (tb : TokenBalance) :
  In tb (get_all_tokens_balances info bal addrs) <->
  exists a i,
    In a addrs /\ info a = Some i /\ Qgtb (bal a) 0 = true
    /\ tb = {| tb_address := a; tb_name := ti_name i; tb_symbol := ti_symbol i;
               tb_decimals := ti_decimals i; tb_balance := bal a |}.
Proof.
  unfold get_all_tokens_balances.
  induction addrs as [|a addrs IH]; simpl.
  - split; [intros [] | intros (a & i & [] & _)].
  - rewrite balances_fold, in_app_iff, IH. split.
    + intros [H|(b & i & Hin & Hrest)].
      * unfold balances_step in H. destruct (info a) as [i|] eqn:Ei; [|destruct H].
        destruct (Qgtb (bal a) 0) eqn:Eb; [|destruct H].
        destruct H as [<-|[]]. exists a, i. auto.
      * exists b, i. auto.
    + intros (b & i & [<-|Hin] & Hi & Hb & ->).
      * left. unfold balances_step. rewrite Hi, Hb. now left.
      * right. exists b, i. auto.
Qed.

(** X7.  The two on-chain enumerations agree: [get_all_tokens_balances]
    lists, in the order given, exactly the addresses whose contract answers
    and whose balance is positive; every entry of [get_tokens_from_history]
    other than the native one is one of these, stored under its symbol and
    marked verified; and every listed token's symbol is a key of the map. *)
Theorem history_matches_list info bal (native_balance : Q) (addrs : list string) :
  map tb_address (get_all_tokens_balances info bal addrs)
  = filter (has_balance info bal) addrs
  /\ (forall key token_data,
        In (key, token_data)
           (get_tokens_from_history info bal native_balance addrs) ->
        (key = "MON"%string /\ token_data = native_entry_history native_balance)
        \/ (verified token_data = true
            /\ In {| tb_address := address token_data;
                     tb_name := name token_data;
                     tb_symbol := key;
                     tb_decimals := or_default (decimals token_data) 18;
                     tb_balance := balance token_data |}
                  (get_all_tokens_balances info bal addrs)))
  /\ (forall tb,
        In tb (get_all_tokens_balances info bal addrs) ->
        mem (tb_symbol tb)
            (get_tokens_from_history info bal native_balance addrs) = true).
Proof.
  split; [apply balances_addresses|]. split.
  - destruct (history_put_all info bal native_balance addrs) as (init & _ & E).
    assert (Hinit : forall k v,
              In (k, v) (if negb (Qeqb native_balance 0)
                         then set "MON" (native_entry_history native_balance) []
                         else []) ->
              k = "MON"%string /\ v = native_entry_history native_balance).
    { intros k v. destruct (negb _); simpl; [|intros []].
      intros [H|[]]. now injection H as <- <-. }
    intros key token_data. unfold get_tokens_from_history.
    rewrite (fold_left_put _ (history_entry info bal) _ (history_step_put info bal)).
    apply (put_all_entries
             (fun k v =>
                (k = "MON"%string /\ v = native_entry_history native_balance)
                \/ (verified v = true
                    /\ In {| tb_address := address v; tb_name := name v;
                             tb_symbol := k;
                             tb_decimals := or_default (decimals v) 18;
                             tb_balance := balance v |}
                          (get_all_tokens_balances info bal addrs)))).
    + intros k v Hin. apply in_map_iff in Hin. destruct Hin as [a [Ea Hin]].
      right. unfold history_entry in Ea.
      destruct (info a) as [i|] eqn:Ei; [|discriminate].
      destruct (Qgtb (bal a) 0) eqn:Eb; [|discriminate].
      injection Ea as <- <-. simpl. split; [reflexivity|].
      apply balances_members. exists a, i. auto.
    + intros k v H. left. now apply Hinit.
  - intros tb Hin. apply balances_members in Hin.
    destruct Hin as (a & i & Hin & Hi & Hb & ->). simpl.
    unfold get_tokens_from_history.
    rewrite (fold_left_put _ (history_entry info bal) _ (history_step_put info bal)).
    apply in_split in Hin. destruct Hin as (before & after & ->).
    rewrite map_app. unfold put_all. rewrite fold_left_app. simpl fold_left.
    apply mem_put_all_mono.
    assert (He : history_entry info bal a
                 = Some (ti_symbol i,
                         {| symbol := ti_symbol i; name := ti_name i;
                            balance := bal a; decimals := Some (ti_decimals i);
                            address := a; verified := true; imageURL := None;
                            balance_increase := None; tx_hash := None |}))
      by (unfold history_entry; now rewrite Hi, Hb).
    rewrite He. simpl put. unfold mem. now rewrite get_set_same.
Qed.

Lemma history_matches_list_witness :
  map tb_address
    (get_all_tokens_balances usdc_info usdc_balance
       [ "0xf817257fed379853cde0fa4f97ab987181b1e5ea";
         "0x9999999999999999999999999999999999999999";
         "0x7777777777777777777777777777777777777777" ])
  = [ "0xf817257fed379853cde0fa4f97ab987181b1e5ea";
      "0x7777777777777777777777777777777777777777" ]%string.
Proof.
  apply (proj1 (history_matches_list usdc_info usdc_balance 2
                  [ "0xf817257fed379853cde0fa4f97ab987181b1e5ea";
                    "0x9999999999999999999999999999999999999999";
                    "0x7777777777777777777777777777777777777777" ])).
Defined.

End EnumerationFacts.


(** ** Trades and transfers: what reaches the node *)

Module TradingFacts.
Import PyStr PyStrFacts Config Blockchain Chain ApproveFacts SwapFacts.
Import Security SecurityFacts Samples Samples2.

(** X8.  A purchase is all or nothing: when [buy_token] returns nothing,
    nothing was handed to the node; when it returns a result, exactly one
    transaction was, a swap that pays the amount given as its value, and the
    hash returned is the one the node gave for it.  It never raises. *)
Theorem buy_token_all_or_nothing
    (w : Web3) (token : string) (amount : Q) (wallet key : string)
    (slippage : spec_float) (gas_mode : string) (s : Submitted) :
  exists r s',
    buy_token w token amount wallet key slippage gas_mode s = (Some r, s')
    /\ (r = None -> s' = s)
    /\ (forall b, r = Some b ->
          exists tx raw,
            s' = (s ++ [(tx, raw)])%list
            /\ tx_value tx = Some (to_wei w amount "ether")
            /\ tx_chainId tx = CHAIN_ID
            /\ send_raw_transaction w raw = Some (buy_tx_hash b)).
Proof.
  unfold buy_token, try_or_None, bind, lift, ret, send.
  destruct (to_checksum_address w token) as [ct|]; simpl;
    [|eexists; eexists; split; [reflexivity | split; [reflexivity | discriminate]]].
  destruct (to_checksum_address w WETH_ADDRESS) as [cw|]; simpl;
    [|eexists; eexists; split; [reflexivity | split; [reflexivity | discriminate]]].
  destruct (to_checksum_address w wallet) as [cwal|]; simpl;
    [|eexists; eexists; split; [reflexivity | split; [reflexivity | discriminate]]].
  destruct (from_key w key) as [account|]; simpl;
    [|eexists; eexists; split; [reflexivity | split; [reflexivity | discriminate]]].
  destruct (call_getAmountsOut w _ _) as [amounts|]; simpl;
    [|eexists; eexists; split; [reflexivity | split; [reflexivity | discriminate]]].
  destruct (last_item amounts) as [expected|]; simpl;
    [|eexists; eexists; split; [reflexivity | split; [reflexivity | discriminate]]].
  destruct (min_output_of expected slippage) as [m|]; simpl;
    [|eexists; eexists; split; [reflexivity | split; [reflexivity | discriminate]]].
  destruct (get_transaction_count w account) as [nonce|]; simpl;
    [|eexists; eexists; split; [reflexivity | split; [reflexivity | discriminate]]].
  destruct (build_transaction w _) as [tx|] eqn:Eb; simpl;
    [|eexists; eexists; split; [reflexivity | split; [reflexivity | discriminate]]].
  destruct (sign_transaction w tx key) as [raw|]; simpl;
    [|eexists; eexists; split; [reflexivity | split; [reflexivity | discriminate]]].
  destruct (send_raw_transaction w raw) as [h|] eqn:Es; simpl;
    [|eexists; eexists; split; [reflexivity | split; [reflexivity | discriminate]]].
  eexists. eexists. split; [reflexivity|]. split; [discriminate|].
  intros b Hb. injection Hb as <-. exists tx, raw.
  destruct (build_keeps_call _ _ _ Eb) as (_ & _ & _ & V & C).
  rewrite V, C. simpl. auto.
Qed.

(** The outcomes of an approval, whatever the node answers. *)
Lemma approve_token_outcomes (w : Web3) token spender amount key gas_mode s :
  exists r s',
    approve_token w token spender amount key gas_mode s = (Some r, s')
    /\ ((s' = s /\ (r = None \/ r = Some ALREADY_APPROVED))
        \/ exists tx raw h cs,
             s' = (s ++ [(tx, raw)])%list /\ r = Some h
             /\ to_checksum_address w spender = Some cs
             /\ tx_call tx = approve cs amount
             /\ send_raw_transaction w raw = Some h).
Proof.
  unfold approve_token, try_or_None, bind, lift, ret, send.
  destruct (to_checksum_address w token) as [ct|]; simpl;
    [|eexists; eexists; split; [reflexivity | left; auto]].
  destruct (to_checksum_address w spender) as [cs|]; simpl;
    [|eexists; eexists; split; [reflexivity | left; auto]].
  destruct (from_key w key) as [account|]; simpl;
    [|eexists; eexists; split; [reflexivity | left; auto]].
  destruct (call_allowance w ct account cs) as [a|]; simpl;
    [|eexists; eexists; split; [reflexivity | left; auto]].
  destruct (amount <=? a); simpl;
    [eexists; eexists; split; [reflexivity | left; auto]|].
  destruct (get_transaction_count w account) as [nonce|]; simpl;
    [|eexists; eexists; split; [reflexivity | left; auto]].
  destruct (build_transaction w _) as [tx|] eqn:Eb; simpl;
    [|eexists; eexists; split; [reflexivity | left; auto]].
  destruct (sign_transaction w tx key) as [raw|]; simpl;
    [|eexists; eexists; split; [reflexivity | left; auto]].
  destruct (send_raw_transaction w raw) as [h|] eqn:Es; simpl;
    [|eexists; eexists; split; [reflexivity | left; auto]].
  eexists. eexists. split; [reflexivity|]. right.
  exists tx, raw, h, cs. repeat split; try assumption.
  now destruct (build_keeps_call _ _ _ Eb) as (A & _).
Qed.

(** X9.  A sale hands the node at most two transactions, an approval of
    twice the amount sold and then the swap of that amount with the sale's
    deadline.  When [sell_token] returns nothing, the swap was not handed
    over, but the approval may have been; when it returns a result, the swap
    is the last transaction handed over, and an approval hash is reported
    only if an approval went before it.  The amount is the integer part of
    the product that [Decimal] arithmetic gives. *)
Theorem sell_token_leaves_at_most_approval
    (w : Web3) (token : string) (amount : Q) (wallet key : string)
    (slippage : spec_float) (gas_mode : string) (s : Submitted) :
  exists r s' approvals,
    sell_token w token amount wallet key slippage gas_mode s = (Some r, s')
    /\ (approvals = []
        \/ exists tx raw info cs a,
             approvals = [(tx, raw)]
             /\ get_token_info w token = Some info
             /\ to_checksum_address w DEX_ROUTER_ADDRESS = Some cs
             /\ base_units amount (ti_decimals info) = Some a
             /\ tx_call tx = approve cs (a * 2))
    /\ (r = None -> s' = (s ++ approvals)%list)
    /\ (forall b, r = Some b ->
          exists swap raw info a m ct cw cwal,
            s' = (s ++ approvals ++ [(swap, raw)])%list
            /\ get_token_info w token = Some info
            /\ base_units amount (ti_decimals info) = Some a
            /\ to_checksum_address w token = Some ct
            /\ to_checksum_address w WETH_ADDRESS = Some cw
            /\ to_checksum_address w wallet = Some cwal
            /\ tx_call swap
               = swapExactTokensForETH a m [ct; cw] cwal
                   (int_of_Q (time_time w) + 1200)
            /\ send_raw_transaction w raw = Some (sell_tx_hash b)
            /\ (approvals = [] -> sell_approve_hash b = None)).
Proof.
  unfold sell_token, try_or_None, bind, lift, ret, send.
  destruct (to_checksum_address w token) as [ct|]; simpl;
    [|exists None, s, []; rewrite app_nil_r; repeat split; auto; discriminate].
  destruct (to_checksum_address w WETH_ADDRESS) as [cw|]; simpl;
    [|exists None, s, []; rewrite app_nil_r; repeat split; auto; discriminate].
  destruct (to_checksum_address w wallet) as [cwal|]; simpl;
    [|exists None, s, []; rewrite app_nil_r; repeat split; auto; discriminate].
  destruct (to_checksum_address w DEX_ROUTER_ADDRESS) as [cr|] eqn:Er; simpl;
    [|exists None, s, []; rewrite app_nil_r; repeat split; auto; discriminate].
  destruct (get_token_info w token) as [info|] eqn:Ei; simpl;
    [|exists None, s, []; rewrite app_nil_r; repeat split; auto; discriminate].
  destruct (base_units amount (ti_decimals info)) as [a|] eqn:Eu; simpl;
    [|exists None, s, []; rewrite app_nil_r; repeat split; auto; discriminate].
  destruct (approve_token_outcomes w token DEX_ROUTER_ADDRESS (a * 2)
              key gas_mode s) as (ra & s1 & Ea & Hcase).
  rewrite Ea.
  assert (Happ : exists approvals,
            s1 = (s ++ approvals)%list
            /\ (approvals = []
                \/ exists tx raw info' cs a',
                     approvals = [(tx, raw)]
                     /\ Some info = Some info'
                     /\ Some cr = Some cs
                     /\ base_units amount (ti_decimals info') = Some a'
                     /\ tx_call tx = approve cs (a' * 2))
            /\ (approvals = [] ->
                match ra with
                | Some h => if String.eqb h ALREADY_APPROVED then None else Some h
                | None => None
                end = None)).
  { destruct Hcase as [[-> Hr] | (tx & raw & h & cs & -> & -> & Hcs & Hcall & _)].
    - exists []. rewrite app_nil_r. split; [reflexivity|]. split; [now left|].
      intros _. destruct Hr as [->| ->]; reflexivity.
    - exists [(tx, raw)]. split; [reflexivity|]. split.
      + right. exists tx, raw, info, cs, a. rewrite Er in Hcs. auto.
      + discriminate. }
  destruct Happ as (approvals & -> & Hshape & Hhash).
  assert (Hfail : exists r s' approvals0,
            (Some (@None SellResult), (s ++ approvals)%list) = (Some r, s')
            /\ (approvals0 = []
                \/ exists tx raw info' cs a',
                     approvals0 = [(tx, raw)]
                     /\ Some info = Some info'
                     /\ Some cr = Some cs
                     /\ base_units amount (ti_decimals info') = Some a'
                     /\ tx_call tx = approve cs (a' * 2))
            /\ (r = None -> s' = (s ++ approvals0)%list)
            /\ (forall b, r = Some b ->
                  exists swap raw info' a' m ct' cw' cwal',
                    s' = (s ++ approvals0 ++ [(swap, raw)])%list
                    /\ Some info = Some info'
                    /\ base_units amount (ti_decimals info') = Some a'
                    /\ Some ct = Some ct'
                    /\ Some cw = Some cw'
                    /\ Some cwal = Some cwal'
                    /\ tx_call swap
                       = swapExactTokensForETH a' m [ct'; cw'] cwal'
                           (int_of_Q (time_time w) + 1200)
                    /\ send_raw_transaction w raw = Some (sell_tx_hash b)
                    /\ (approvals0 = [] -> sell_approve_hash b = None))).
  { exists None, (s ++ approvals)%list, approvals.
    repeat split; auto; discriminate. }
  simpl.
  destruct (from_key w key) as [account|]; simpl; [|exact Hfail].
  destruct (call_getAmountsOut w _ _) as [amounts|]; simpl; [|exact Hfail].
  destruct (last_item amounts) as [expected|]; simpl; [|exact Hfail].
  destruct (min_output_of expected slippage) as [m|]; simpl; [|exact Hfail].
  destruct (get_transaction_count w account) as [nonce|]; simpl; [|exact Hfail].
  destruct (build_transaction w _) as [tx|] eqn:Eb; simpl; [|exact Hfail].
  destruct (sign_transaction w tx key) as [raw|]; simpl; [|exact Hfail].
  destruct (send_raw_transaction w raw) as [h|] eqn:Es; simpl; [|exact Hfail].
  eexists. eexists. exists approvals. split; [reflexivity|].
  split; [exact Hshape|]. split; [discriminate|].
  intros b Hb. injection Hb as <-. exists tx, raw, info, a, m, ct, cw, cwal.
  simpl. destruct (build_keeps_call _ _ _ Eb) as (Hcall & _).
  split; [now rewrite app_assoc|]. split; [reflexivity|].
  split; [exact Eu|]. split; [reflexivity|]. split; [reflexivity|].
  split; [reflexivity|]. split; [exact Hcall|].
  split; [exact Es | exact Hhash].
Qed.

(** A sale that fails at the quote after a fresh approval: nothing is
    returned, and the approval of twice the amount stays with the node. *)
Example sell_failure_keeps_approval :
  exists tx,
    sell_token quoteless_node token_a 1
      "0x5555555555555555555555555555555555555555" "0xkey" slippage_5_0
      "normal" []
    = (Some None, [(tx, "0xf86b"%string)])
    /\ tx_call tx = approve DEX_ROUTER_ADDRESS (2 * 10 ^ 18).
Proof. eexists. split; [vm_compute; reflexivity | reflexivity]. Qed.

(** X10.  A transfer is all or nothing: when [send_token] returns nothing,
    nothing was handed to the node; when it returns a result, exactly one
    [transfer] was, to the recipient, from the wallet, with a gas limit of
    100000, the fees of the normal tier and the configured chain id.  Its
    amount is the integer part of the product of the amount and ten to the
    token's decimals as [Decimal] arithmetic gives it, rounded to 28
    significant digits. *)
Theorem send_token_all_or_nothing
    {Key : Type} (w : Web3) (n : TransferNode Key)
    (token recipient : string) (amount : Q)
    (wallet : string) (key : Key) (sent : Transfers) :
  (fst (send_token w n token recipient amount wallet key sent) = None ->
   snd (send_token w n token recipient amount wallet key sent) = sent)
  /\ (forall r,
        fst (send_token w n token recipient amount wallet key sent) = Some r ->
        exists tx raw ct decimals,
          snd (send_token w n token recipient amount wallet key sent)
          = (sent ++ [(tx, raw)])%list
          /\ to_checksum_address w token = Some ct
          /\ call_decimals n ct = Some decimals
          /\ tr_contract tx = ct
          /\ Some (tr_recipient tx) = to_checksum_address w recipient
          /\ Some (tr_from tx) = to_checksum_address w wallet
          /\ transfer_units amount decimals = Some (tr_amount tx)
          /\ PyDecimal.mul amount (inject_Z (10 ^ Z.of_N decimals)) <> None
          /\ tr_gas tx = 100000
          /\ tr_maxFeePerGas tx = to_wei w 100 "gwei"
          /\ tr_maxPriorityFeePerGas tx = to_wei w 2 "gwei"
          /\ tr_chainId tx = 10143
          /\ send_raw_transaction w raw = Some (send_tx_hash r)
          /\ send_recipient r = recipient /\ send_amount r = amount).
Proof.
  unfold send_token.
  destruct (to_checksum_address w token) as [ct|]; simpl;
    [|split; [reflexivity | discriminate]].
  destruct (to_checksum_address w recipient) as [cr|]; simpl;
    [|split; [reflexivity | discriminate]].
  destruct (to_checksum_address w wallet) as [cwal|]; simpl;
    [|split; [reflexivity | discriminate]].
  destruct (call_decimals n ct) as [decimals|] eqn:Ed; simpl;
    [|split; [reflexivity | discriminate]].
  destruct (transfer_units amount decimals) as [units|] eqn:Eu; simpl;
    [|split; [reflexivity | discriminate]].
  destruct (get_transaction_count w cwal) as [nonce|]; simpl;
    [|split; [reflexivity | discriminate]].
  destruct (sign_transfer n _ key) as [raw|]; simpl;
    [|split; [reflexivity | discriminate]].
  destruct (send_raw_transaction w raw) as [h|] eqn:Es; simpl;
    [|split; [reflexivity | discriminate]].
  split; [discriminate|]. intros r Hr. injection Hr as <-.
  eexists. exists raw, ct, decimals. simpl.
  assert (Hm : PyDecimal.mul amount (inject_Z (10 ^ Z.of_N decimals)) <> None).
  { unfold transfer_units in Eu. intros E. rewrite E in Eu. discriminate Eu. }
  repeat split; try reflexivity; assumption.
Qed.

(** One and a half tokens of six decimals are 1500000 base units; an amount
    of 29 nines after the point is rounded up to one whole token before the
    integer part is taken. *)
Lemma send_token_all_or_nothing_witness :
  (exists tx raw,
      snd (send_token (answering_node 0 0 0) answering_transfer token_a
             "0x8888888888888888888888888888888888888888" (3 # 2)
             "0x3333333333333333333333333333333333333333" "0xkey" [])
      = [(tx, raw)]
      /\ tr_amount tx = 1500000 /\ tr_gas tx = 100000)
  /\ (exists tx raw,
        snd (send_token (answering_node 0 0 0) answering_transfer token_a
               "0x8888888888888888888888888888888888888888"
               (99999999999999999999999999999 # 100000000000000000000000000000)
               "0x3333333333333333333333333333333333333333" "0xkey" [])
        = [(tx, raw)]
        /\ tr_amount tx = 1000000).
Proof.
  split.
  - assert (H : fst (send_token (answering_node 0 0 0) answering_transfer token_a
                       "0x8888888888888888888888888888888888888888" (3 # 2)
                       "0x3333333333333333333333333333333333333333" "0xkey" [])
                = Some {| send_tx_hash := "0x9f3c"; send_amount := 3 # 2;
                          send_recipient :=
                            "0x8888888888888888888888888888888888888888" |})
      by (vm_compute; reflexivity).
    destruct (proj2 (send_token_all_or_nothing (answering_node 0 0 0)
                answering_transfer token_a
                "0x8888888888888888888888888888888888888888" (3 # 2)
                "0x3333333333333333333333333333333333333333" "0xkey" [])
                _ H)
      as (tx & raw & ct & decimals & E & _ & D & _ & _ & _ & A & _ & G & _).
    exists tx, raw. split; [exact E|]. split; [|exact G].
    injection D as <-. vm_compute in A. now injection A.
  - assert (H : fst (send_token (answering_node 0 0 0) answering_transfer token_a
                       "0x8888888888888888888888888888888888888888"
                       (99999999999999999999999999999
                        # 100000000000000000000000000000)
                       "0x3333333333333333333333333333333333333333" "0xkey" [])
                = Some {| send_tx_hash := "0x9f3c";
                          send_amount :=
                            99999999999999999999999999999
                            # 100000000000000000000000000000;
                          send_recipient :=
                            "0x8888888888888888888888888888888888888888" |})
      by (vm_compute; reflexivity).
    destruct (proj2 (send_token_all_or_nothing (answering_node 0 0 0)
                answering_transfer token_a
                "0x8888888888888888888888888888888888888888"
                (99999999999999999999999999999 # 100000000000000000000000000000)
                "0x3333333333333333333333333333333333333333" "0xkey" [])
                _ H)
      as (tx & raw & ct & decimals & E & _ & D & _ & _ & _ & A & _).
    exists tx, raw. split; [exact E|].
    injection D as <-. vm_compute in A. now injection A.
Defined.

(** X11.  The key that is validated is the key that is stored: the
    address [validate_private_key] returns for a key is the address of what
    the master-key service gives back after storing that key, with or
    without the [0x] prefix on the way in. *)
Theorem validated_key_is_stored_key
    (w : Web3) (f : Fernet) (entropy private_key stored : string) :
  fernet_lawful f -> private_key <> EmptyString ->
  roundtrip f entropy private_key = Ok stored ->
  from_key w stored = validate_private_key w private_key
  /\ validate_private_key w stored = validate_private_key w private_key
  /\ startswith stored "0x" = true.
Proof.
  intros Hf Hp Hr.
  rewrite (roundtrip_normalizes f entropy private_key Hf Hp) in Hr.
  injection Hr as <-.
  assert (Hs : startswith (normalize_key private_key) "0x" = true).
  { unfold normalize_key.
    destruct (startswith private_key "0x") eqn:E; cbn [negb].
    - exact E.
    - apply startswith_prefix. now exists private_key. }
  split; [reflexivity|]. split; [|exact Hs].
  unfold validate_private_key at 1. rewrite Hs. reflexivity.
Qed.

Lemma validated_key_is_stored_key_witness :
  from_key (answering_node 0 0 0) "0xabc"
  = validate_private_key (answering_node 0 0 0) "abc".
Proof.
  apply (validated_key_is_stored_key (answering_node 0 0 0) tag_fernet "iv"
           "abc" "0xabc" SamplesFacts.tag_fernet_lawful
           ltac:(discriminate) eq_refl).
Defined.

End TradingFacts.


(** ** The amount step of a transfer *)

Module SendFlowFacts.
Import PyStr PyStrFacts Config Blockchain Chain Security SecurityPassphrase.
Import Database DatabaseFacts SendFlow Samples Samples2.

(** What [send_token] has done when it is over. *)
Lemma send_token_outcome {Key : Type} (w : Web3) (n : TransferNode Key)
    (token recipient : string) (amount : Q) (wallet : string) (key : Key)
    (sent : Transfers) :
  send_token w n token recipient amount wallet key sent = (None, sent)
  \/ exists r tx raw decimals,
       send_token w n token recipient amount wallet key sent
       = (Some r, (sent ++ [(tx, raw)])%list)
       /\ Some (tr_contract tx) = to_checksum_address w token
       /\ call_decimals n (tr_contract tx) = Some decimals
       /\ transfer_units amount decimals = Some (tr_amount tx)
       /\ Some (tr_recipient tx) = to_checksum_address w recipient.
Proof.
  unfold send_token.
  destruct (to_checksum_address w token) as [ct|]; [|now left].
  destruct (to_checksum_address w recipient) as [cr|]; [|now left].
  destruct (to_checksum_address w wallet) as [cwal|]; [|now left].
  destruct (call_decimals n ct) as [decimals|] eqn:Ed; [|now left].
  destruct (transfer_units amount decimals) as [units|] eqn:Eu; [|now left].
  destruct (get_transaction_count w cwal) as [nonce|]; [|now left].
  cbv zeta.
  destruct (sign_transfer n _ key) as [raw|]; [|now left].
  destruct (send_raw_transaction w raw) as [h|]; [|now left].
  right. eexists. eexists. exists raw, decimals.
  split; [reflexivity|]. simpl. repeat split; auto.
Qed.

(** What the native branch has done when it is over. *)
Lemma native_transfer_outcome (w : Web3) (nn : NativeNode)
    (wallet recipient : string) (amount : Q) (key : option string)
    (sent : Sent) :
  native_transfer w nn wallet recipient amount key sent = (None, sent)
  \/ exists h tx raw,
       native_transfer w nn wallet recipient amount key sent
       = (Some h, {| natives := (natives sent ++ [(tx, raw)])%list;
                     tokens := tokens sent |})
       /\ nt_value tx = to_wei w amount "ether"
       /\ Some (nt_to tx) = to_checksum_address w recipient
       /\ nt_gas tx = 21000.
Proof.
  unfold native_transfer.
  destruct (to_checksum_address w wallet) as [cf|]; [|now left].
  destruct (to_checksum_address w recipient) as [ct|]; [|now left].
  destruct (get_transaction_count w cf) as [nonce|]; [|now left].
  cbv zeta.
  destruct (chain_id nn) as [cid|]; [|now left].
  destruct (sign_native nn _ key) as [raw|]; [|now left].
  destruct (send_raw_transaction w raw) as [h|]; [|now left].
  right. exists h. eexists. exists raw.
  split; [reflexivity|]. simpl. repeat split; auto.
Qed.

(** X12.  One message to the amount step hands at most one transaction to
    the node, and only when the amount typed is positive and no larger than
    the balance recorded when the token was chosen: a native transfer of
    that amount in wei with a gas limit of 21000, or a token transfer, to the
    recipient recorded, whose base units are the integer part of the amount
    times ten to the token's decimals as [Decimal] arithmetic rounds that
    product.  When the step asks for the amount again, nothing was sent. *)
Theorem send_amount_within_balance
    (f : Fernet) (c : PassphraseCipher) (db : Db) (w : Web3)
    (nn : NativeNode) (n : TransferNode (option string))
    (user_id : Z) (token : SendContext) (amount : option Q) (sent : Sent) :
  (fst (handle_send_amount_input f c db w nn n user_id token amount sent)
     = AWAITING_SEND_AMOUNT ->
   snd (handle_send_amount_input f c db w nn n user_id token amount sent) = sent)
  /\ (snd (handle_send_amount_input f c db w nn n user_id token amount sent)
        <> sent ->
      exists a,
        amount = Some a /\ (0 < a)%Q /\ (a <= sc_balance token)%Q
        /\ ((exists tx raw,
               snd (handle_send_amount_input f c db w nn n user_id token
                      amount sent)
               = {| natives := (natives sent ++ [(tx, raw)])%list;
                    tokens := tokens sent |}
               /\ str_in (sc_symbol token) ["MON"; "MONAD"] = true
               /\ nt_value tx = to_wei w a "ether"
               /\ Some (nt_to tx) = to_checksum_address w (sc_recipient token)
               /\ nt_gas tx = 21000)
            \/ (exists tx raw decimals,
                  snd (handle_send_amount_input f c db w nn n user_id token
                         amount sent)
                  = {| natives := natives sent;
                       tokens := (tokens sent ++ [(tx, raw)])%list |}
                  /\ str_in (sc_symbol token) ["MON"; "MONAD"] = false
                  /\ Some (tr_contract tx)
                     = to_checksum_address w (sc_address token)
                  /\ call_decimals n (tr_contract tx) = Some decimals
                  /\ transfer_units a decimals = Some (tr_amount tx)
                  /\ Some (tr_recipient tx)
                     = to_checksum_address w (sc_recipient token)))).
Proof.
  destruct sent as [nat0 tok0].
  unfold handle_send_amount_input.
  destruct amount as [a|]; [|split; [reflexivity | intros H; now elim H]].
  destruct (Qle_bool a 0) eqn:Epos;
    [split; [reflexivity | intros H; now elim H]|].
  destruct (Qgtb a (sc_balance token)) eqn:Ebal;
    [split; [reflexivity | intros H; now elim H]|].
  split; [discriminate|]. cbn [snd fst]. intros Hsent.
  assert (Ha : (0 < a)%Q).
  { apply Qnot_le_lt. intros H. apply Qle_bool_iff in H. congruence. }
  assert (Hb : (a <= sc_balance token)%Q).
  { unfold Qgtb in Ebal. apply negb_false_iff in Ebal.
    now apply Qle_bool_iff. }
  exists a. split; [reflexivity|]. split; [exact Ha|]. split; [exact Hb|].
  revert Hsent. unfold execute_send.
  destruct (get_decrypted_private_key f c db user_id None) as [key|e];
    [|intros H; now elim H].
  destruct (get_user db user_id) as [user|]; [|intros H; now elim H].
  destruct (str_in (sc_symbol token) ["MON"; "MONAD"]) eqn:Enative.
  - destruct (native_transfer_outcome w nn (wallet_address user)
                (sc_recipient token) a key {| natives := nat0; tokens := tok0 |})
      as [E | (h & tx & raw & E & Hv & Ht & Hg)]; rewrite E; cbn [snd].
    + intros H; now elim H.
    + intros _. left. exists tx, raw. cbn [natives tokens].
      repeat split; assumption.
  - cbn [tokens natives].
    destruct (send_token_outcome w n (sc_address token) (sc_recipient token) a
                (wallet_address user) key tok0)
      as [E | (r & tx & raw & decimals & E & Hc & Hd & Hamt & Hr)];
      rewrite E; cbn [snd].
    + intros H; now elim H.
    + intros _. right. exists tx, raw, decimals.
      repeat split; assumption.
Qed.

(** A transfer of 1.5 USDC from the wallet under the master key. *)
Example send_amount_sends_once :
  exists tx,
    handle_send_amount_input tag_fernet prefix_cipher two_wallets
      (answering_node 0 0 0) answering_native keyed_transfer 8 usdc_context
      (Some (3 # 2)) nothing_sent
    = (END, {| natives := []; tokens := [(tx, "0xf8a9")] |})
    /\ tr_amount tx = 1500000
    /\ tr_from tx = "0x2222222222222222222222222222222222222222".
Proof. eexists. split; [vm_compute; reflexivity | split; reflexivity]. Qed.

(** The base units follow the rounding of [Decimal]: an amount of 29 digits
    at 18 decimals is rounded to 28 digits, here one unit above the exact
    product, before the integer part is taken. *)
Example transfer_units_rounded :
  transfer_units (12345678901234567890123456789 # 1000000000000000000) 18
  = Some 12345678901234567890123456790
  /\ transfer_units (3 # 2) 6 = Some 1500000.
Proof. vm_compute. split; reflexivity. Qed.

(** X13.  The amount step asks the store for the key without a passphrase,
    so for a wallet stored under a passphrase it never sends anything,
    whatever the amount, the token and the node. *)
Theorem passphrase_wallet_cannot_send
    (f : Fernet) (c : PassphraseCipher) (db : Db) (w : Web3)
    (nn : NativeNode) (n : TransferNode (option string))
    (user_id : Z) (user : User) (token : SendContext) (amount : option Q)
    (sent : Sent) :
  get_user db user_id = Some user ->
  encrypted_private_key user <> EmptyString ->
  opt_truthy (passphrase_salt user) = true ->
  snd (handle_send_amount_input f c db w nn n user_id token amount sent) = sent.
Proof.
  intros Hu Hk Hs. unfold handle_send_amount_input.
  destruct amount as [a|]; [|reflexivity].
  destruct (Qle_bool a 0); [reflexivity|].
  destruct (Qgtb a (sc_balance token)); [reflexivity|].
  cbn [snd]. unfold execute_send.
  now rewrite (salted_needs_passphrase f c db user_id user None Hu Hk Hs eq_refl).
Qed.

Lemma passphrase_wallet_cannot_send_witness :
  snd (handle_send_amount_input tag_fernet prefix_cipher two_wallets
         (answering_node 0 0 0) answering_native keyed_transfer 7 usdc_context
         (Some (3 # 2)) nothing_sent)
  = nothing_sent.
Proof.
  apply (passphrase_wallet_cannot_send tag_fernet prefix_cipher two_wallets
           (answering_node 0 0 0) answering_native keyed_transfer 7 salted_row
           usdc_context (Some (3 # 2)) nothing_sent).
  - reflexivity.
  - discriminate.
  - reflexivity.
Defined.

End SendFlowFacts.


(** ** The tables *)

Module StoreFacts.
Import PyStr PyStrFacts Security SecurityFacts SecurityPassphrase.
Import Database DatabaseFacts Store Samples SamplesFacts Samples2.

Lemma make_user_fields f c entropy fresh_salt tid wallet key p row :
  make_user f c entropy fresh_salt tid wallet key p = Ok row ->
  telegram_id row = tid /\ wallet_address row = wallet.
Proof.
  unfold make_user. destruct (opt_truthy p).
  - intros H. injection H as <-. now split.
  - destruct (encrypt_private_key f entropy key); [|discriminate].
    intros H. injection H as <-. now split.
Qed.

Lemma find_replace_same (row : User) (us : list User) :
  find (fun u => telegram_id u =? telegram_id row) us <> None ->
  find (fun u => telegram_id u =? telegram_id row) (replace_user row us)
  = Some row.
Proof.
  induction us as [|u us IH]; simpl; [congruence|].
  destruct (telegram_id u =? telegram_id row) eqn:E; simpl.
  - now rewrite Z.eqb_refl.
  - rewrite E. exact IH.
Qed.

Lemma find_replace_other (row : User) (us : list User) (tid' : Z) :
  tid' <> telegram_id row ->
  find (fun u => telegram_id u =? tid') (replace_user row us)
  = find (fun u => telegram_id u =? tid') us.
Proof.
  intros Hne. induction us as [|u us IH]; simpl; [reflexivity|].
  destruct (telegram_id u =? telegram_id row) eqn:E; simpl.
  - apply Z.eqb_eq in E.
    destruct (Z.eqb_spec (telegram_id row) tid'); [congruence|].
    destruct (Z.eqb_spec (telegram_id u) tid'); [congruence|]. reflexivity.
  - destruct (telegram_id u =? tid'); [reflexivity | exact IH].
Qed.

Lemma find_app_last (us : list User) (row : User) (tid' : Z) :
  find (fun u => telegram_id u =? tid') (us ++ [row])
  = match find (fun u => telegram_id u =? tid') us with
    | Some u => Some u
    | None => if telegram_id row =? tid' then Some row else None
    end.
Proof.
  induction us as [|u us IH]; simpl; [reflexivity|].
  destruct (telegram_id u =? tid'); [reflexivity | exact IH].
Qed.

Lemma ids_replace (row : User) (us : list User) :
  map telegram_id (replace_user row us) = map telegram_id us.
Proof.
  induction us as [|u us IH]; simpl; [reflexivity|].
  destruct (telegram_id u =? telegram_id row) eqn:E; simpl.
  - apply Z.eqb_eq in E. now rewrite E.
  - now rewrite IH.
Qed.

Lemma find_none_not_in (us : list User) (tid : Z) :
  find (fun u => telegram_id u =? tid) us = None ->
  ~ In tid (map telegram_id us).
Proof.
  induction us as [|u us IH]; simpl; [tauto|].
  destruct (Z.eqb_spec (telegram_id u) tid); [discriminate|].
  intros H [E|Hin]; [congruence | now apply IH].
Qed.

(** How [update_user_wallet] ends, and what the [users] table holds then. *)
Lemma update_user_wallet_cases f c entropy fresh_salt t tid wallet key p :
  (exists e,
     make_user f c entropy fresh_salt tid wallet key p = Err e
     /\ update_user_wallet f c entropy fresh_salt t tid wallet key p
        = (Raised e, t))
  \/ (exists row t',
        make_user f c entropy fresh_salt tid wallet key p = Ok row
        /\ snd (update_user_wallet f c entropy fresh_salt t tid wallet key p) = t'
        /\ (forall e, fst (update_user_wallet f c entropy fresh_salt t tid
                             wallet key p) <> Raised e)
        /\ snapshots (st_db t') = snapshots (st_db t)
        /\ st_history t' = st_history t
        /\ ((get_user (st_db t) tid <> None
             /\ users (st_db t') = replace_user row (users (st_db t)))
            \/ (get_user (st_db t) tid = None
                /\ users (st_db t') = (users (st_db t) ++ [row])%list))).
Proof.
  unfold update_user_wallet, create_user.
  destruct (make_user f c entropy fresh_salt tid wallet key p) as [row|e] eqn:Em.
  - right. destruct (get_user (st_db t) tid) as [u|] eqn:Eu.
    + exists row. eexists. split; [reflexivity|]. split; [reflexivity|].
      cbn [fst snd]. split; [discriminate|]. simpl.
      split; [reflexivity|]. split; [reflexivity|]. left. split; [congruence | reflexivity].
    + exists row. eexists. split; [reflexivity|]. split; [reflexivity|].
      destruct (_create_default_settings _ tid) as [t2|] eqn:Es; cbn [fst snd].
      * unfold _create_default_settings in Es.
        destruct (get_settings_row _ tid); [discriminate|].
        injection Es as <-. split; [discriminate|]. simpl.
        split; [reflexivity|]. split; [reflexivity|]. right. now split.
      * split; [discriminate|]. simpl.
        split; [reflexivity|]. split; [reflexivity|]. right. now split.
  - left. exists e. split; [reflexivity|].
    destruct (get_user (st_db t) tid); reflexivity.
Qed.

(** After an import that did not fail in the encryption, the row read back
    for the user is the row made for the import, and the rows of the other
    users are read back as before. *)
Lemma get_user_after_import f c entropy fresh_salt t tid wallet key p row :
  make_user f c entropy fresh_salt tid wallet key p = Ok row ->
  get_user (st_db (snd (update_user_wallet f c entropy fresh_salt t tid
                          wallet key p))) tid = Some row
  /\ forall tid', tid' <> tid ->
       get_user (st_db (snd (update_user_wallet f c entropy fresh_salt t tid
                               wallet key p))) tid'
       = get_user (st_db t) tid'.
Proof.
  intros Em.
  destruct (make_user_fields _ _ _ _ _ _ _ _ _ Em) as [Hid _].
  destruct (update_user_wallet_cases f c entropy fresh_salt t tid wallet key p)
    as [(e & Em' & _) | (row' & t' & Em' & Et & _ & _ & _ & Hu)];
    [congruence|].
  rewrite Em in Em'. injection Em' as <-. rewrite Et. unfold get_user in *.
  destruct Hu as [[Hsome ->] | [Hnone ->]].
  - split.
    + rewrite <- Hid. apply find_replace_same. now rewrite Hid.
    + intros tid' Hne. apply find_replace_other. now rewrite Hid.
  - split.
    + rewrite find_app_last, Hnone, Hid. now rewrite Z.eqb_refl.
    + intros tid' Hne. rewrite find_app_last.
      destruct (find (fun u => telegram_id u =? tid') (users (st_db t)));
        [reflexivity|].
      rewrite Hid. destruct (Z.eqb_spec tid tid'); [congruence | reflexivity].
Qed.

(** X14.  A key imported without a passphrase comes back from the store:
    after [update_user_wallet] has returned, [get_decrypted_private_key]
    gives the key with the [0x] prefix in front, whatever passphrase is
    offered, the row carries the new address, and the rows of the other
    users are read back as before. *)
Theorem imported_key_comes_back
    (f : Fernet) (c : PassphraseCipher) (entropy fresh_salt : string)
    (t t' : Tables) (tid : Z) (wallet key : string)
    (passphrase : option string) (row : User) :
  fernet_lawful f ->
  opt_truthy passphrase = false ->
  update_user_wallet f c entropy fresh_salt t tid wallet key passphrase
  = (Returned row, t') ->
  (forall p, get_decrypted_private_key f c (st_db t') tid p
             = Ok (Some (normalize_key key)))
  /\ (exists u, get_user (st_db t') tid = Some u /\ wallet_address u = wallet)
  /\ (forall tid', tid' <> tid ->
        get_user (st_db t') tid' = get_user (st_db t) tid').
Proof.
  intros Hf Hp Hupd.
  destruct (update_user_wallet_cases f c entropy fresh_salt t tid wallet key
              passphrase)
    as [(e & _ & E) | (row' & t'' & Em & _)]; [congruence|].
  destruct (get_user_after_import f c entropy fresh_salt t tid wallet key
              passphrase row' Em) as [Hget Hother].
  rewrite Hupd in Hget, Hother. cbn [snd] in Hget, Hother.
  destruct (make_user_fields _ _ _ _ _ _ _ _ _ Em) as [_ Hw].
  split; [|split; [exists row'; now split | exact Hother]].
  intros p. unfold get_decrypted_private_key. rewrite Hget.
  unfold make_user in Em. rewrite Hp in Em.
  destruct (encrypt_private_key f entropy key) as [ek|] eqn:Ee; [|discriminate].
  injection Em as <-. cbn [encrypted_private_key passphrase_salt opt_truthy].
  assert (Hkey : key <> EmptyString).
  { intros ->. discriminate Ee. }
  pose proof (roundtrip_normalizes f entropy key Hf Hkey) as Hr.
  unfold roundtrip in Hr. rewrite Ee in Hr.
  assert (Hek : truthy ek = true).
  { unfold encrypt_private_key in Ee.
    destruct (negb (truthy key)); [discriminate|]. injection Ee as <-.
    apply truthy_nonempty. apply (fernet_token_nonempty f Hf). }
  rewrite Hek. cbn [negb]. now rewrite Hr.
Qed.

Lemma imported_key_comes_back_witness :
  get_decrypted_private_key tag_fernet prefix_cipher
    (st_db (snd (update_user_wallet tag_fernet prefix_cipher "iv" "c2FsdA"
                   two_wallet_tables 7
                   "0x5555555555555555555555555555555555555555" "beef" None)))
    7 (Some "hunter22")
  = Ok (Some "0xbeef").
Proof.
  apply (imported_key_comes_back tag_fernet prefix_cipher "iv" "c2FsdA"
           two_wallet_tables _ 7 "0x5555555555555555555555555555555555555555"
           "beef" None _ tag_fernet_lawful eq_refl eq_refl).
Defined.

(** X15.  A key imported with a passphrase is not given out without one:
    after [update_user_wallet] has stored it under a salt, asking for the key
    with no passphrase, or with the empty one, raises or finds nothing, and
    never returns a key. *)
Theorem passphrase_import_locks_key
    (f : Fernet) (c : PassphraseCipher) (entropy fresh_salt : string)
    (t : Tables) (tid : Z) (wallet key : string)
    (passphrase asked : option string) :
  opt_truthy passphrase = true ->
  fresh_salt <> EmptyString ->
  opt_truthy asked = false ->
  get_decrypted_private_key f c
    (st_db (snd (update_user_wallet f c entropy fresh_salt t tid wallet key
                   passphrase))) tid asked
  = Err PassphraseRequired
  \/ get_decrypted_private_key f c
       (st_db (snd (update_user_wallet f c entropy fresh_salt t tid wallet key
                      passphrase))) tid asked
     = Ok None.
Proof.
  intros Hp Hs Ha.
  assert (Em : make_user f c entropy fresh_salt tid wallet key passphrase
               = Ok {| telegram_id := tid; wallet_address := wallet;
                       encrypted_private_key :=
                         encrypted_key (encrypt_with_passphrase c fresh_salt
                                          entropy key (opt_str passphrase));
                       passphrase_salt := Some fresh_salt |}).
  { unfold make_user. now rewrite Hp. }
  destruct (get_user_after_import f c entropy fresh_salt t tid wallet key
              passphrase _ Em) as [Hget _].
  unfold get_decrypted_private_key. rewrite Hget.
  cbn [encrypted_private_key passphrase_salt opt_truthy].
  destruct (truthy (encrypted_key _)); cbn [negb]; [|now right].
  apply truthy_nonempty in Hs. rewrite Hs, Ha. now left.
Qed.

Lemma passphrase_import_locks_key_witness :
  get_decrypted_private_key tag_fernet prefix_cipher
    (st_db (snd (update_user_wallet tag_fernet prefix_cipher "iv" "c2FsdA"
                   two_wallet_tables 8
                   "0x5555555555555555555555555555555555555555" "beef"
                   (Some "hunter22"))))
    8 None
  = Err PassphraseRequired.
Proof.
  destruct (passphrase_import_locks_key tag_fernet prefix_cipher "iv" "c2FsdA"
              two_wallet_tables 8 "0x5555555555555555555555555555555555555555"
              "beef" (Some "hunter22") None eq_refl ltac:(discriminate) eq_refl)
    as [H|H]; [exact H | discriminate H].
Defined.

(** X16.  The [users] table keeps one row per user: an import into a table
    whose ids are distinct leaves them distinct, replaces the row of a known
    user in place, adds a row at the end for a new one, and removes no
    user. *)
Theorem one_wallet_per_user
    (f : Fernet) (c : PassphraseCipher) (entropy fresh_salt : string)
    (t : Tables) (tid : Z) (wallet key : string)
    (passphrase : option string) :
  NoDup (map telegram_id (users (st_db t))) ->
  NoDup (map telegram_id
           (users (st_db (snd (update_user_wallet f c entropy fresh_salt t tid
                                 wallet key passphrase)))))
  /\ (map telegram_id
        (users (st_db (snd (update_user_wallet f c entropy fresh_salt t tid
                              wallet key passphrase))))
      = map telegram_id (users (st_db t))
      \/ (~ In tid (map telegram_id (users (st_db t)))
          /\ map telegram_id
               (users (st_db (snd (update_user_wallet f c entropy fresh_salt t
                                     tid wallet key passphrase))))
             = (map telegram_id (users (st_db t)) ++ [tid])%list)).
Proof.
  intros Hnd.
  destruct (update_user_wallet_cases f c entropy fresh_salt t tid wallet key
              passphrase)
    as [(e & _ & E) | (row & t' & Em & Et & _ & _ & _ & Hu)].
  - rewrite E. cbn [snd]. split; [exact Hnd | now left].
  - rewrite Et. destruct (make_user_fields _ _ _ _ _ _ _ _ _ Em) as [Hid _].
    destruct Hu as [[_ ->] | [Hnone ->]].
    + rewrite ids_replace. split; [exact Hnd | now left].
    + apply find_none_not_in in Hnone.
      rewrite map_app. cbn [map]. rewrite Hid. split; [|right; now split].
      apply NoDup_rev in Hnd. rewrite <- (rev_involutive (_ ++ [tid])).
      apply NoDup_rev. rewrite rev_app_distr. cbn [rev app].
      constructor; [|exact Hnd]. now rewrite <- in_rev.
Qed.

Lemma one_wallet_per_user_witness :
  NoDup (map telegram_id
           (users (st_db (snd (update_user_wallet tag_fernet prefix_cipher "iv"
                                 "c2FsdA" two_wallet_tables 9
                                 "0x5555555555555555555555555555555555555555"
                                 "beef" None))))).
Proof.
  apply (one_wallet_per_user tag_fernet prefix_cipher "iv" "c2FsdA"
           two_wallet_tables 9 "0x5555555555555555555555555555555555555555"
           "beef" None).
  vm_compute. repeat constructor; simpl; intuition discriminate.
Defined.

(** X17.  An import for a new user whose settings row is already there
    raises, yet the wallet is stored: the row is committed before the
    settings are made, so it is read back afterwards, and the settings and
    the history stay as they were. *)
Theorem import_survives_settings_clash
    (f : Fernet) (c : PassphraseCipher) (entropy fresh_salt : string)
    (t : Tables) (tid : Z) (wallet key : string)
    (passphrase : option string) (row : User) (settings : UserSettings) :
  get_user (st_db t) tid = None ->
  get_settings_row t tid = Some settings ->
  make_user f c entropy fresh_salt tid wallet key passphrase = Ok row ->
  fst (update_user_wallet f c entropy fresh_salt t tid wallet key passphrase)
  = IntegrityError
  /\ get_user
       (st_db (snd (update_user_wallet f c entropy fresh_salt t tid wallet key
                      passphrase))) tid
     = Some row
  /\ st_settings (snd (update_user_wallet f c entropy fresh_salt t tid wallet
                         key passphrase))
     = st_settings t.
Proof.
  intros Hu Hs Em.
  destruct (get_user_after_import f c entropy fresh_salt t tid wallet key
              passphrase row Em) as [Hget _].
  split; [|split; [exact Hget|]].
  - unfold update_user_wallet, create_user. rewrite Hu, Em.
    unfold _create_default_settings, get_settings_row, with_users.
    cbn [st_settings]. unfold get_settings_row in Hs. now rewrite Hs.
  - unfold update_user_wallet, create_user. rewrite Hu, Em.
    unfold _create_default_settings, get_settings_row, with_users.
    cbn [st_settings]. unfold get_settings_row in Hs. now rewrite Hs.
Qed.

Lemma import_survives_settings_clash_witness :
  fst (update_user_wallet tag_fernet prefix_cipher "iv" "c2FsdA"
         {| st_db := two_wallets; st_settings := [default_settings 9];
            st_history := [] |}
         9 "0x5555555555555555555555555555555555555555" "beef" None)
  = IntegrityError.
Proof.
  apply (import_survives_settings_clash tag_fernet prefix_cipher "iv" "c2FsdA"
           {| st_db := two_wallets; st_settings := [default_settings 9];
              st_history := [] |}
           9 "0x5555555555555555555555555555555555555555" "beef" None
           _ (default_settings 9) eq_refl eq_refl eq_refl).
Defined.

(** X18.  [get_user_settings] always finds a row: for a user without one
    it stores the defaults (slippage 1.0, gas mode normal, anti-MEV off,
    notifications on) and returns them; asking again returns the same row
    and changes nothing. *)
Theorem settings_made_once (t : Tables) (tid : Z) :
  exists settings t',
    get_user_settings t tid = (Returned (Some settings), t')
    /\ us_telegram_id settings = tid
    /\ (get_settings_row t tid = None ->
        settings = default_settings tid
        /\ st_settings t' = (st_settings t ++ [settings])%list)
    /\ (get_settings_row t tid <> None -> t' = t)
    /\ st_db t' = st_db t
    /\ get_user_settings t' tid = (Returned (Some settings), t').
Proof.
  unfold get_user_settings, _create_default_settings.
  destruct (get_settings_row t tid) as [s|] eqn:E.
  - exists s, t. rewrite E. split; [reflexivity|].
    unfold get_settings_row in E. apply find_some in E as [_ E].
    apply Z.eqb_eq in E. repeat split; auto; discriminate.
  - assert (Hnew : get_settings_row
             {| st_db := st_db t;
                st_settings := (st_settings t ++ [default_settings tid])%list;
                st_history := st_history t |} tid
             = Some (default_settings tid)).
    { unfold get_settings_row in *. cbn [st_settings].
      revert E. generalize (st_settings t) as l.
      induction l as [|s l IH]; simpl.
      - intros _. now rewrite Z.eqb_refl.
      - destruct (us_telegram_id s =? tid); [discriminate | exact IH]. }
    eexists. eexists. rewrite Hnew. split; [reflexivity|].
    rewrite Hnew. repeat split; auto. congruence.
Qed.

(** X19.  [get_user_tokens] lists each address once, and after
    [add_token_history] it lists, for the user of the new row, the new
    address beside the old ones, and for every other user what it listed
    before. *)
Theorem history_tokens_distinct
    (t : Tables) (tid tid' : Z) (token_address action amount : string)
    (tx_hash token_name token_symbol : option string) (a : string) :
  NoDup (get_user_tokens t tid')
  /\ (In a (get_user_tokens
              (add_token_history t tid token_address action amount tx_hash
                 token_name token_symbol) tid')
      <-> (tid' = tid /\ a = token_address) \/ In a (get_user_tokens t tid')).
Proof.
  unfold get_user_tokens, add_token_history. cbn [st_history].
  split; [apply NoDup_nodup|].
  rewrite !nodup_In, filter_app, map_app, in_app_iff. cbn [filter th_telegram_id].
  destruct (Z.eqb_spec tid tid') as [->|Hne]; cbn [map In th_token_address].
  - split.
    + intros [H | [H | []]]; [now right | left; now split].
    + intros [[_ ->] | H]; [right; now left | now left].
  - split.
    + intros [H | []]. now right.
    + intros [[E _] | H]; [congruence | now left].
Qed.

End StoreFacts.


(** ** Checks without news *)

Module QuietFacts.
Import PyStr Blockchain Database NotificationMonitor MonitorFacts Samples.

Lemma check_entry_balance (api : TransferApi) (snap : Holdings)
    (k : string) (td : TokenData) :
  balance (fst (check_entry api snap k td)) = balance td.
Proof.
  unfold check_entry.
  destruct (is_native k); [|destruct (negb (verified td));
                            [reflexivity | destruct (negb (PyDict.mem k snap))]].
  - destruct (PyDict.get k snap); [|reflexivity].
    destruct (Qgtb _ _); reflexivity.
  - destruct (Qgtb _ _); reflexivity.
  - destruct (PyDict.get k snap); [|reflexivity].
    destruct (Qgtb _ _); reflexivity.
Qed.

Lemma get_tokens_after (api : TransferApi) (snap cur : Holdings) (k : string) :
  PyDict.get k (tokens_after (check_loop api snap cur))
  = option_map (fun td => fst (check_entry api snap k td)) (PyDict.get k cur).
Proof.
  unfold tokens_after, check_loop, PyDict.items. rewrite map_map.
  induction cur as [|[k' v] cur IH]; simpl; [reflexivity|].
  destruct (String.eqb k k') eqn:E; [|exact IH].
  apply String.eqb_eq in E. now subst.
Qed.

(** A holding that is known and has not grown is not queued. *)
Lemma quiet_entry (api : TransferApi) (snap : Holdings) (k : string)
    (td old : TokenData) :
  PyDict.get k snap = Some old -> (balance td <= balance old)%Q ->
  snd (check_entry api snap k td) = false.
Proof.
  intros Hget Hle. unfold check_entry, PyDict.mem. rewrite Hget.
  assert (Hq : Qgtb (balance td) (balance old) = false).
  { unfold Qgtb. apply negb_false_iff. now apply Qle_bool_iff. }
  rewrite Hq. destruct (is_native k); [reflexivity|].
  destruct (negb (verified td)); reflexivity.
Qed.

Lemma quiet_loop (api : TransferApi) (snap cur : Holdings) :
  (forall k td, In (k, td) cur ->
     exists old, PyDict.get k snap = Some old
                 /\ (balance td <= balance old)%Q) ->
  new_tokens_of (check_loop api snap cur) = [].
Proof.
  unfold new_tokens_of, check_loop, PyDict.items.
  induction cur as [|[k td] cur IH]; intros H; [reflexivity|].
  cbn [map filter fst snd].
  destruct (H k td (or_introl eq_refl)) as (old & Hget & Hle).
  rewrite (quiet_entry api snap k td old Hget Hle).
  apply IH. intros k' td' Hin. apply H. now right.
Qed.

(** The snapshot a check of non-empty holdings leaves behind: not empty,
    and under each symbol the balance that was read. *)
Lemma snapshot_after_check (api : TransferApi) (db : Db) (outbox : Outbox)
    (tid : Z) (cur : Holdings) :
  cur <> [] ->
  get_token_snapshot (fst (check_user_for_new_tokens api db outbox tid cur)) tid
    <> []
  /\ forall k td, PyDict.get k cur = Some td ->
       exists old,
         PyDict.get k
           (get_token_snapshot
              (fst (check_user_for_new_tokens api db outbox tid cur)) tid)
         = Some old
         /\ balance old = balance td.
Proof.
  intros Hne. unfold check_user_for_new_tokens.
  destruct cur as [|e cur]; [congruence|]. cbn [PyDict.truthy negb].
  destruct (negb (PyDict.truthy (get_token_snapshot db tid))); cbn [fst];
    rewrite get_update_snapshot.
  - split; [discriminate|]. intros k td H. now exists td.
  - split.
    + unfold tokens_after, check_loop, PyDict.items. discriminate.
    + intros k td H. rewrite get_tokens_after, H. cbn [option_map].
      eexists. split; [reflexivity | apply check_entry_balance].
Qed.

(** A check against a snapshot that knows every holding read, each with a
    balance at least as large, sends nothing. *)
Lemma check_quiet (api : TransferApi) (db : Db) (outbox : Outbox) (tid : Z)
    (cur : Holdings) :
  get_token_snapshot db tid <> [] ->
  (forall k td, In (k, td) cur ->
     exists old, PyDict.get k (get_token_snapshot db tid) = Some old
                 /\ (balance td <= balance old)%Q) ->
  snd (check_user_for_new_tokens api db outbox tid cur) = outbox.
Proof.
  intros Hs H. unfold check_user_for_new_tokens.
  destruct (negb (PyDict.truthy cur)); [reflexivity|].
  destruct (get_token_snapshot db tid) as [|s snap]; [congruence|].
  cbn [PyDict.truthy negb]. now rewrite quiet_loop.
Qed.

(** X20.  A check sends nothing when there is no news since the check
    before it: if every holding read now was read then too, under the same
    symbol and with a balance at least as large, the second check leaves the
    outbox as the first one left it, whatever the transfer history
    answers. *)
Theorem quiet_without_news
    (api api' : TransferApi) (db : Db) (outbox : Outbox) (tid : Z)
    (cur cur' : Holdings) :
  (forall k td', In (k, td') cur' ->
     exists td, PyDict.get k cur = Some td /\ (balance td' <= balance td)%Q) ->
  snd (check_user_for_new_tokens api'
         (fst (check_user_for_new_tokens api db outbox tid cur))
         (snd (check_user_for_new_tokens api db outbox tid cur)) tid cur')
  = snd (check_user_for_new_tokens api db outbox tid cur).
Proof.
  intros H.
  destruct cur' as [|[k0 td0] rest]; [reflexivity|].
  assert (Hne : cur <> []).
  { destruct (H k0 td0 (or_introl eq_refl)) as (td & Hget & _).
    intros ->. discriminate Hget. }
  destruct (snapshot_after_check api db outbox tid cur Hne) as [Hsnap Hbal].
  apply check_quiet; [exact Hsnap|].
  intros k td' Hin.
  destruct (H k td' Hin) as (td & Hget & Hle).
  destruct (Hbal k td Hget) as (old & Hold & Hb).
  exists old. split; [exact Hold | now rewrite Hb].
Qed.

Lemma quiet_without_news_witness :
  snd (check_user_for_new_tokens silent_api
         (fst (check_user_for_new_tokens silent_api with_snapshot [] 7
                 three_holdings))
         (snd (check_user_for_new_tokens silent_api with_snapshot [] 7
                 three_holdings)) 7 three_holdings)
  = snd (check_user_for_new_tokens silent_api with_snapshot [] 7 three_holdings).
Proof.
  apply (quiet_without_news silent_api silent_api with_snapshot [] 7
           three_holdings three_holdings).
  intros k td' [H | [H | [H | []]]]; injection H as <- <-;
    (eexists; split; [reflexivity | apply Qle_refl]).
Defined.

End QuietFacts.


(** ** The price cache *)

Module PriceCacheFacts.
Import PriceCache PyDictFacts.

(** X22.  A price cached at one moment is served for that address during
    the next 300 seconds and no longer; caching it changes nothing for any
    other address. *)
Theorem cached_price_expires
    (c : Cache) (now later : Q) (token_address other : string)
    (price : spec_float) :
  ((later < now + 300)%Q ->
   get_cached_price (cache_price c now token_address price) later token_address
   = Some price)
  /\ ((now + 300 <= later)%Q ->
      get_cached_price (cache_price c now token_address price) later
        token_address
      = None)
  /\ (other <> token_address ->
      get_cached_price (cache_price c now token_address price) later other
      = get_cached_price c later other).
Proof.
  unfold get_cached_price, cache_price, CACHE_DURATION_SECONDS.
  cbn [_price_cache _cache_expiry].
  rewrite !get_set_same. repeat split.
  - intros H. unfold Qgtb.
    destruct (Qle_bool (now + 300) later) eqn:E; [|reflexivity].
    apply Qle_bool_iff in E. exfalso. now apply (Qlt_not_le _ _ H).
  - intros H. unfold Qgtb. apply Qle_bool_iff in H. now rewrite H.
  - intros H. now rewrite !get_set_other.
Qed.

Lemma cached_price_expires_witness :
  get_cached_price
    (cache_price {| _price_cache := []; _cache_expiry := [] |} 1000 "MON"
       Blockchain.slippage_1_0) 1299 "MON"
  = Some Blockchain.slippage_1_0
  /\ get_cached_price
       (cache_price {| _price_cache := []; _cache_expiry := [] |} 1000 "MON"
          Blockchain.slippage_1_0) 1300 "MON"
     = None.
Proof.
  split.
  - apply (proj1 (cached_price_expires _ 1000 1299 "MON" "MON" _)).
    reflexivity.
  - apply (proj1 (proj2 (cached_price_expires _ 1000 1300 "MON" "MON" _))).
    discriminate.
Defined.

End PriceCacheFacts.
